(** * dgx-spark-prometheus: the collectors, embedded and verified

    A shallow embedding of the five collectors of the exporter
    (collectors/cpu.go, gpu.go, memory.go, disk.go, network.go) and the
    properties of their [Collect] methods.

    Conventions of the embedding:
    - a Go [string] is a Rocq [string] (a sequence of bytes);
    - a [uint64] is a [Z] in [0, 2^64), every operation reduced modulo 2^64;
    - a [float64] is a [spec_float] of the binary64 format (53, 1024), with
      the IEEE 754 operations of [SpecFloat] (round to nearest, ties to even);
    - the channel a collector sends on is the list of samples it sent, in
      sending order;
    - the operating system is a record [System] answering the calls the
      collectors make ([os.ReadFile], [os.Open] followed by a line scanner,
      the nvidia-smi invocation). *)

From Stdlib Require Import ZArith Lia List Bool Ascii String DecimalString QArith.
From Stdlib Require Import Floats.SpecFloat.
From stdpp Require Import gmap strings.
Import ListNotations.

Local Open Scope string_scope.
Local Open Scope Z_scope.

(** ** Go's [strings] package, on byte strings *)

Module Str.

(** The ASCII white space of [unicode.IsSpace]: tab, line feed, vertical
    tab, form feed, carriage return and space. The model works on bytes,
    so the two-byte encodings of U+0085 and U+00A0 are not white space
    here. *)
Definition isSpace (c : ascii) : bool :=
  let n := N_of_ascii c in
  (((9 <=? n) && (n <=? 13)) || (n =? 32))%N.

Fixpoint TrimLeft (s : string) : string :=
  match s with
  | String c t => if isSpace c then TrimLeft t else s
  | EmptyString => EmptyString
  end.

(** Trailing white space goes when everything after it is white space. *)
Fixpoint TrimRight (s : string) : string :=
  match s with
  | String c t =>
      match TrimRight t with
      | EmptyString => if isSpace c then EmptyString else String c EmptyString
      | t' => String c t'
      end
  | EmptyString => EmptyString
  end.

Definition TrimSpace (s : string) : string := TrimRight (TrimLeft s).

Definition HasPrefix (s p : string) : bool := String.prefix p s.

Fixpoint Contains (s sub : string) : bool :=
  String.prefix sub s ||
  match s with
  | String _ t => Contains t sub
  | EmptyString => false
  end.

(** Lower case of the ASCII letters; other bytes are left as they are. *)
Definition lower (c : ascii) : ascii :=
  let n := N_of_ascii c in
  if ((65 <=? n) && (n <=? 90))%N then ascii_of_N (n + 32) else c.

Fixpoint ToLower (s : string) : string :=
  match s with
  | String c t => String (lower c) (ToLower t)
  | EmptyString => EmptyString
  end.

Definition HasSuffix (s suf : string) : bool :=
  let n := String.length s in
  let k := String.length suf in
  (k <=? n)%nat && String.eqb (String.substring (n - k) k s) suf.

Definition TrimSuffix (s suf : string) : string :=
  if HasSuffix s suf
  then String.substring 0 (String.length s - String.length suf) s
  else s.

(** [Fields]: the maximal runs of non-space bytes, in order. [cur] is the
    field being read, reversed. *)
Definition flush (cur : list ascii) : list string :=
  match cur with
  | [] => []
  | _ => [string_of_list_ascii (rev cur)]
  end.

Fixpoint fields_go (s : string) (cur : list ascii) : list string :=
  match s with
  | EmptyString => flush cur
  | String c t =>
      if isSpace c then (flush cur ++ fields_go t [])%list
      else fields_go t (c :: cur)
  end.

Definition Fields (s : string) : list string := fields_go s [].

(** [SplitN s sep n] for a non-empty [sep]: cut [s] at the occurrences of
    [sep], left to right; [limit] is the number of cuts still allowed
    ([None]: no limit). [skip] counts the bytes of a separator just
    matched that remain to be stepped over. *)
Fixpoint split_go (sep : string) (limit : option nat) (skip : nat)
         (s : string) (cur : list ascii) : list string :=
  match s with
  | EmptyString => [string_of_list_ascii (rev cur)]
  | String c t =>
      match skip with
      | S k => split_go sep limit k t cur
      | O =>
          let cut := match limit with Some O => false | _ => String.prefix sep s end in
          if cut
          then string_of_list_ascii (rev cur)
                 :: split_go sep (option_map Nat.pred limit)
                             (String.length sep - 1) t []
          else split_go sep limit O t (c :: cur)
      end
  end.

Definition SplitN (s sep : string) (n : Z) : list string :=
  match n with
  | Z0 => []
  | Zpos p => split_go sep (Some (Pos.to_nat p - 1)%nat) O s []
  | Zneg _ => split_go sep None O s []
  end.

Definition Split (s sep : string) : list string := SplitN s sep (-1).

End Str.

(** Line feed and tab, for writing file contents. *)
Definition LF : string := String (ascii_of_nat 10) EmptyString.
Definition TAB : string := String (ascii_of_nat 9) EmptyString.

(** ** [float64]: IEEE 754 binary64 *)

Module F64.

Definition prec : Z := 53.
Definition emax : Z := 1024.

Definition float64 : Type := spec_float.

(** Conversion of an integer: the nearest float64, ties to even. *)
Definition of_Z (z : Z) : float64 := binary_normalize prec emax z 0 false.

Definition zero : float64 := S754_zero false.

Definition add : float64 -> float64 -> float64 := SFadd prec emax.
Definition mul : float64 -> float64 -> float64 := SFmul prec emax.
Definition div : float64 -> float64 -> float64 := SFdiv prec emax.
Definition ltb : float64 -> float64 -> bool := SFltb.
Definition leb : float64 -> float64 -> bool := SFleb.

(** The quotient of the integer [m] by the positive integer [d], rounded
    once to the nearest float64. *)
Definition of_ratio (neg : bool) (m d : Z) : float64 :=
  let '(q, e, l) := SFdiv_core_binary prec emax m 0 d 0 in
  binary_round_aux prec emax neg q e l.

(** The rational a finite float64 stands for. *)
Definition toQ (x : float64) : option Q :=
  match x with
  | S754_zero _ => Some 0%Q
  | S754_finite s m e =>
      let v := (if s then Zneg m else Zpos m) in
      Some (Qred (if 0 <=? e then inject_Z (v * 2 ^ e)
                  else Qmake v (Z.to_pos (2 ^ (- e)))))
  | _ => None
  end.

End F64.

Abbreviation float64 := F64.float64.

(** ** Go's [strconv] package *)

Module Strconv.

Inductive NumError := ErrSyntax | ErrRange.

Definition maxUint64 : Z := 2 ^ 64 - 1.

Definition digit (c : ascii) : option Z :=
  let n := N_of_ascii c in
  if ((48 <=? n) && (n <=? 57))%N then Some (Z.of_N n - 48) else None.

(** [ParseUint s 10 64]. The loop of the library: a byte that is no
    decimal digit is a syntax error (value 0); once the number no longer
    fits 64 bits the result is a range error with value 2^64-1, whatever
    follows. *)
Fixpoint parseUint_go (s : string) (n : Z) : Z * option NumError :=
  match s with
  | EmptyString => (n, None)
  | String c t =>
      match digit c with
      | None => (0, Some ErrSyntax)
      | Some d =>
          if maxUint64 / 10 + 1 <=? n then (maxUint64, Some ErrRange)
          else if maxUint64 <? n * 10 + d then (maxUint64, Some ErrRange)
          else parseUint_go t (n * 10 + d)
      end
  end.

Definition ParseUint (s : string) : Z * option NumError :=
  match s with
  | EmptyString => (0, Some ErrSyntax)
  | _ => parseUint_go s 0
  end.

(** [ParseFloat s 64]. The strings accepted are the names inf and infinity
    (optionally signed) and nan, in any letter case, and the decimal and
    hexadecimal floating-point literals of Go: an optional sign, an
    optional [0x], digits with an optional point (at least one digit), and
    an exponent, [e] and decimal for a decimal mantissa (optional), [p] and
    binary for a hexadecimal one (required); underscores may separate
    digits. The value is the number written, rounded once to the nearest
    float64, ties to even; beyond the largest finite float64 the result is
    an infinity with a range error. *)

Definition hexDigit (c : ascii) : option Z :=
  let n := N_of_ascii (Str.lower c) in
  if ((97 <=? n) && (n <=? 102))%N then Some (Z.of_N n - 87) else None.

(** The mantissa loop of [readFloat]: digits in base 10 or 16, one point,
    underscores. Returns the integer that all the digits spell, their
    number, the number of them after the point, whether an underscore was
    seen, and the rest of the string. *)
Fixpoint readMantissa (hex : bool) (s : string) (sawdot : bool)
         (m : Z) (nd nfrac : nat) (underscores : bool)
  : Z * nat * nat * bool * string :=
  match s with
  | EmptyString => (m, nd, nfrac, underscores, s)
  | String c t =>
      if Ascii.eqb c "_" then readMantissa hex t sawdot m nd nfrac true
      else if Ascii.eqb c "." then
        if sawdot then (m, nd, nfrac, underscores, s)
        else readMantissa hex t true m nd nfrac underscores
      else
        match digit c, (if hex then hexDigit c else None) with
        | Some d, _ | None, Some d =>
            readMantissa hex t sawdot (m * (if hex then 16 else 10) + d) (S nd)
                         (if sawdot then S nfrac else nfrac) underscores
        | None, None => (m, nd, nfrac, underscores, s)
        end
  end.

(** Exponent digits, underscores among them; the library stops
    accumulating at 10000. *)
Fixpoint readExp (s : string) (e : Z) (underscores : bool) : Z * bool * string :=
  match s with
  | String c t =>
      if Ascii.eqb c "_" then readExp t e true
      else
        match digit c with
        | Some d => readExp t (if e <? 10000 then e * 10 + d else e) underscores
        | None => (e, underscores, s)
        end
  | EmptyString => (e, underscores, s)
  end.

Definition readSign (s : string) : bool * string :=
  match s with
  | String "+" t => (false, t)
  | String "-" t => (true, t)
  | _ => (false, s)
  end.

(** [underscoreOK]: an underscore must stand between digits, the base
    prefix counting as a digit. *)
Inductive Saw := SawStart | SawDigit | SawUnderscore | SawOther.

Fixpoint underscoreOK_go (hex : bool) (s : string) (saw : Saw) : bool :=
  match s with
  | EmptyString => match saw with SawUnderscore => false | _ => true end
  | String c t =>
      match digit c, (if hex then hexDigit c else None) with
      | Some _, _ | None, Some _ => underscoreOK_go hex t SawDigit
      | None, None =>
          if Ascii.eqb c "_" then
            match saw with
            | SawDigit => underscoreOK_go hex t SawUnderscore
            | _ => false
            end
          else
            match saw with
            | SawUnderscore => false
            | _ => underscoreOK_go hex t SawOther
            end
      end
  end.

Definition underscoreOK (s : string) : bool :=
  let s := snd (readSign s) in
  match s with
  | String "0" (String x t) =>
      let l := Str.lower x in
      if Ascii.eqb l "b" || Ascii.eqb l "o" || Ascii.eqb l "x"
      then underscoreOK_go (Ascii.eqb l "x") t SawDigit
      else underscoreOK_go false s SawStart
  | _ => underscoreOK_go false s SawStart
  end.

Definition special (s : string) : option float64 :=
  let '(neg, t) := readSign s in
  let l := Str.ToLower t in
  if String.eqb l "inf" || String.eqb l "infinity" then Some (S754_infinity neg)
  else if String.eqb (Str.ToLower s) "nan" then Some S754_nan
  else None.

(** [m * 10^e10], rounded. *)
Definition decimalToFloat (neg : bool) (m e10 : Z) : float64 :=
  if m =? 0 then S754_zero neg
  else if 0 <=? e10
       then binary_normalize F64.prec F64.emax
              (if neg then - (m * 10 ^ e10) else m * 10 ^ e10) 0 false
       else F64.of_ratio neg m (10 ^ (- e10)).

(** [m * 2^e2], rounded. *)
Definition binaryToFloat (neg : bool) (m e2 : Z) : float64 :=
  binary_normalize F64.prec F64.emax (if neg then - m else m) e2 neg.

Definition withRange (x : float64) : float64 * option NumError :=
  match x with
  | S754_infinity _ => (x, Some ErrRange)
  | _ => (x, None)
  end.

Definition syntaxError : float64 * option NumError :=
  (F64.zero, Some ErrSyntax).

(** [readFloat] followed by the conversion; the whole string must be
    consumed. *)
Definition readFloat (s : string) : float64 * option NumError :=
  let '(neg, s1) := readSign s in
  let '(hex, s2) :=
    match s1 with
    | String "0" (String x (String c t)) =>
        if Ascii.eqb (Str.lower x) "x" then (true, String c t) else (false, s1)
    | _ => (false, s1)
    end in
  let '(m, nd, nfrac, us, s3) := readMantissa hex s2 false 0 O O false in
  let convert (e : Z) : float64 :=
    if hex then binaryToFloat neg m (e - 4 * Z.of_nat nfrac)
    else decimalToFloat neg m (e - Z.of_nat nfrac) in
  if (nd =? 0)%nat then syntaxError
  else
    match s3 with
    | EmptyString =>
        if hex then syntaxError
        else if us && negb (underscoreOK s) then syntaxError
        else withRange (convert 0)
    | String c t =>
        if Ascii.eqb (Str.lower c) (if hex then "p" else "e") then
          let '(eneg, s4) := readSign t in
          match s4 with
          | String d _ =>
              match digit d, readExp s4 0 us with
              | Some _, (e, us', EmptyString) =>
                  if us' && negb (underscoreOK s) then syntaxError
                  else withRange (convert (if eneg then - e else e))
              | _, _ => syntaxError
              end
          | EmptyString => syntaxError
          end
        else syntaxError
    end.

Definition ParseFloat (s : string) : float64 * option NumError :=
  match special s with
  | Some x => (x, None)
  | None => readFloat s
  end.

End Strconv.

(** ** Unsigned 64-bit arithmetic *)

Definition add64 (a b : Z) : Z := (a + b) mod 2 ^ 64.
Definition sub64 (a b : Z) : Z := (a - b) mod 2 ^ 64.

(** ** [fmt] and [path/filepath], as far as the collectors use them *)

Module Fmt.
(** The [%d] verb on a non-negative integer. *)
Definition itoa (n : nat) : string := NilEmpty.string_of_uint (Nat.to_uint n).
End Fmt.

Module Filepath.
(** [filepath.Join] on elements that are non-empty and already clean
    (the only ones the collectors pass): the elements separated by a
    slash. *)
Definition Join (elems : list string) : string := String.concat "/" elems.
End Filepath.

(** ** The operating system seen by the collectors *)

(** What a [bufio.Scanner] over an opened file delivers: the lines that the
    successive [Scan] calls yield, and whether [Err] is non-nil once [Scan]
    has returned false (a read error, or a line beyond the scanner's
    buffer). *)
Record Scanner := { lines : list string; scanErr : bool }.

Record System := {
  (** [os.ReadFile path]: the content, or [None] on any error. *)
  ReadFile : string -> option string;
  (** [os.Open path] wrapped in a [bufio.Scanner]; [None] when the file
      cannot be opened. *)
  Open : string -> option Scanner;
  (** Standard output of the nvidia-smi query, [None] when the command
      cannot be started or exits with an error. *)
  nvidia_smi : option string
}.

(** ** Metrics *)

Inductive ValueType := GaugeValue | CounterValue.

Record Desc := NewDesc {
  fqName : string;
  help : string;
  variableLabels : list string
}.

(** [prometheus.MustNewConstMetric desc valueType value labelValues...] *)
Record Metric := MustNewConstMetric {
  desc : Desc;
  valueType : ValueType;
  value : float64;
  labelValues : list string
}.

(** A sub-metric that is either present with a value or absent: the
    [(float64, bool)] pairs of the source. *)
Definition emit (d : Desc) (t : ValueType) (r : option float64) : list Metric :=
  match r with
  | Some v => [MustNewConstMetric d t v []]
  | None => []
  end.

(** ** collectors/cpu.go *)

Module CPU.

Record CPUCollector := {
  prevIdle : Z;
  prevTotal : Z
}.

Definition usageDesc : Desc :=
  NewDesc "cpu_usage_percent" "CPU usage percentage (0-100)" [].
Definition tempDesc : Desc :=
  NewDesc "cpu_temperature_celsius" "CPU temperature in degrees Celsius" [].
Definition freqDesc : Desc :=
  NewDesc "cpu_frequency_mhz" "Average CPU core frequency in MHz" [].

Definition NewCPUCollector : CPUCollector := {| prevIdle := 0; prevTotal := 0 |}.

Definition Describe : list Desc := [usageDesc; tempDesc; freqDesc].

(** The seven counters of an aggregate line, errors of [ParseUint]
    dropped as in the source ([user, _ := ...]). *)
Definition counter (fields : list string) (i : nat) : Z :=
  fst (Strconv.ParseUint (nth i fields EmptyString)).

(** The body of the scanner loop on the first line that starts with
    ["cpu "], once the field count is known to be at least 8. *)
Definition usageOfFields (c : CPUCollector) (fields : list string)
  : float64 * CPUCollector :=
  let user := counter fields 1 in
  let nice := counter fields 2 in
  let system := counter fields 3 in
  let idle := counter fields 4 in
  let iowait := counter fields 5 in
  let irq := counter fields 6 in
  let softirq := counter fields 7 in
  let total :=
    add64 (add64 (add64 (add64 (add64 (add64 user nice) system) idle) iowait) irq)
          softirq in
  let idleTotal := add64 idle iowait in
  let prevTotal := prevTotal c in
  let prevIdle := prevIdle c in
  let c' := {| prevIdle := idleTotal; prevTotal := total |} in
  if prevTotal =? 0 then (F64.zero, c')
  else
    let totalDelta := sub64 total prevTotal in
    let idleDelta := sub64 idleTotal prevIdle in
    if totalDelta =? 0 then (F64.zero, c')
    else
      (F64.mul (F64.div (F64.of_Z (sub64 totalDelta idleDelta))
                        (F64.of_Z totalDelta))
               (F64.of_Z 100), c').

Fixpoint scanStat (c : CPUCollector) (ls : list string)
  : option float64 * CPUCollector :=
  match ls with
  | [] => (None, c)
  | line :: rest =>
      if negb (Str.HasPrefix line "cpu ") then scanStat c rest
      else
        let fields := Str.Fields line in
        if (List.length fields <? 8)%nat then (None, c)
        else let '(usage, c') := usageOfFields c fields in (Some usage, c')
  end.

Definition readCPUUsage (c : CPUCollector) (sys : System)
  : option float64 * CPUCollector :=
  match Open sys "/proc/stat" with
  | None => (None, c)
  | Some f => scanStat c (lines f)
  end.

Definition readThermalTemp (sys : System) (path : string) : option float64 :=
  match ReadFile sys path with
  | None => None
  | Some data =>
      match Strconv.ParseFloat (Str.TrimSpace data) with
      | (millideg, None) => Some (F64.div millideg (F64.of_Z 1000))
      | (_, Some _) => None
      end
  end.

Definition zoneTypePath (i : nat) : string :=
  "/sys/class/thermal/thermal_zone" +:+ Fmt.itoa i +:+ "/type".
Definition zoneTempPath (i : nat) : string :=
  "/sys/class/thermal/thermal_zone" +:+ Fmt.itoa i +:+ "/temp".

Definition isCPUZone (typeBytes : string) : bool :=
  let zoneType := Str.ToLower (Str.TrimSpace typeBytes) in
  Str.Contains zoneType "cpu" || Str.Contains zoneType "soc".

(** The search loop [for i := 0; i < 10; i++], entered at index [i]
    with [n] iterations left, followed by the fallback. *)
Fixpoint zoneSearch (sys : System) (n i : nat) : option float64 :=
  match n with
  | O => readThermalTemp sys "/sys/class/thermal/thermal_zone0/temp"
  | S n' =>
      match ReadFile sys (zoneTypePath i) with
      | None => zoneSearch sys n' (S i)
      | Some typeBytes =>
          if isCPUZone typeBytes then readThermalTemp sys (zoneTempPath i)
          else zoneSearch sys n' (S i)
      end
  end.

Definition readCPUTemperature (sys : System) : option float64 :=
  zoneSearch sys 10 0.

Definition freqPath (i : nat) : string :=
  "/sys/devices/system/cpu/cpu" +:+ Fmt.itoa i +:+ "/cpufreq/scaling_cur_freq".

(** The loop [for i := 0; i < 256; i++] entered at index [i] with [n]
    iterations left; [None] is the [return 0, false] inside the loop,
    [Some] the values of [totalFreq] and [count] when the loop is left. *)
Fixpoint freqLoop (sys : System) (n i : nat) (totalFreq : float64) (count : Z)
  : option (float64 * Z) :=
  match n with
  | O => Some (totalFreq, count)
  | S n' =>
      match ReadFile sys (freqPath i) with
      | None => if (i =? 0)%nat then None else Some (totalFreq, count)
      | Some data =>
          match Strconv.ParseFloat (Str.TrimSpace data) with
          | (_, Some _) => freqLoop sys n' (S i) totalFreq count
          | (freqKHz, None) =>
              freqLoop sys n' (S i) (F64.add totalFreq freqKHz) (count + 1)
          end
      end
  end.

Definition readCPUFrequency (sys : System) : option float64 :=
  match freqLoop sys 256 0 F64.zero 0 with
  | None => None
  | Some (totalFreq, count) =>
      if count =? 0 then None
      else Some (F64.div (F64.div totalFreq (F64.of_Z count)) (F64.of_Z 1000))
  end.

Definition Collect (c : CPUCollector) (sys : System)
  : list Metric * CPUCollector :=
  let '(usage, c') := readCPUUsage c sys in
  ((emit usageDesc GaugeValue usage
      ++ emit tempDesc GaugeValue (readCPUTemperature sys)
      ++ emit freqDesc GaugeValue (readCPUFrequency sys))%list,
   c').

End CPU.

(** ** collectors/gpu.go *)

Module GPU.

Definition utilizationDesc : Desc :=
  NewDesc "gpu_utilization_percent" "GPU (GB10) utilization percentage (0-100)" [].
Definition tempDesc : Desc :=
  NewDesc "gpu_temperature_celsius" "GPU temperature in degrees Celsius" [].
Definition freqDesc : Desc :=
  NewDesc "gpu_frequency_mhz" "GPU graphics clock frequency in MHz" [].
Definition powerDesc : Desc :=
  NewDesc "gpu_power_watts" "GPU power consumption in Watts" [].

Definition Describe : list Desc := [utilizationDesc; tempDesc; freqDesc; powerDesc].

Definition parseNvidiaSmiFloat (s : string) : float64 :=
  let s := Str.TrimSpace s in
  if String.eqb s EmptyString || String.eqb s "[N/A]" || String.eqb s "N/A"
  then F64.zero
  else
    match Strconv.ParseFloat s with
    | (_, Some _) => F64.zero
    | (v, None) => v
    end.

Definition Collect (sys : System) : list Metric :=
  match nvidia_smi sys with
  | None => []
  | Some out =>
      match Str.Split (Str.TrimSpace out) LF with
      | [] => []
      | line0 :: _ =>
          let fields := Str.Split line0 "," in
          if (List.length fields <? 4)%nat then []
          else
            let utilization := parseNvidiaSmiFloat (nth 0 fields EmptyString) in
            let temp := parseNvidiaSmiFloat (nth 1 fields EmptyString) in
            let power := parseNvidiaSmiFloat (nth 2 fields EmptyString) in
            let freq := parseNvidiaSmiFloat (nth 3 fields EmptyString) in
            [ MustNewConstMetric utilizationDesc GaugeValue utilization [];
              MustNewConstMetric tempDesc GaugeValue temp [];
              MustNewConstMetric freqDesc GaugeValue freq [];
              MustNewConstMetric powerDesc GaugeValue power [] ]
      end
  end.

End GPU.

(** ** collectors/memory.go *)

Module Memory.

Definition totalDesc : Desc :=
  NewDesc "memory_total_bytes" "Total physical RAM in bytes" [].
Definition usedDesc : Desc :=
  NewDesc "memory_used_bytes" "Used RAM in bytes (total - free - buffers - cached)" [].

Definition Describe : list Desc := [totalDesc; usedDesc].

(** One pass of the scanner loop of [readMemInfo]. *)
Definition memInfoLine (info : gmap string Z) (line : string) : gmap string Z :=
  match Str.SplitN line ":" 2 with
  | [k; v] =>
      let key := Str.TrimSpace k in
      let valStr := Str.TrimSpace v in
      let valStr := Str.TrimSuffix valStr " kB" in
      let valStr := Str.TrimSpace valStr in
      match Strconv.ParseUint valStr with
      | (_, Some _) => info
      | (val, None) => <[key := val]> info
      end
  | _ => info
  end.

(** [None] stands for a non-nil error: the file does not open, or the
    scanner ends with an error. *)
Definition readMemInfo (sys : System) : option (gmap string Z) :=
  match Open sys "/proc/meminfo" with
  | None => None
  | Some f =>
      let info := fold_left memInfoLine (lines f) ∅ in
      if scanErr f then None else Some info
  end.

(** [m[key]] on a Go map: the zero value when the key is absent. *)
Definition index (m : gmap string Z) (key : string) : Z := default 0 (m !! key).

Definition Collect (sys : System) : list Metric :=
  match readMemInfo sys with
  | None => []
  | Some memInfo =>
      let totalKB := index memInfo "MemTotal" in
      let freeKB := index memInfo "MemFree" in
      let buffersKB := index memInfo "Buffers" in
      let cachedKB := index memInfo "Cached" in
      let totalBytes := F64.mul (F64.of_Z totalKB) (F64.of_Z 1024) in
      let usedBytes :=
        F64.mul (F64.of_Z (sub64 (sub64 (sub64 totalKB freeKB) buffersKB) cachedKB))
                (F64.of_Z 1024) in
      let usedBytes :=
        if F64.ltb usedBytes F64.zero
        then F64.mul (F64.of_Z (sub64 totalKB freeKB)) (F64.of_Z 1024)
        else usedBytes in
      [ MustNewConstMetric totalDesc GaugeValue totalBytes [];
        MustNewConstMetric usedDesc GaugeValue usedBytes [] ]
  end.

End Memory.

(** ** collectors/disk.go, the I/O part *)

Module Disk.

Definition readsDesc : Desc :=
  NewDesc "diskio_reads_completed_total"
    "Total number of completed disk read operations (use rate() in PromQL for IOPS)"
    ["device"].
Definition writesDesc : Desc :=
  NewDesc "diskio_writes_completed_total"
    "Total number of completed disk write operations (use rate() in PromQL for IOPS)"
    ["device"].

Definition physicalPrefixes : list string := ["sd"; "nvme"; "vd"; "hd"; "xvd"; "mmcblk"].
Definition excludePrefixes : list string := ["loop"; "ram"; "dm-"; "sr"; "fd"].

Fixpoint hasAnyPrefix (s : string) (prefixes : list string) : bool :=
  match prefixes with
  | [] => false
  | p :: rest => if Str.HasPrefix s p then true else hasAnyPrefix s rest
  end.

(** One pass of the scanner loop of [collectDiskIO]: what it sends for
    one line. *)
Definition diskLine (line : string) : list Metric :=
  let fields := Str.Fields line in
  if (List.length fields <? 14)%nat then []
  else
    let device := nth 2 fields EmptyString in
    if hasAnyPrefix device excludePrefixes then []
    else if negb (hasAnyPrefix device physicalPrefixes) then []
    else
      let reads := fst (Strconv.ParseFloat (nth 3 fields EmptyString)) in
      let writes := fst (Strconv.ParseFloat (nth 7 fields EmptyString)) in
      [ MustNewConstMetric readsDesc CounterValue reads [device];
        MustNewConstMetric writesDesc CounterValue writes [device] ].

Definition collectDiskIO (sys : System) : list Metric :=
  match Open sys "/proc/diskstats" with
  | None => []
  | Some f => flat_map diskLine (lines f)
  end.

End Disk.

(** ** collectors/network.go *)

Module Network.

Definition monitoredInterfaces : list string :=
  [ "enP7s7"; "enp1s0f1np1"; "enP2p1s0f1np1"; "enp1s0f0np0"; "enP2p1s0f0np0"; "wlP9s9" ].

Definition rxBytesDesc : Desc :=
  NewDesc "network_receive_bytes_total"
    "Total bytes received on network interface" ["interface"].
Definition txBytesDesc : Desc :=
  NewDesc "network_transmit_bytes_total"
    "Total bytes transmitted on network interface" ["interface"].
Definition rxPacketsDesc : Desc :=
  NewDesc "network_receive_packets_total"
    "Total packets received on network interface" ["interface"].
Definition txPacketsDesc : Desc :=
  NewDesc "network_transmit_packets_total"
    "Total packets transmitted on network interface" ["interface"].

Definition Describe : list Desc :=
  [rxBytesDesc; txBytesDesc; rxPacketsDesc; txPacketsDesc].

Definition isInterfaceUp (sys : System) (iface : string) : bool :=
  let path := Filepath.Join ["/sys/class/net"; iface; "operstate"] in
  match ReadFile sys path with
  | None => false
  | Some data => String.eqb (Str.TrimSpace data) "up"
  end.

Definition readSysUint64 (sys : System) (path : string) : Z :=
  match ReadFile sys path with
  | None => 0
  | Some data =>
      match Strconv.ParseUint (Str.TrimSpace data) with
      | (_, Some _) => 0
      | (v, None) => v
      end
  end.

(** The body of the loop of [Collect] for one interface name. *)
Definition collectInterface (sys : System) (iface : string) : list Metric :=
  if negb (isInterfaceUp sys iface) then []
  else
    let statsDir := Filepath.Join ["/sys/class/net"; iface; "statistics"] in
    let rxBytes := readSysUint64 sys (Filepath.Join [statsDir; "rx_bytes"]) in
    let txBytes := readSysUint64 sys (Filepath.Join [statsDir; "tx_bytes"]) in
    let rxPackets := readSysUint64 sys (Filepath.Join [statsDir; "rx_packets"]) in
    let txPackets := readSysUint64 sys (Filepath.Join [statsDir; "tx_packets"]) in
    [ MustNewConstMetric rxBytesDesc CounterValue (F64.of_Z rxBytes) [iface];
      MustNewConstMetric txBytesDesc CounterValue (F64.of_Z txBytes) [iface];
      MustNewConstMetric rxPacketsDesc CounterValue (F64.of_Z rxPackets) [iface];
      MustNewConstMetric txPacketsDesc CounterValue (F64.of_Z txPackets) [iface] ].

Definition Collect (sys : System) : list Metric :=
  flat_map (collectInterface sys) monitoredInterfaces.

End Network.

(** ** Vocabulary of the statements *)

(** [signed sx x]: [x] is a number (not a NaN) whose sign bit is [sx]. *)
Definition signed (sx : bool) (x : float64) : Prop :=
  match x with
  | S754_nan => False
  | S754_zero s | S754_infinity s | S754_finite s _ _ => s = sx
  end.

(** The kHz values among the contents of the per-core frequency files that
    [ParseFloat] accepts, in core order. *)
Fixpoint parsedKHz (contents : list string) : list float64 :=
  match contents with
  | [] => []
  | data :: rest =>
      match Strconv.ParseFloat (Str.TrimSpace data) with
      | (v, None) => v :: parsedKHz rest
      | (_, Some _) => parsedKHz rest
      end
  end.

(** The average of kHz values, in MHz: their sum (added left to right from
    0) over their number, over 1000; absent when there is no value. *)
Definition averageMHz (vals : list float64) : option float64 :=
  match vals with
  | [] => None
  | _ =>
      Some (F64.div (F64.div (fold_left F64.add vals F64.zero)
                             (F64.of_Z (Z.of_nat (List.length vals))))
                    (F64.of_Z 1000))
  end.

(** Thermal zone [j] does not qualify: its type file is unreadable, or its
    type names neither a CPU nor a SoC. *)
Definition zoneSkipped (sys : System) (j : nat) : Prop :=
  match ReadFile sys (CPU.zoneTypePath j) with
  | None => True
  | Some typeBytes => CPU.isCPUZone typeBytes = false
  end.

(** A string without white space. *)
Fixpoint noSpace (s : string) : Prop :=
  match s with
  | EmptyString => True
  | String c t => Str.isSpace c = false /\ noSpace t
  end.

(** ** Concrete systems *)

(** A file system given by the list of its files. *)
Definition files (l : list (string * string)) (path : string) : option string :=
  option_map snd (find (fun kv => String.eqb (fst kv) path) l).

Definition scanners (l : list (string * Scanner)) (path : string) : option Scanner :=
  option_map snd (find (fun kv => String.eqb (fst kv) path) l).

(** A scanner that yields the given lines and ends without error. *)
Definition scanOf (ls : list string) : Scanner := {| lines := ls; scanErr := false |}.

(** A machine with none of the sources. *)
Definition bare : System :=
  {| ReadFile := files []; Open := scanners []; nvidia_smi := None |}.

Definition withFiles (l : list (string * string)) : System :=
  {| ReadFile := files l; Open := scanners []; nvidia_smi := None |}.

Definition withScan (path : string) (sc : Scanner) : System :=
  {| ReadFile := files []; Open := scanners [(path, sc)]; nvidia_smi := None |}.

Definition withGPU (out : string) : System :=
  {| ReadFile := files []; Open := scanners []; nvidia_smi := Some out |}.

(** /proc/stat at two successive scrapes: 1000 ticks pass, 750 of them idle. *)
Definition stat1 : System :=
  withScan "/proc/stat"
    (scanOf ["cpu  100 0 50 800 50 0 0 0 0 0"; "cpu0 100 0 50 800 50 0 0 0 0 0"]).
Definition stat2 : System :=
  withScan "/proc/stat"
    (scanOf ["cpu  300 0 100 1500 100 0 0 0 0 0"; "cpu0 300 0 100 1500 100 0 0 0 0 0"]).

(** After [stat2]: 1000 more ticks, with idle counters lower than before. *)
Definition statIdleBack : System :=
  withScan "/proc/stat" (scanOf ["cpu  1400 0 100 1400 100 0 0 0 0 0"]).

(** An aggregate line whose third counter is not a number. *)
Definition statGarbled : System :=
  withScan "/proc/stat" (scanOf ["cpu  150 0 x 20 0 0 0 0 0 0"]).

(** An aggregate line cut short. *)
Definition statShort : System :=
  withScan "/proc/stat" (scanOf ["intr 5"; "cpu  150 0 7 20"; "cpu  1 2 3 4 5 6 7 8"]).

Definition seeded : CPU.CPUCollector := {| CPU.prevIdle := 10; CPU.prevTotal := 100 |}.

(** Two cores with a frequency file, the third without. *)
Definition twoCores : System :=
  withFiles [ (CPU.freqPath 0, "1200000" +:+ LF); (CPU.freqPath 1, "1800000" +:+ LF) ].

(** The second of three cores reports something that is no number. *)
Definition threeCores : System :=
  withFiles [ (CPU.freqPath 0, "1000000" +:+ LF); (CPU.freqPath 1, "<unknown>" +:+ LF);
              (CPU.freqPath 2, "3000000" +:+ LF) ].

(** Three thermal zones, the CPU one last. *)
Definition threeZones : System :=
  withFiles [ (CPU.zoneTypePath 0, "x86_pkg_temp" +:+ LF); (CPU.zoneTempPath 0, "30000" +:+ LF);
              (CPU.zoneTypePath 1, "acpitz" +:+ LF); (CPU.zoneTempPath 1, "27800" +:+ LF);
              (CPU.zoneTypePath 2, "cpu-thermal" +:+ LF); (CPU.zoneTempPath 2, "45500" +:+ LF) ].

(** No zone names a CPU: zone 0 is the fallback. *)
Definition plainZones : System :=
  withFiles [ (CPU.zoneTypePath 0, "acpitz" +:+ LF); (CPU.zoneTempPath 0, "27000" +:+ LF) ].

Definition gpuOK : System := withGPU ("45, 62, 12.5, 1300" +:+ LF).
Definition gpuNA : System := withGPU ("45, 62, [N/A], 1300" +:+ LF).
Definition gpuShort : System := withGPU ("45, 62, 12.5" +:+ LF).

Definition meminfo (ls : list string) : System := withScan "/proc/meminfo" (scanOf ls).

Definition memOK : System :=
  meminfo [ "MemTotal:        1000 kB"; "MemFree:          200 kB";
            "MemAvailable:     350 kB"; "Buffers:          100 kB";
            "Cached:           100 kB" ].

(** An inconsistent snapshot: free + buffers + cached exceeds the total. *)
Definition memStale : System :=
  meminfo [ "MemTotal: 100 kB"; "MemFree: 50 kB"; "Buffers: 30 kB"; "Cached: 30 kB" ].

(** /proc/meminfo opens and holds none of the four keys. *)
Definition memEmpty : System := meminfo [ "SwapTotal: 0 kB" ].

(** /proc/meminfo opens, and reading it fails after the last line. *)
Definition memBroken : System :=
  withScan "/proc/meminfo"
    {| lines := [ "MemTotal: 1000 kB"; "MemFree: 200 kB"; "Buffers: 100 kB"; "Cached: 100 kB" ];
       scanErr := true |}.

Definition diskstats : System :=
  withScan "/proc/diskstats"
    (scanOf [ "   7       0 loop0 11 0 28 0 0 0 0 0 0 4 0 0 0 0 0 0 0";
              " 259       0 nvme0n1 5000 10 7000 300 8000 20 9000 400 0 500 700 0 0 0 0 0 0";
              " 253       1 dm-1 40 0 50 0 60 0 70 0 0 8 0 0 0 0 0 0 0";
              " 252       0 zram0 9 0 9 0 9 0 9 0 0 9 0 0 0 0 0 0 0";
              " 259       1 nvme0n1p1 12 0" ]).

(** One monitored interface up, one down, and an interface that is up but
    not monitored. *)
Definition network : System :=
  withFiles [ ("/sys/class/net/enP7s7/operstate", "up" +:+ LF);
              ("/sys/class/net/enP7s7/statistics/rx_bytes", "1000" +:+ LF);
              ("/sys/class/net/enP7s7/statistics/tx_bytes", "2000" +:+ LF);
              ("/sys/class/net/enP7s7/statistics/rx_packets", "garbage" +:+ LF);
              ("/sys/class/net/wlP9s9/operstate", "down" +:+ LF);
              ("/sys/class/net/wlP9s9/statistics/rx_bytes", "77" +:+ LF);
              ("/sys/class/net/eth0/operstate", "up" +:+ LF);
              ("/sys/class/net/eth0/statistics/rx_bytes", "55" +:+ LF) ].

(** ** collectors/disk.go, the capacity part, and the whole collector *)

Definition mul64 (a b : Z) : Z := (a * b) mod 2 ^ 64.

Module DiskRoot.

(** The fields of [syscall.Statfs_t] that the collector reads: [Bsize] is
    an int64, [Blocks] and [Bavail] are uint64. *)
Record Statfs_t := { Bsize : Z; Blocks : Z; Bavail : Z }.

Definition usedDesc : Desc :=
  NewDesc "storage_used_percent" "Used storage capacity of / filesystem in percent" [].

Definition Describe : list Desc := [Disk.readsDesc; Disk.writesDesc; usedDesc].

(** [statfs] is what [syscall.Statfs("/", &stat)] leaves in [stat], [None]
    when it returns an error. [uint64(stat.Bsize)] is the int64 taken
    modulo 2^64. *)
Definition collectRootCapacity (statfs : option Statfs_t) : list Metric :=
  match statfs with
  | None => []
  | Some stat =>
      let total := mul64 (Blocks stat) (Bsize stat mod 2 ^ 64) in
      let available := mul64 (Bavail stat) (Bsize stat mod 2 ^ 64) in
      if total =? 0 then []
      else
        let usedPercent :=
          F64.mul (F64.div (F64.of_Z (sub64 total available)) (F64.of_Z total))
                  (F64.of_Z 100) in
        [MustNewConstMetric usedDesc GaugeValue usedPercent []]
  end.

Definition Collect (sys : System) (statfs : option Statfs_t) : list Metric :=
  (Disk.collectDiskIO sys ++ collectRootCapacity statfs)%list.

End DiskRoot.

(** ** main.go: the collectors that are registered *)

Definition registered : list (list Desc) :=
  [CPU.Describe; GPU.Describe; Memory.Describe; DiskRoot.Describe; Network.Describe].

(** ** More vocabulary *)

(** A sample that fits the descriptors [ds] of its collector: its
    descriptor is one of them, and it has one label value per label name
    (what [MustNewConstMetric] panics on otherwise). *)
Definition fits (ds : list Desc) (m : Metric) : Prop :=
  In (desc m) ds /\ List.length (labelValues m) = List.length (variableLabels (desc m)).

(** The test of [collectDiskIO] on a device name. *)
Definition accepted (device : string) : bool :=
  negb (Disk.hasAnyPrefix device Disk.excludePrefixes)
  && Disk.hasAnyPrefix device Disk.physicalPrefixes.

(** What one line of /proc/meminfo adds to the mapping, if anything: the
    steps of the loop of [readMemInfo] up to the assignment. *)
Definition memEntry (line : string) : option (string * Z) :=
  match Str.SplitN line ":" 2 with
  | [k; v] =>
      match Strconv.ParseUint
              (Str.TrimSpace (Str.TrimSuffix (Str.TrimSpace v) " kB")) with
      | (val, None) => Some (Str.TrimSpace k, val)
      | (_, Some _) => None
      end
  | _ => None
  end.

(** The decimal digits of a non-negative integer, as the kernel prints
    counters. *)
Fixpoint decimal_go (fuel : nat) (n : Z) (acc : string) : string :=
  match fuel with
  | O => acc
  | S fuel' =>
      let acc' := String (ascii_of_N (48 + Z.to_N (n mod 10))) acc in
      if n <? 10 then acc' else decimal_go fuel' (n / 10) acc'
  end.

Definition decimal (n : Z) : string :=
  decimal_go (S (Z.to_nat (Z.log2 n))) n EmptyString.

(** A string of white space only. *)
Fixpoint allSpace (s : string) : Prop :=
  match s with
  | EmptyString => True
  | String c t => Str.isSpace c = true /\ allSpace t
  end.

(** A string without the byte [c]. *)
Fixpoint without (c : ascii) (s : string) : Prop :=
  match s with
  | EmptyString => True
  | String d t => d <> c /\ without c t
  end.

(** The integer [a / 2^k] rounded to the nearest integer, ties to even:
    what float64 rounding does to a mantissa that loses [k] bits. *)
Definition rne (a k : Z) : Z :=
  let q := a / 2 ^ k in
  let rem := a mod 2 ^ k in
  if 2 * rem <? 2 ^ k then q
  else if 2 * rem =? 2 ^ k then (if Z.even q then q else q + 1)
  else q + 1.

(** Mantissa and exponent of the float64 nearest to a positive integer. *)
Definition round53 (z : Z) : Z * Z :=
  let d := Zdigits2 z in
  if d <=? 53 then (z * 2 ^ (53 - d), d - 53)
  else
    let r := rne z (d - 53) in
    if r <? 2 ^ 53 then (r, d - 53) else (2 ^ 52, d - 52).

(** A positive float64 with a full 53-bit mantissa. *)
Definition normal (x : float64) : Prop :=
  match x with
  | S754_finite false m _ => 2 ^ 52 <= Zpos m < 2 ^ 53
  | _ => False
  end.

(** * Properties *)

(** ** Sanity checks of the library models *)

Example TrimSpace_ex : Str.TrimSpace ("  up" +:+ LF) = "up".
Proof. reflexivity. Qed.

Example Fields_ex :
  Str.Fields ("cpu  10 20 30" +:+ TAB +:+ "40") = ["cpu"; "10"; "20"; "30"; "40"].
Proof. reflexivity. Qed.

Example Split_ex : Str.Split "45, 62, 12.5, 1300" "," = ["45"; " 62"; " 12.5"; " 1300"].
Proof. reflexivity. Qed.

Example Split_empty : Str.Split EmptyString "," = [EmptyString].
Proof. reflexivity. Qed.

Example SplitN_ex : Str.SplitN "MemTotal:  1000 kB: x" ":" 2 = ["MemTotal"; "  1000 kB: x"].
Proof. reflexivity. Qed.

Example TrimSuffix_ex : Str.TrimSuffix "1000 kB" " kB" = "1000".
Proof. reflexivity. Qed.

Example of_Z_small : F64.toQ (F64.of_Z 1500) = Some (1500 # 1)%Q.
Proof. reflexivity. Qed.

(** 2^64 - 1 is not a float64; it rounds up to 2^64. *)
Example of_Z_round : F64.of_Z (2 ^ 64 - 1) = S754_finite false (2 ^ 52) 12.
Proof. reflexivity. Qed.

Example of_ratio_third :
  F64.of_ratio false 1 3 = F64.div (F64.of_Z 1) (F64.of_Z 3).
Proof. reflexivity. Qed.

Example ParseUint_ok : Strconv.ParseUint "1234" = (1234, None).
Proof. reflexivity. Qed.

Example ParseUint_max :
  Strconv.ParseUint "18446744073709551615" = (2 ^ 64 - 1, None).
Proof. reflexivity. Qed.

Example ParseUint_range :
  Strconv.ParseUint "18446744073709551616" = (2 ^ 64 - 1, Some Strconv.ErrRange).
Proof. reflexivity. Qed.

Example ParseUint_syntax :
  Strconv.ParseUint "12x" = (0, Some Strconv.ErrSyntax)
  /\ Strconv.ParseUint "-1" = (0, Some Strconv.ErrSyntax)
  /\ Strconv.ParseUint EmptyString = (0, Some Strconv.ErrSyntax).
Proof. repeat split. Qed.

Example ParseFloat_int : Strconv.ParseFloat "1300" = (F64.of_Z 1300, None).
Proof. reflexivity. Qed.

Example ParseFloat_frac :
  Strconv.ParseFloat "12.5" = (F64.of_ratio false 25 2, None)
  /\ F64.toQ (F64.of_ratio false 25 2) = Some (25 # 2)%Q.
Proof. split; reflexivity. Qed.

Example ParseFloat_exp :
  Strconv.ParseFloat "-1.5e3" = (F64.of_Z (-1500), None).
Proof. reflexivity. Qed.

Example ParseFloat_bad :
  snd (Strconv.ParseFloat "[N/A]") = Some Strconv.ErrSyntax
  /\ snd (Strconv.ParseFloat "1e999") = Some Strconv.ErrRange
  /\ snd (Strconv.ParseFloat ".") = Some Strconv.ErrSyntax
  /\ snd (Strconv.ParseFloat "1e") = Some Strconv.ErrSyntax.
Proof. vm_compute. repeat split. Qed.

Example ParseFloat_hex :
  Strconv.ParseFloat "0x1.8p1" = (F64.of_Z 3, None)
  /\ Strconv.ParseFloat "0X1P+2" = (F64.of_Z 4, None)
  /\ snd (Strconv.ParseFloat "0x1") = Some Strconv.ErrSyntax
  /\ snd (Strconv.ParseFloat "0x1p1024") = Some Strconv.ErrRange.
Proof. vm_compute. repeat split. Qed.

Example ParseFloat_underscores :
  Strconv.ParseFloat "1_000" = (F64.of_Z 1000, None)
  /\ snd (Strconv.ParseFloat "1__0") = Some Strconv.ErrSyntax
  /\ snd (Strconv.ParseFloat "_1") = Some Strconv.ErrSyntax
  /\ snd (Strconv.ParseFloat "1_e5") = Some Strconv.ErrSyntax.
Proof. vm_compute. repeat split. Qed.

(** The nearest float64 to one tenth, and a number that underflows. *)
Example ParseFloat_rounds :
  F64.toQ (fst (Strconv.ParseFloat "0.1")) = Some (3602879701896397 # 36028797018963968)%Q
  /\ Strconv.ParseFloat "1e-400" = (F64.zero, None).
Proof. vm_compute. repeat split. Qed.

Example itoa_ex : Fmt.itoa 0 = "0" /\ Fmt.itoa 255 = "255".
Proof. split; reflexivity. Qed.

(** ** The strings model against its meaning *)

Lemma prefix_spec p : forall s,
  String.prefix p s = true <-> exists rest, s = p +:+ rest.
Proof.
  induction p as [|a p IH]; intros s.
  - destruct s; (split; [intros _; eexists; reflexivity | reflexivity]).
  - destruct s as [|b s]; cbn [String.prefix].
    + split; [discriminate | intros (r & H); discriminate].
    + destruct (ascii_dec a b) as [<- | Hne].
      * rewrite IH. split; intros (r & H); exists r.
        -- rewrite H. reflexivity.
        -- injection H as H. exact H.
      * split; [discriminate | intros (r & H)]. injection H as H1 H2. congruence.
Qed.

(** [Contains s sub] holds exactly when [sub] occurs in [s]. *)
Lemma Contains_spec s sub :
  Str.Contains s sub = true <-> exists a b, s = a +:+ sub +:+ b.
Proof.
  split.
  - induction s as [|c t IH]; cbn [Str.Contains]; intros H; apply orb_true_iff in H.
    + destruct H as [H | H]; [| discriminate].
      apply prefix_spec in H. destruct H as (r & H). exists EmptyString, r. exact H.
    + destruct H as [H | H].
      * apply prefix_spec in H. destruct H as (r & H). exists EmptyString, r. exact H.
      * destruct (IH H) as (a & b & ->). exists (String c a), b. reflexivity.
  - intros (a & b & ->). induction a as [|c a IH].
    + assert (Hp : String.prefix sub (sub +:+ b) = true) by (apply prefix_spec; eauto).
      change (EmptyString +:+ sub +:+ b) with (sub +:+ b).
      destruct (sub +:+ b); cbn [Str.Contains]; rewrite Hp; reflexivity.
    + change (String c a +:+ sub +:+ b) with (String c (a +:+ sub +:+ b)).
      cbn [Str.Contains]. rewrite IH. apply orb_true_r.
Qed.

Lemma HasPrefix_spec s p :
  Str.HasPrefix s p = true <-> exists rest, s = p +:+ rest.
Proof. apply prefix_spec. Qed.

(** A needle without white space: trimming the haystack changes nothing. *)
Lemma prefix_nil s : String.prefix EmptyString s = true.
Proof. destruct s; reflexivity. Qed.

Lemma prefix_TrimRight t : forall n,
  noSpace n -> String.prefix n (Str.TrimRight t) = String.prefix n t.
Proof.
  induction t as [|d t IH]; intros n Hn; [reflexivity |].
  destruct n as [|c n]; [rewrite !prefix_nil; reflexivity |]. destruct Hn as [Hc Hn].
  cbn [Str.TrimRight]. specialize (IH n Hn).
  destruct (Str.TrimRight t) as [|e T].
  - destruct (Str.isSpace d) eqn:Hd; cbn [String.prefix].
    + destruct (ascii_dec c d) as [-> | _]; [congruence | reflexivity].
    + destruct (ascii_dec c d); [exact IH | reflexivity].
  - cbn [String.prefix]. destruct (ascii_dec c d); [exact IH | reflexivity].
Qed.

Lemma Contains_cons d t sub :
  Str.Contains (String d t) sub = String.prefix sub (String d t) || Str.Contains t sub.
Proof. reflexivity. Qed.

Lemma Contains_empty c n : Str.Contains EmptyString (String c n) = false.
Proof. reflexivity. Qed.

Lemma Contains_TrimRight c n t :
  noSpace (String c n) ->
  Str.Contains (Str.TrimRight t) (String c n) = Str.Contains t (String c n).
Proof.
  intros [Hc Hn]. induction t as [|d t IH]; [reflexivity |].
  cbn [Str.TrimRight]. pose proof (prefix_TrimRight t n Hn) as Hp.
  rewrite (Contains_cons d t). rewrite <- IH.
  destruct (Str.TrimRight t) as [|e T].
  - rewrite Contains_empty, orb_false_r. cbn [String.prefix].
    destruct (Str.isSpace d) eqn:Hd.
    + destruct (ascii_dec c d) as [-> | _]; [congruence | reflexivity].
    + rewrite Contains_cons, Contains_empty, orb_false_r. cbn [String.prefix].
      destruct (ascii_dec c d); [exact Hp | reflexivity].
  - rewrite (Contains_cons d (String e T)). f_equal.
    cbn [String.prefix]. destruct (ascii_dec c d); [exact Hp | reflexivity].
Qed.

Lemma Contains_TrimLeft c n t :
  Str.isSpace c = false ->
  Str.Contains (Str.TrimLeft t) (String c n) = Str.Contains t (String c n).
Proof.
  intros Hc. induction t as [|d t IH]; [reflexivity |].
  cbn [Str.TrimLeft]. destruct (Str.isSpace d) eqn:Hd; [| reflexivity].
  rewrite IH, (Contains_cons d t). cbn [String.prefix].
  destruct (ascii_dec c d) as [-> | _]; [congruence | reflexivity].
Qed.

Lemma Contains_TrimSpace c n t :
  noSpace (String c n) ->
  Str.Contains (Str.TrimSpace t) (String c n) = Str.Contains t (String c n).
Proof.
  intros H. unfold Str.TrimSpace.
  rewrite (Contains_TrimRight c n _ H). apply Contains_TrimLeft, H.
Qed.

Lemma isSpace_lower c : Str.isSpace (Str.lower c) = Str.isSpace c.
Proof. destruct c as [[] [] [] [] [] [] [] []]; reflexivity. Qed.

Lemma ToLower_TrimLeft s : Str.ToLower (Str.TrimLeft s) = Str.TrimLeft (Str.ToLower s).
Proof.
  induction s as [|c t IH]; [reflexivity |].
  cbn [Str.TrimLeft Str.ToLower]. rewrite isSpace_lower.
  destruct (Str.isSpace c); [exact IH | reflexivity].
Qed.

Lemma ToLower_TrimRight s : Str.ToLower (Str.TrimRight s) = Str.TrimRight (Str.ToLower s).
Proof.
  induction s as [|c t IH]; [reflexivity |].
  cbn [Str.TrimRight Str.ToLower]. rewrite <- IH, isSpace_lower.
  destruct (Str.TrimRight t); cbn [Str.ToLower]; [destruct (Str.isSpace c) |]; reflexivity.
Qed.

(** In the zone test the trimming is of no consequence: a zone qualifies
    exactly when its lower-cased type contains "cpu" or "soc". *)
Lemma isCPUZone_spec typeBytes :
  CPU.isCPUZone typeBytes
    = Str.Contains (Str.ToLower typeBytes) "cpu" || Str.Contains (Str.ToLower typeBytes) "soc".
Proof.
  unfold CPU.isCPUZone, Str.TrimSpace.
  rewrite ToLower_TrimRight, ToLower_TrimLeft.
  fold (Str.TrimSpace (Str.ToLower typeBytes)).
  rewrite !Contains_TrimSpace by (cbn; auto). reflexivity.
Qed.

(** ** float64: rounding keeps signs, and 64-bit integers convert to finite
    numbers

    [SpecFloat] rounds a mantissa in two shifts; the lemmas below follow the
    mantissa through them. *)

Lemma digits2_pos_size p : digits2_pos p = Pos.size p.
Proof. induction p; simpl; congruence. Qed.

Lemma Zdigits2_log2 p : Zdigits2 (Zpos p) = Z.log2 (Zpos p) + 1.
Proof.
  destruct p; simpl; rewrite ?digits2_pos_size; lia.
Qed.

Lemma Zdigits2_bounds m :
  0 < m -> 2 ^ (Zdigits2 m - 1) <= m < 2 ^ Zdigits2 m.
Proof.
  intros Hm. destruct m as [|p|p]; try lia.
  rewrite Zdigits2_log2.
  replace (Z.log2 (Z.pos p) + 1 - 1) with (Z.log2 (Z.pos p)) by lia.
  pose proof (Z.log2_spec (Z.pos p) Hm). 
  replace (Z.log2 (Z.pos p) + 1) with (Z.succ (Z.log2 (Z.pos p))) by lia. lia.
Qed.

Lemma shr_1_m mrs : 0 <= shr_m mrs -> shr_m (shr_1 mrs) = shr_m mrs / 2.
Proof.
  destruct mrs as [m r s]; cbn [shr_m]. intros Hm.
  destruct m as [|[p|p|]|p]; cbn [shr_1 shr_m]; try lia; try reflexivity.
  - apply Z.div_unique with 1; lia.
  - apply Z.div_unique with 0; lia.
Qed.

Lemma iter_shr_1_m n : forall mrs,
  0 <= shr_m mrs -> shr_m (SpecFloat.iter_pos shr_1 n mrs) = shr_m mrs / 2 ^ Zpos n.
Proof.
  assert (Hnn : forall mrs, 0 <= shr_m mrs -> 0 <= shr_m (shr_1 mrs)).
  { intros mrs H. rewrite shr_1_m by exact H. apply Z.div_pos; lia. }
  induction n as [n IH|n IH|]; intros mrs Hm; simpl.
  - rewrite IH, IH, shr_1_m; auto.
    + rewrite !Z.div_div by lia.
      f_equal. rewrite Pos2Z.inj_xI, Z.pow_add_r, Z.pow_mul_r by lia.
      change (2 ^ 2) with 4. rewrite Z.pow_1_r.
      replace (4 ^ Z.pos n) with (2 ^ Z.pos n * 2 ^ Z.pos n).
      * ring.
      * rewrite <- Z.pow_mul_l. reflexivity.
    + rewrite IH by auto. apply Z.div_pos; [auto | lia].
  - assert (H1 : 0 <= shr_m (SpecFloat.iter_pos shr_1 n mrs)).
    { rewrite IH by auto. apply Z.div_pos; [auto | lia]. }
    rewrite (IH _ H1), (IH _ Hm).
    rewrite Z.div_div by lia. f_equal.
    rewrite Pos2Z.inj_xO. rewrite <- Z.pow_add_r by lia. f_equal. lia.
  - rewrite shr_1_m by exact Hm. reflexivity.
Qed.

Lemma shr_m_spec mrs e n :
  0 <= shr_m mrs ->
  shr_m (fst (shr mrs e n)) = shr_m mrs / 2 ^ Z.max n 0
  /\ snd (shr mrs e n) = e + Z.max n 0.
Proof.
  intros Hm. destruct n as [|p|p]; cbn [shr fst snd].
  - rewrite Z.div_1_r. lia.
  - rewrite iter_shr_1_m by exact Hm. rewrite Z.max_l by lia. lia.
  - rewrite Z.max_r by lia. rewrite Z.div_1_r. lia.
Qed.

Lemma shr_record_of_loc_m m l : shr_m (shr_record_of_loc m l) = m.
Proof. destruct l as [|[]]; reflexivity. Qed.

Lemma round_nearest_even_bounds m l :
  m <= round_nearest_even m l <= m + 1.
Proof.
  unfold round_nearest_even. destruct l as [|[]]; try lia.
  destruct (Z.even m); lia.
Qed.

(** One rounding shift: the mantissa is divided by a power of two that is
    at most its own magnitude, as long as the exponent stays above
    [emin]. *)
Lemma shr_fexp_spec m e l :
  0 < m -> SpecFloat.emin F64.prec F64.emax <= e ->
  let r := shr_fexp F64.prec F64.emax m e l in
  exists k, 0 <= k <= Z.max 0 (Zdigits2 m - 53)
            /\ shr_m (fst r) = m / 2 ^ k /\ snd r = e + k
            /\ 0 < shr_m (fst r) <= m.
Proof.
  intros Hm He r. subst r. unfold shr_fexp.
  set (n := fexp F64.prec F64.emax (Zdigits2 m + e) - e).
  destruct (shr_m_spec (shr_record_of_loc m l) e n) as [H1 H2].
  { rewrite shr_record_of_loc_m. lia. }
  rewrite shr_record_of_loc_m in H1.
  assert (Hn : Z.max n 0 <= Z.max 0 (Zdigits2 m - 53)).
  { subst n. unfold fexp, SpecFloat.emin, F64.prec, F64.emax in *. lia. }
  exists (Z.max n 0). rewrite H1, H2.
  pose proof (Zdigits2_bounds m Hm) as [Hlo Hhi].
  assert (Hk : 2 ^ Z.max n 0 <= m).
  { eapply Z.le_trans; [| exact Hlo].
    apply Z.pow_le_mono_r; [lia |].
    assert (1 <= Zdigits2 m) by (destruct m; simpl in *; lia). lia. }
  assert (0 < 2 ^ Z.max n 0) by (apply Z.pow_pos_nonneg; lia).
  repeat split; try lia.
  - apply Z.div_str_pos. lia.
  - apply Z.div_le_upper_bound; nia.
Qed.

Lemma Zdigits2_le m k : 0 < m < 2 ^ k -> 0 <= k -> Zdigits2 m <= k.
Proof.
  intros [Hm Hk] Hk0. destruct (Zdigits2_bounds m Hm) as [Hlo _].
  destruct (Z.le_gt_cases (Zdigits2 m) k) as [|Hgt]; [assumption | exfalso].
  assert (2 ^ k <= 2 ^ (Zdigits2 m - 1)) by (apply Z.pow_le_mono_r; lia).
  lia.
Qed.

(** Rounding keeps the sign and never produces a NaN. *)
Lemma binary_round_aux_signed pr em sx mx ex lx :
  0 <= mx -> signed sx (binary_round_aux pr em sx mx ex lx).
Proof.
  intros Hm. unfold binary_round_aux, shr_fexp.
  match goal with |- context [shr ?a ?b ?c] =>
    pose proof (shr_m_spec a b c) as H1; destruct (shr a b c) as [mrs' e'] end.
  rewrite shr_record_of_loc_m in H1. destruct (H1 Hm) as [H1m _]. cbn [fst] in H1m.
  assert (Hm' : 0 <= shr_m mrs').
  { rewrite H1m. apply Z.div_pos; [lia | apply Z.pow_pos_nonneg; lia]. }
  pose proof (round_nearest_even_bounds (shr_m mrs') (loc_of_shr_record mrs')) as Hr.
  match goal with |- context [shr ?a ?b ?c] =>
    pose proof (shr_m_spec a b c) as H2; destruct (shr a b c) as [mrs'' e''] end.
  rewrite shr_record_of_loc_m in H2. destruct H2 as [H2m _]; [lia |]. cbn [fst] in H2m.
  assert (Hm'' : 0 <= shr_m mrs'').
  { rewrite H2m. apply Z.div_pos; [lia | apply Z.pow_pos_nonneg; lia]. }
  destruct (shr_m mrs'') as [|p|p]; cbn; try lia; try reflexivity.
  destruct (e'' <=? em - pr); reflexivity.
Qed.

(** A positive 64-bit mantissa with an exponent between [emin] and 0
    rounds to a finite, non-zero float64. *)
Lemma binary_round_aux_finite sx mx ex lx :
  0 < mx < 2 ^ 64 -> SpecFloat.emin F64.prec F64.emax <= ex <= 0 ->
  exists m e, binary_round_aux F64.prec F64.emax sx mx ex lx = S754_finite sx m e.
Proof.
  intros [Hm0 Hm64] [He0 He1]. unfold binary_round_aux.
  destruct (shr_fexp_spec mx ex lx Hm0 He0) as (k1 & Hk1 & _ & He' & Hm1).
  destruct (shr_fexp F64.prec F64.emax mx ex lx) as [mrs' e']. cbn [fst snd] in *.
  pose proof (Zdigits2_le mx 64 (conj Hm0 Hm64) ltac:(lia)) as Hd.
  pose proof (round_nearest_even_bounds (shr_m mrs') (loc_of_shr_record mrs')) as Hr.
  set (r := round_nearest_even (shr_m mrs') (loc_of_shr_record mrs')) in *.
  assert (Hr0 : 0 < r) by lia.
  assert (He'0 : SpecFloat.emin F64.prec F64.emax <= e') by lia.
  destruct (shr_fexp_spec r e' loc_Exact Hr0 He'0) as (k2 & Hk2 & _ & He'' & Hm2).
  destruct (shr_fexp F64.prec F64.emax r e' loc_Exact) as [mrs'' e'']. cbn [fst snd] in *.
  assert (Hdr : Zdigits2 r <= 65) by (apply Zdigits2_le; lia).
  destruct (shr_m mrs'') as [|p|p]; try lia.
  replace (e'' <=? F64.emax - F64.prec) with true.
  - eauto.
  - symmetry. apply Z.leb_le. unfold F64.emax, F64.prec. lia.
Qed.

Lemma iter_xO_Z p k : Zpos (Pos.iter xO p k) = Zpos p * 2 ^ Zpos k.
Proof.
  induction k as [|k IH] using Pos.peano_ind.
  - cbn. lia.
  - rewrite Pos.iter_succ, Pos2Z.inj_xO, IH, Pos2Z.inj_succ, Z.pow_succ_r by lia. ring.
Qed.

Lemma of_Z_finite z :
  0 < z < 2 ^ 64 -> exists m e, F64.of_Z z = S754_finite false m e.
Proof.
  intros [Hz0 Hz64]. destruct z as [|p|p]; try lia.
  unfold F64.of_Z, binary_normalize, binary_round.
  pose proof (Zdigits2_bounds (Zpos p) Hz0) as [Hlo Hhi].
  pose proof (Zdigits2_le (Zpos p) 64 (conj Hz0 Hz64) ltac:(lia)) as Hd.
  cbn [Zdigits2] in *. set (d := Z.pos (digits2_pos p)) in *.
  assert (Hd1 : 1 <= d) by (subst d; lia).
  unfold shl_align.
  replace (fexp F64.prec F64.emax (d + 0) - 0) with (d - 53)
    by (unfold fexp, SpecFloat.emin, F64.prec, F64.emax; lia).
  replace (fexp F64.prec F64.emax (d + 0)) with (d - 53)
    by (unfold fexp, SpecFloat.emin, F64.prec, F64.emax; lia).
  destruct (d - 53) as [|k|k] eqn:Ek.
  - apply binary_round_aux_finite; [lia | unfold SpecFloat.emin, F64.prec, F64.emax; lia].
  - apply binary_round_aux_finite; [lia | unfold SpecFloat.emin, F64.prec, F64.emax; lia].
  - apply binary_round_aux_finite.
    + rewrite iter_xO_Z. split; [lia |].
      assert (Z.pos p * 2 ^ Z.pos k < 2 ^ d * 2 ^ Z.pos k).
      { apply Z.mul_lt_mono_pos_r; [apply Z.pow_pos_nonneg; lia | lia]. }
      rewrite <- Z.pow_add_r in H by lia.
      replace (d + Z.pos k) with 53 in H by lia. lia.
    + unfold SpecFloat.emin, F64.prec, F64.emax; lia.
Qed.

Lemma of_Z_signed z : 0 <= z -> signed false (F64.of_Z z).
Proof.
  intros Hz. destruct z as [|p|p]; try lia; [reflexivity |].
  unfold F64.of_Z, binary_normalize, binary_round.
  destruct (shl_align _ _ _) as [mz ez].
  apply binary_round_aux_signed. lia.
Qed.

Lemma div_signed mx ex my ey :
  signed false (F64.div (S754_finite false mx ex) (S754_finite false my ey)).
Proof.
  unfold F64.div, SFdiv, SFdiv_core_binary.
  match goal with |- context [Z.div_eucl ?a ?b] =>
    pose proof (Z_div_mod a b ltac:(lia)) as Hdm;
    assert (Ha : 0 <= a); [| destruct (Z.div_eucl a b) as [q r]] end.
  { match goal with |- context [match ?s with Z0 => _ | Zpos _ => _ | Zneg _ => _ end] =>
      destruct s eqn:Es end; try lia.
    apply Z.shiftl_nonneg. lia. }
  cbn [xorb]. apply binary_round_aux_signed. nia.
Qed.

Lemma mul_signed x my ey :
  signed false x -> signed false (F64.mul x (S754_finite false my ey)).
Proof.
  destruct x as [s|s| |s mx ex]; cbn; try tauto; intros ->; try reflexivity.
  apply binary_round_aux_signed. lia.
Qed.

Lemma signed_leb x : signed false x -> F64.leb F64.zero x = true.
Proof. destruct x as [s|s| |s m e]; cbn; try tauto; intros ->; reflexivity. Qed.

Lemma signed_ltb x : signed false x -> F64.ltb x F64.zero = false.
Proof. destruct x as [s|s| |s m e]; cbn; try tauto; intros ->; reflexivity. Qed.

(** ** CPU usage *)

Lemma scanStat_skip c pre rest :
  (forall l, In l pre -> Str.HasPrefix l "cpu " = false) ->
  CPU.scanStat c (pre ++ rest)%list = CPU.scanStat c rest.
Proof.
  induction pre as [|l pre IH]; intros Hpre; [reflexivity |].
  cbn [app CPU.scanStat]. rewrite (Hpre l) by (left; reflexivity).
  cbn [negb]. apply IH. intros l' Hl'. apply Hpre. right. exact Hl'.
Qed.

Lemma scanStat_none c ls :
  (forall l, In l ls -> Str.HasPrefix l "cpu " = false) ->
  CPU.scanStat c ls = (None, c).
Proof.
  intros H. rewrite <- (app_nil_r ls). rewrite scanStat_skip by exact H. reflexivity.
Qed.

(** On the first line that starts with ["cpu "], the loop returns. *)
Lemma scanStat_first c pre line post :
  (forall l, In l pre -> Str.HasPrefix l "cpu " = false) ->
  Str.HasPrefix line "cpu " = true ->
  CPU.scanStat c (pre ++ line :: post)%list =
    if (List.length (Str.Fields line) <? 8)%nat then (None, c)
    else (Some (fst (CPU.usageOfFields c (Str.Fields line))),
          snd (CPU.usageOfFields c (Str.Fields line))).
Proof.
  intros Hpre Hline. rewrite scanStat_skip by exact Hpre.
  cbn [CPU.scanStat]. rewrite Hline. cbn [negb].
  destruct (_ <? 8)%nat; [reflexivity |].
  destruct (CPU.usageOfFields c (Str.Fields line)); reflexivity.
Qed.

Lemma add64_mod a b : add64 (a mod 2 ^ 64) b = (a + b) mod 2 ^ 64.
Proof. unfold add64. apply Zplus_mod_idemp_l. Qed.

Lemma sub64_range a b : 0 <= sub64 a b < 2 ^ 64.
Proof. unfold sub64. apply Z.mod_pos_bound. lia. Qed.

(** C1. readCPUUsage over a readable /proc/stat whose first line starting
    with "cpu " has at least 8 fields: the call returns a usage and stores
    (total, idleTotal), where total is the sum of the seven counters and
    idleTotal is idle + iowait (as uint64, so modulo 2^64). The usage is 0
    when the stored previous total is 0, in particular on the first call of
    a fresh collector; it is 0 when totalDelta = total - prevTotal is 0;
    otherwise it is float64(totalDelta - idleDelta) / float64(totalDelta)
    * 100, each operation rounded as float64 arithmetic rounds. *)
Theorem cpu_usage_delta (c : CPU.CPUCollector) (sys : System) (f : Scanner)
    (pre post : list string) (line : string) :
  Open sys "/proc/stat" = Some f ->
  lines f = (pre ++ line :: post)%list ->
  (forall l, In l pre -> Str.HasPrefix l "cpu " = false) ->
  Str.HasPrefix line "cpu " = true ->
  (8 <= List.length (Str.Fields line))%nat ->
  let fields := Str.Fields line in
  let user := CPU.counter fields 1 in
  let nice := CPU.counter fields 2 in
  let system := CPU.counter fields 3 in
  let idle := CPU.counter fields 4 in
  let iowait := CPU.counter fields 5 in
  let irq := CPU.counter fields 6 in
  let softirq := CPU.counter fields 7 in
  let total := (user + nice + system + idle + iowait + irq + softirq) mod 2 ^ 64 in
  let idleTotal := (idle + iowait) mod 2 ^ 64 in
  let totalDelta := sub64 total (CPU.prevTotal c) in
  let idleDelta := sub64 idleTotal (CPU.prevIdle c) in
  exists usage,
    CPU.readCPUUsage c sys
      = (Some usage, {| CPU.prevIdle := idleTotal; CPU.prevTotal := total |})
    /\ (CPU.prevTotal c = 0 -> usage = F64.zero)
    /\ (CPU.prevTotal c <> 0 -> totalDelta = 0 -> usage = F64.zero)
    /\ (CPU.prevTotal c <> 0 -> totalDelta <> 0 ->
        usage = F64.mul (F64.div (F64.of_Z (sub64 totalDelta idleDelta))
                                 (F64.of_Z totalDelta))
                        (F64.of_Z 100))
    /\ fst (CPU.readCPUUsage CPU.NewCPUCollector sys) = Some F64.zero.
Proof.
  intros Hopen Hlines Hpre Hline Hlen fields user nice system idle iowait irq softirq
         total idleTotal totalDelta idleDelta.
  assert (Hlt : (List.length (Str.Fields line) <? 8)%nat = false)
    by (apply Nat.ltb_ge; exact Hlen).
  assert (Hscan : forall c0, CPU.readCPUUsage c0 sys =
            (Some (fst (CPU.usageOfFields c0 fields)), snd (CPU.usageOfFields c0 fields))).
  { intros c0. unfold CPU.readCPUUsage. rewrite Hopen, Hlines.
    rewrite scanStat_first by assumption. rewrite Hlt. reflexivity. }
  assert (Htotal : add64 (add64 (add64 (add64 (add64 (add64 user nice) system) idle)
                                         iowait) irq) softirq = total).
  { unfold add64 at 6. rewrite !add64_mod. reflexivity. }
  assert (Hidle : add64 idle iowait = idleTotal) by reflexivity.
  assert (Hbody : forall c0, CPU.usageOfFields c0 fields =
            ((if CPU.prevTotal c0 =? 0 then F64.zero
              else if sub64 total (CPU.prevTotal c0) =? 0 then F64.zero
              else F64.mul (F64.div (F64.of_Z (sub64 (sub64 total (CPU.prevTotal c0))
                                                     (sub64 idleTotal (CPU.prevIdle c0))))
                                    (F64.of_Z (sub64 total (CPU.prevTotal c0))))
                           (F64.of_Z 100)),
             {| CPU.prevIdle := idleTotal; CPU.prevTotal := total |})).
  { intros c0. unfold CPU.usageOfFields.
    fold fields user nice system idle iowait irq softirq.
    rewrite Htotal, Hidle.
    destruct (CPU.prevTotal c0 =? 0); [reflexivity |].
    destruct (sub64 total (CPU.prevTotal c0) =? 0); reflexivity. }
  eexists. rewrite !Hscan, !Hbody. cbn [fst snd].
  split; [reflexivity |]. fold totalDelta idleDelta.
  repeat split.
  - intros H0. apply Z.eqb_eq in H0. rewrite H0. reflexivity.
  - intros Hp Hd. apply Z.eqb_neq in Hp. apply Z.eqb_eq in Hd. rewrite Hp, Hd. reflexivity.
  - intros Hp Hd. apply Z.eqb_neq in Hp. apply Z.eqb_neq in Hd. rewrite Hp, Hd. reflexivity.
Qed.

Lemma cpu_usage_delta_witness :
  exists usage,
    CPU.readCPUUsage {| CPU.prevIdle := 850; CPU.prevTotal := 1000 |} stat2
      = (Some usage, {| CPU.prevIdle := 1600; CPU.prevTotal := 2000 |})
    /\ (1000 = 0 -> usage = F64.zero)
    /\ (1000 <> 0 -> 1000 = 0 -> usage = F64.zero)
    /\ (1000 <> 0 -> 1000 <> 0 ->
        usage = F64.mul (F64.div (F64.of_Z 250) (F64.of_Z 1000)) (F64.of_Z 100))
    /\ fst (CPU.readCPUUsage CPU.NewCPUCollector stat2) = Some F64.zero.
Proof.
  apply (cpu_usage_delta {| CPU.prevIdle := 850; CPU.prevTotal := 1000 |} stat2
           (scanOf ["cpu  300 0 100 1500 100 0 0 0 0 0"; "cpu0 300 0 100 1500 100 0 0 0 0 0"])
           [] ["cpu0 300 0 100 1500 100 0 0 0 0 0"] "cpu  300 0 100 1500 100 0 0 0 0 0").
  - reflexivity.
  - reflexivity.
  - intros l [].
  - reflexivity.
  - vm_compute. lia.
Defined.

(** Two scrapes in a row: the first seeds the state and reports 0, the
    second reports 250 busy ticks out of 1000, that is 25. *)
Example cpu_usage_two_scrapes :
  let '(u1, c1) := CPU.readCPUUsage CPU.NewCPUCollector stat1 in
  let '(u2, c2) := CPU.readCPUUsage c1 stat2 in
  u1 = Some F64.zero /\ u2 = Some (F64.of_Z 25)
  /\ c2 = {| CPU.prevIdle := 1600; CPU.prevTotal := 2000 |}.
Proof. vm_compute. auto. Qed.

Lemma usage_value_signed a b :
  0 <= a < 2 ^ 64 -> 0 < b < 2 ^ 64 ->
  signed false (F64.mul (F64.div (F64.of_Z a) (F64.of_Z b)) (F64.of_Z 100)).
Proof.
  intros Ha Hb.
  destruct (of_Z_finite b Hb) as (mb & eb & ->).
  change (F64.of_Z 100) with (S754_finite false 7036874417766400 (-46)).
  apply mul_signed.
  destruct (Z.eq_dec a 0) as [-> | Hne].
  - reflexivity.
  - destruct (of_Z_finite a ltac:(lia)) as (ma & ea & ->). apply div_signed.
Qed.

Lemma usageOfFields_signed c fields :
  signed false (fst (CPU.usageOfFields c fields)).
Proof.
  unfold CPU.usageOfFields.
  destruct (CPU.prevTotal c =? 0); [reflexivity |].
  match goal with |- context [sub64 ?t (CPU.prevTotal c) =? 0] =>
    set (totalDelta := sub64 t (CPU.prevTotal c));
    pose proof (sub64_range t (CPU.prevTotal c)) as Hd; fold totalDelta in Hd end.
  destruct (totalDelta =? 0) eqn:E; [reflexivity |].
  apply Z.eqb_neq in E. cbn [fst].
  apply usage_value_signed; [apply sub64_range | lia].
Qed.

Lemma signed_above x y my ey :
  signed false x -> y = S754_finite false my ey ->
  F64.leb x y = false -> F64.ltb y x = true.
Proof.
  intros Hx -> . destruct x as [s|s| |s m e]; cbn in Hx |- *; try tauto; subst s; cbn;
    try discriminate; try reflexivity.
  unfold F64.leb, F64.ltb, SFleb, SFltb, SFcompare.
  rewrite (Z.compare_antisym e ey).
  destruct (e ?= ey) eqn:E1; cbn; try discriminate; try reflexivity.
  change (Pos.compare_cont Eq my m) with (Pos.compare_cont (CompOpp Eq) my m).
  rewrite <- Pos.compare_cont_antisym.
  destruct (Pos.compare_cont Eq m my); cbn; try discriminate; reflexivity.
Qed.

(** C10. Whatever the stored previous state and whatever /proc/stat holds
    now (counters that grew, shrank or were reset), a usage that
    readCPUUsage emits is a number with its sign bit clear: 0 <= usage
    holds and usage < 0 does not. The deltas are taken modulo 2^64, hence
    non-negative, and a quotient of two non-negative float64s times 100 is
    non-negative. A usage outside [0, 100] is therefore above 100. *)
Theorem cpu_usage_nonneg (c : CPU.CPUCollector) (sys : System) :
  match fst (CPU.readCPUUsage c sys) with
  | Some usage =>
      signed false usage
      /\ F64.leb F64.zero usage = true
      /\ F64.ltb usage F64.zero = false
      /\ (F64.leb usage (F64.of_Z 100) = false -> F64.ltb (F64.of_Z 100) usage = true)
  | None => True
  end.
Proof.
  assert (Hs : forall c0 ls, match fst (CPU.scanStat c0 ls) with
                             | Some usage => signed false usage
                             | None => True
                             end).
  { intros c0 ls. induction ls as [|line rest IH]; cbn [CPU.scanStat]; [exact I |].
    destruct (negb _); [exact IH |].
    destruct (_ <? 8)%nat; [exact I |].
    pose proof (usageOfFields_signed c0 (Str.Fields line)) as H.
    destruct (CPU.usageOfFields c0 (Str.Fields line)). exact H. }
  unfold CPU.readCPUUsage. destruct (Open sys "/proc/stat") as [f|]; [| exact I].
  specialize (Hs c (lines f)). destruct (fst (CPU.scanStat c (lines f))) as [usage|]; [| exact I].
  repeat split; auto using signed_leb, signed_ltb.
  apply (signed_above usage _ 7036874417766400 (-46) Hs). reflexivity.
Qed.

(** Inconsistent readings. When all counters went backwards between two
    scrapes the deltas wrap around and the usage that comes out is 100;
    when only the idle counters did, the usage is 110: above 100, not
    below 0. *)
Example cpu_usage_counters_decreased :
  fst (CPU.readCPUUsage {| CPU.prevIdle := 1600; CPU.prevTotal := 2000 |} stat1)
    = Some (F64.of_Z 100)
  /\ fst (CPU.readCPUUsage {| CPU.prevIdle := 1600; CPU.prevTotal := 2000 |} statIdleBack)
       = Some (F64.mul (F64.div (F64.of_Z 1100) (F64.of_Z 1000)) (F64.of_Z 100))
  /\ F64.ltb (F64.of_Z 100)
              (F64.mul (F64.div (F64.of_Z 1100) (F64.of_Z 1000)) (F64.of_Z 100)) = true.
Proof. repeat split. Qed.

(** ** CPU usage: when the sample is absent *)

Lemma parseUint_go_error s : forall n e,
  snd (Strconv.parseUint_go s n) = Some e ->
  fst (Strconv.parseUint_go s n)
    = match e with Strconv.ErrSyntax => 0 | Strconv.ErrRange => Strconv.maxUint64 end.
Proof.
  induction s as [|ch t IH]; intros n e; cbn [Strconv.parseUint_go].
  - discriminate.
  - destruct (Strconv.digit ch) as [d|].
    + destruct (_ <=? n); [cbn; intros [= <-]; reflexivity |].
      destruct (_ <? _); [cbn; intros [= <-]; reflexivity |]. apply IH.
    + cbn. intros [= <-]. reflexivity.
Qed.

(** What [ParseUint] returns besides an error: 0 for a string that is no
    number, 2^64-1 for a number that does not fit. *)
Lemma ParseUint_error s e :
  snd (Strconv.ParseUint s) = Some e ->
  fst (Strconv.ParseUint s)
    = match e with Strconv.ErrSyntax => 0 | Strconv.ErrRange => Strconv.maxUint64 end.
Proof.
  destruct s as [|ch t]; [cbn; intros [= <-]; reflexivity |].
  apply parseUint_go_error.
Qed.

Lemma zoneSearch_ext sys sys' :
  (forall p, ReadFile sys p = ReadFile sys' p) ->
  forall n i, CPU.zoneSearch sys n i = CPU.zoneSearch sys' n i.
Proof.
  intros Hrf. assert (Ht : forall p, CPU.readThermalTemp sys p = CPU.readThermalTemp sys' p).
  { intros p. unfold CPU.readThermalTemp. rewrite Hrf. reflexivity. }
  induction n as [|n IH]; intros i; cbn [CPU.zoneSearch].
  - apply Ht.
  - rewrite Hrf, Ht, IH. reflexivity.
Qed.

Lemma freqLoop_ext sys sys' :
  (forall p, ReadFile sys p = ReadFile sys' p) ->
  forall n i t k, CPU.freqLoop sys n i t k = CPU.freqLoop sys' n i t k.
Proof.
  intros Hrf. induction n as [|n IH]; intros i t k; cbn [CPU.freqLoop]; [reflexivity |].
  rewrite Hrf. destruct (ReadFile sys' (CPU.freqPath i)); [| reflexivity].
  destruct (Strconv.ParseFloat _) as [v [e|]]; apply IH.
Qed.

(** C3, as the code has it. The usage sample is absent, and the stored
    state untouched, when /proc/stat does not open, when no line starts
    with "cpu ", and when the first such line has fewer than 8 fields. With
    8 fields or more the sample is emitted whatever the counter fields
    hold: the error of ParseUint is dropped and the field counts as the
    value returned with it, 0 for a field that is no number. None of this
    reaches the other two sub-metrics: Collect sends the usage, the
    temperature and the frequency samples one after the other, and
    temperature and frequency are functions of the files read with
    os.ReadFile alone, not of /proc/stat or the stored state. *)
Theorem cpu_usage_absent (c : CPU.CPUCollector) (sys sys' : System) :
  (Open sys "/proc/stat" = None -> CPU.readCPUUsage c sys = (None, c))
  /\ (forall f, Open sys "/proc/stat" = Some f ->
        (forall l, In l (lines f) -> Str.HasPrefix l "cpu " = false) ->
        CPU.readCPUUsage c sys = (None, c))
  /\ (forall f pre line post,
        Open sys "/proc/stat" = Some f ->
        lines f = (pre ++ line :: post)%list ->
        (forall l, In l pre -> Str.HasPrefix l "cpu " = false) ->
        Str.HasPrefix line "cpu " = true ->
        ((List.length (Str.Fields line) < 8)%nat -> CPU.readCPUUsage c sys = (None, c))
        /\ ((8 <= List.length (Str.Fields line))%nat ->
            exists usage c', CPU.readCPUUsage c sys = (Some usage, c')))
  /\ (forall s, snd (Strconv.ParseUint s) = Some Strconv.ErrSyntax ->
        fst (Strconv.ParseUint s) = 0)
  /\ fst (CPU.Collect c sys)
       = (emit CPU.usageDesc GaugeValue (fst (CPU.readCPUUsage c sys))
            ++ emit CPU.tempDesc GaugeValue (CPU.readCPUTemperature sys)
            ++ emit CPU.freqDesc GaugeValue (CPU.readCPUFrequency sys))%list
  /\ ((forall p, ReadFile sys p = ReadFile sys' p) ->
        CPU.readCPUTemperature sys = CPU.readCPUTemperature sys'
        /\ CPU.readCPUFrequency sys = CPU.readCPUFrequency sys').
Proof.
  split; [| split; [| split; [| split; [| split]]]].
  - intros H. unfold CPU.readCPUUsage. rewrite H. reflexivity.
  - intros f H Hl. unfold CPU.readCPUUsage. rewrite H. apply scanStat_none, Hl.
  - intros f pre line post Hopen Hlines Hpre Hline.
    unfold CPU.readCPUUsage. rewrite Hopen, Hlines.
    rewrite scanStat_first by assumption. split.
    + intros Hlt. apply Nat.ltb_lt in Hlt. rewrite Hlt. reflexivity.
    + intros Hge. apply Nat.ltb_ge in Hge. rewrite Hge. eauto.
  - intros s H. apply (ParseUint_error s _ H).
  - unfold CPU.Collect. destruct (CPU.readCPUUsage c sys). reflexivity.
  - intros H. split.
    + unfold CPU.readCPUTemperature. apply zoneSearch_ext, H.
    + unfold CPU.readCPUFrequency. rewrite (freqLoop_ext sys sys' H). reflexivity.
Qed.

(** The hypotheses of the four cases hold on concrete machines. *)
Lemma cpu_usage_absent_witness :
  CPU.readCPUUsage seeded bare = (None, seeded)
  /\ CPU.readCPUUsage seeded statShort = (None, seeded)
  /\ (exists usage c', CPU.readCPUUsage seeded statGarbled = (Some usage, c'))
  /\ CPU.readCPUTemperature statShort = CPU.readCPUTemperature bare.
Proof.
  destruct (cpu_usage_absent seeded bare bare) as (H1 & _).
  destruct (cpu_usage_absent seeded statShort bare) as (_ & _ & H3 & _ & _ & H6).
  destruct (cpu_usage_absent seeded statGarbled bare) as (_ & _ & H3' & _).
  repeat apply conj.
  - apply H1. reflexivity.
  - refine (proj1 (H3 _ ["intr 5"] "cpu  150 0 7 20" ["cpu  1 2 3 4 5 6 7 8"] eq_refl eq_refl _ eq_refl) _).
    + intros l [<- | []]. reflexivity.
    + vm_compute. lia.
  - refine (proj2 (H3' _ [] "cpu  150 0 x 20 0 0 0 0 0 0" [] eq_refl eq_refl _ eq_refl) _).
    + intros l [].
    + vm_compute. lia.
  - apply H6. reflexivity.
Defined.

(** C3 as stated fails: the third counter of the aggregate line is not a
    number, and the usage sample is emitted all the same, computed with 0
    in its place (60 busy ticks out of 70). *)
Lemma cpu_usage_garbled_emitted :
  snd (Strconv.ParseUint (nth 3 (Str.Fields "cpu  150 0 x 20 0 0 0 0 0 0") EmptyString))
    = Some Strconv.ErrSyntax
  /\ fst (CPU.readCPUUsage seeded statGarbled)
       = Some (F64.mul (F64.div (F64.of_Z 60) (F64.of_Z 70)) (F64.of_Z 100))
  /\ fst (CPU.Collect seeded statGarbled)
       = [MustNewConstMetric CPU.usageDesc GaugeValue
            (F64.mul (F64.div (F64.of_Z 60) (F64.of_Z 70)) (F64.of_Z 100)) []].
Proof. repeat split. Qed.

(** ** Memory *)

Lemma kB_bytes_signed u : 0 <= u -> signed false (F64.mul (F64.of_Z u) (F64.of_Z 1024)).
Proof.
  intros Hu. change (F64.of_Z 1024) with (S754_finite false 4503599627370496 (-42)).
  apply mul_signed, of_Z_signed, Hu.
Qed.

(** The test [usedBytes < 0] of Collect is never true: the subtraction is
    done on uint64 values, and the float64 of a uint64 is not negative. So
    the used figure sent is always the one of the first formula. *)
Lemma memory_collect_values sys info :
  Memory.readMemInfo sys = Some info ->
  Memory.Collect sys =
    [ MustNewConstMetric Memory.totalDesc GaugeValue
        (F64.mul (F64.of_Z (Memory.index info "MemTotal")) (F64.of_Z 1024)) [];
      MustNewConstMetric Memory.usedDesc GaugeValue
        (F64.mul (F64.of_Z (sub64 (sub64 (sub64 (Memory.index info "MemTotal")
                                                (Memory.index info "MemFree"))
                                         (Memory.index info "Buffers"))
                                  (Memory.index info "Cached")))
                 (F64.of_Z 1024)) [] ].
Proof.
  intros H. unfold Memory.Collect. rewrite H.
  rewrite signed_ltb; [reflexivity |].
  apply kB_bytes_signed. apply sub64_range.
Qed.

(** C2, the part that holds: the snapshot of the specification gives
    used = 600 * 1024 bytes (and total = 1000 * 1024). *)
Example memory_used_example :
  Memory.Collect memOK =
    [ MustNewConstMetric Memory.totalDesc GaugeValue (F64.of_Z (1000 * 1024)) [];
      MustNewConstMetric Memory.usedDesc GaugeValue (F64.of_Z (600 * 1024)) [] ].
Proof. reflexivity. Qed.

(** C2 on an inconsistent snapshot (total 100 kB, free 50 kB, buffers
    30 kB, cached 30 kB, so total - free - buffers - cached = -10 kB): the
    value sent as memory_used_bytes is float64(2^64 - 10) * 1024 = 2^74,
    and not the fallback (100 - 50) * 1024. On every system the used value
    sent is the one of the first formula on uint64, which is never below
    zero: the fallback is never taken. *)
Theorem memory_stale_snapshot_wraps :
  Memory.readMemInfo memStale
    = Some (<["Cached" := 30]> (<["Buffers" := 30]> (<["MemFree" := 50]>
              (<["MemTotal" := 100]> ∅))))
  /\ map value (Memory.Collect memStale)
       = [ F64.of_Z (100 * 1024); F64.mul (F64.of_Z (2 ^ 64 - 10)) (F64.of_Z 1024) ]
  /\ F64.toQ (F64.mul (F64.of_Z (2 ^ 64 - 10)) (F64.of_Z 1024)) = Some (inject_Z (2 ^ 74))
  /\ F64.toQ (F64.of_Z ((100 - 50) * 1024)) = Some (inject_Z 51200)
  /\ (forall sys info, Memory.readMemInfo sys = Some info ->
        map value (Memory.Collect sys)
          = [ F64.mul (F64.of_Z (Memory.index info "MemTotal")) (F64.of_Z 1024);
              F64.mul (F64.of_Z (sub64 (sub64 (sub64 (Memory.index info "MemTotal")
                                                      (Memory.index info "MemFree"))
                                               (Memory.index info "Buffers"))
                                        (Memory.index info "Cached")))
                      (F64.of_Z 1024) ]
          /\ F64.ltb (nth 1 (map value (Memory.Collect sys)) F64.zero) F64.zero = false).
Proof.
  split; [reflexivity |]. split; [reflexivity |]. split; [reflexivity |].
  split; [reflexivity |].
  intros sys info E. rewrite (memory_collect_values sys info E). cbn [map value nth].
  split; [reflexivity |]. apply signed_ltb, kB_bytes_signed, sub64_range.
Qed.

(** C4, as the code has it. Collect reads MemTotal, MemFree, Buffers and
    Cached from the mapping that readMemInfo returns, a key that is not
    there reading as 0, and sends its two samples whenever readMemInfo
    returns without error, whether or not the mapping holds the keys. It
    sends nothing exactly when readMemInfo returns an error, which is when
    /proc/meminfo does not open or when the line scanner ends with an
    error. *)
Theorem memory_collect_spec (sys : System) :
  (Memory.readMemInfo sys = None <->
     Open sys "/proc/meminfo" = None
     \/ exists f, Open sys "/proc/meminfo" = Some f /\ scanErr f = true)
  /\ (Memory.Collect sys = [] <-> Memory.readMemInfo sys = None)
  /\ (forall f, Open sys "/proc/meminfo" = Some f -> scanErr f = false ->
        Memory.readMemInfo sys = Some (fold_left Memory.memInfoLine (lines f) ∅))
  /\ (forall info, Memory.readMemInfo sys = Some info ->
        Memory.Collect sys =
          [ MustNewConstMetric Memory.totalDesc GaugeValue
              (F64.mul (F64.of_Z (Memory.index info "MemTotal")) (F64.of_Z 1024)) [];
            MustNewConstMetric Memory.usedDesc GaugeValue
              (F64.mul (F64.of_Z (sub64 (sub64 (sub64 (Memory.index info "MemTotal")
                                                      (Memory.index info "MemFree"))
                                               (Memory.index info "Buffers"))
                                        (Memory.index info "Cached")))
                       (F64.of_Z 1024)) [] ])
  /\ (forall (info : gmap string Z) key, info !! key = None -> Memory.index info key = 0).
Proof.
  split; [| split; [| split; [| split]]].
  - unfold Memory.readMemInfo. destruct (Open sys "/proc/meminfo") as [f|].
    + destruct (scanErr f) eqn:E; split.
      * intros _. right. exists f. auto.
      * reflexivity.
      * discriminate.
      * intros [H | (f' & [= <-] & H)]; congruence.
    + split; [intros _; left; reflexivity | reflexivity].
  - destruct (Memory.readMemInfo sys) as [info|] eqn:E.
    + rewrite (memory_collect_values sys info E). split; discriminate.
    + unfold Memory.Collect. rewrite E. split; reflexivity.
  - intros f Hf He. unfold Memory.readMemInfo. rewrite Hf, He. reflexivity.
  - intros info. apply memory_collect_values.
  - intros info key H. unfold Memory.index. rewrite H. reflexivity.
Qed.

(** C4 as stated fails twice. A /proc/meminfo that opens and holds none of
    the four keys still yields both samples, with value 0; and a
    /proc/meminfo that opens but whose scan ends with an error yields
    nothing. *)
Lemma memory_keys_not_required :
  (exists info,
     Memory.readMemInfo memEmpty = Some info
     /\ info !! "MemTotal" = None /\ info !! "MemFree" = None
     /\ info !! "Buffers" = None /\ info !! "Cached" = None
     /\ Memory.Collect memEmpty =
          [ MustNewConstMetric Memory.totalDesc GaugeValue F64.zero [];
            MustNewConstMetric Memory.usedDesc GaugeValue F64.zero [] ])
  /\ (exists f, Open memBroken "/proc/meminfo" = Some f)
  /\ Memory.Collect memBroken = [].
Proof.
  split; [| split].
  - eexists. split; [reflexivity |]. repeat split.
  - eexists. reflexivity.
  - reflexivity.
Qed.

(** ** GPU *)

Lemma split_go_nonempty sep limit s : forall skip cur,
  Str.split_go sep limit skip s cur <> [].
Proof.
  revert limit. induction s as [|ch t IH]; intros limit skip cur; cbn [Str.split_go].
  - discriminate.
  - destruct skip; [| apply IH].
    destruct (match limit with Some O => false | _ => String.prefix sep (String ch t) end);
      [discriminate | apply IH].
Qed.

(** [strings.Split] never returns an empty slice: [len(lines) == 0] in
    Collect is never true. *)
Lemma Split_nonempty s sep : Str.Split s sep <> [].
Proof. apply split_go_nonempty. Qed.

(** C7. When the nvidia-smi invocation fails, and when the first line of
    its output has fewer than four comma-separated fields, Collect sends
    nothing. Otherwise it sends the four samples, utilization, temperature,
    frequency and power, read from fields 0, 1, 3 and 2 of the first line.
    A field reads as 0 when, trimmed, it is empty, "N/A" or "[N/A]", or
    when ParseFloat rejects it; otherwise as the float ParseFloat returns;
    each field is read on its own. The output "45, 62, 12.5, 1300" gives
    utilization 45, temperature 62, power 12.5 and frequency 1300; with
    "[N/A]" as power, power is 0 and the three others are unchanged. *)
Theorem gpu_collect_spec (sys : System) :
  (nvidia_smi sys = None -> GPU.Collect sys = [])
  /\ (forall out, nvidia_smi sys = Some out ->
        let line0 := hd EmptyString (Str.Split (Str.TrimSpace out) LF) in
        let fields := Str.Split line0 "," in
        ((List.length fields < 4)%nat -> GPU.Collect sys = [])
        /\ ((4 <= List.length fields)%nat ->
            GPU.Collect sys =
              [ MustNewConstMetric GPU.utilizationDesc GaugeValue
                  (GPU.parseNvidiaSmiFloat (nth 0 fields EmptyString)) [];
                MustNewConstMetric GPU.tempDesc GaugeValue
                  (GPU.parseNvidiaSmiFloat (nth 1 fields EmptyString)) [];
                MustNewConstMetric GPU.freqDesc GaugeValue
                  (GPU.parseNvidiaSmiFloat (nth 3 fields EmptyString)) [];
                MustNewConstMetric GPU.powerDesc GaugeValue
                  (GPU.parseNvidiaSmiFloat (nth 2 fields EmptyString)) [] ]))
  /\ (forall s, Str.TrimSpace s = "N/A" \/ Str.TrimSpace s = "[N/A]"
                \/ Str.TrimSpace s = EmptyString
                \/ (exists e, snd (Strconv.ParseFloat (Str.TrimSpace s)) = Some e) ->
                GPU.parseNvidiaSmiFloat s = F64.zero)
  /\ (forall s v, Str.TrimSpace s <> "N/A" -> Str.TrimSpace s <> "[N/A]" ->
                  Str.TrimSpace s <> EmptyString ->
                  Strconv.ParseFloat (Str.TrimSpace s) = (v, None) ->
                  GPU.parseNvidiaSmiFloat s = v)
  /\ map (fun m => (fqName (desc m), F64.toQ (value m))) (GPU.Collect gpuOK)
       = [ ("gpu_utilization_percent", Some (45 # 1)%Q);
           ("gpu_temperature_celsius", Some (62 # 1)%Q);
           ("gpu_frequency_mhz", Some (1300 # 1)%Q);
           ("gpu_power_watts", Some (25 # 2)%Q) ]
  /\ map (fun m => (fqName (desc m), F64.toQ (value m))) (GPU.Collect gpuNA)
       = [ ("gpu_utilization_percent", Some (45 # 1)%Q);
           ("gpu_temperature_celsius", Some (62 # 1)%Q);
           ("gpu_frequency_mhz", Some (1300 # 1)%Q);
           ("gpu_power_watts", Some (0 # 1)%Q) ].
Proof.
  split; [| split; [| split; [| split; [| split]]]]; try reflexivity.
  - intros H. unfold GPU.Collect. rewrite H. reflexivity.
  - intros out H line0 fields. unfold GPU.Collect. rewrite H.
    subst fields line0.
    pose proof (Split_nonempty (Str.TrimSpace out) LF) as Hne.
    destruct (Str.Split (Str.TrimSpace out) LF) as [|l0 ls]; [congruence |].
    cbn [hd]. split.
    + intros Hlt. apply Nat.ltb_lt in Hlt. rewrite Hlt. reflexivity.
    + intros Hge. apply Nat.ltb_ge in Hge. rewrite Hge. reflexivity.
  - intros s H. unfold GPU.parseNvidiaSmiFloat.
    destruct H as [-> | [-> | [-> | (e & He)]]]; try reflexivity.
    destruct (_ || _); [reflexivity |].
    destruct (Strconv.ParseFloat (Str.TrimSpace s)) as [v [e'|]]; [reflexivity | discriminate].
  - intros s v H1 H2 H3 Hp. unfold GPU.parseNvidiaSmiFloat.
    apply String.eqb_neq in H1, H2, H3. rewrite H1, H2, H3, Hp. reflexivity.
Qed.

Lemma gpu_collect_spec_witness :
  GPU.Collect bare = []
  /\ GPU.Collect gpuShort = []
  /\ map value (GPU.Collect gpuOK) = [F64.of_Z 45; F64.of_Z 62; F64.of_Z 1300; F64.of_ratio false 25 2]
  /\ GPU.parseNvidiaSmiFloat " [N/A]" = F64.zero
  /\ GPU.parseNvidiaSmiFloat " ERR!" = F64.zero
  /\ GPU.parseNvidiaSmiFloat " 12.5" = F64.of_ratio false 25 2.
Proof.
  destruct (gpu_collect_spec bare) as (H1 & _ & H3 & H4 & _).
  destruct (gpu_collect_spec gpuShort) as (_ & H2 & _).
  destruct (gpu_collect_spec gpuOK) as (_ & H2' & _).
  split; [apply H1; reflexivity |].
  split; [apply (proj1 (H2 _ eq_refl)); vm_compute; lia |].
  split; [rewrite (proj2 (H2' _ eq_refl)); [reflexivity | vm_compute; lia] |].
  split; [apply H3; right; left; reflexivity |].
  split; [apply H3; right; right; right; eexists; reflexivity |].
  apply H4; try discriminate. reflexivity.
Defined.

(** ** CPU frequency *)

(** The loop over the cores, started at core [i] with [n] iterations left,
    when the cores [i .. i + length contents - 1] have a frequency file and
    the loop ends right after them (a missing file, or the iteration
    bound). *)
Lemma freqLoop_run sys contents : forall n i totalFreq count,
  (forall j, (j < List.length contents)%nat ->
             ReadFile sys (CPU.freqPath (i + j)) = Some (nth j contents EmptyString)) ->
  (List.length contents <= n)%nat ->
  ((List.length contents < n)%nat ->
   ReadFile sys (CPU.freqPath (i + List.length contents)) = None) ->
  (0 < i + List.length contents)%nat ->
  CPU.freqLoop sys n i totalFreq count
    = Some (fold_left F64.add (parsedKHz contents) totalFreq,
            count + Z.of_nat (List.length (parsedKHz contents))).
Proof.
  induction contents as [|data rest IH]; intros n i totalFreq count Hfiles Hn Hend Hpos.
  - cbn [List.length parsedKHz fold_left] in *. rewrite Z.add_0_r.
    destruct n as [|n]; [reflexivity |]. cbn [CPU.freqLoop].
    rewrite Nat.add_0_r in Hend, Hpos. rewrite Hend by lia.
    destruct i; [lia | reflexivity].
  - cbn [List.length] in *. destruct n as [|n]; [lia |]. cbn [CPU.freqLoop].
    pose proof (Hfiles 0%nat ltac:(lia)) as H0. rewrite Nat.add_0_r in H0.
    cbn [nth] in H0. rewrite H0. cbn [parsedKHz].
    assert (Hrest : forall t k,
              CPU.freqLoop sys n (S i) t k
                = Some (fold_left F64.add (parsedKHz rest) t,
                        k + Z.of_nat (List.length (parsedKHz rest)))).
    { intros t k. apply IH; try lia.
      - intros j Hj. specialize (Hfiles (S j) ltac:(lia)).
        rewrite Nat.add_succ_r in Hfiles. exact Hfiles.
      - intros Hlt. specialize (Hend ltac:(lia)).
        rewrite Nat.add_succ_r in Hend. exact Hend. }
    destruct (Strconv.ParseFloat (Str.TrimSpace data)) as [v [e|]]; rewrite Hrest.
    + reflexivity.
    + cbn [fold_left List.length]. f_equal. f_equal. lia.
Qed.

Lemma freqLoop_core0_missing sys :
  ReadFile sys (CPU.freqPath 0) = None ->
  forall n totalFreq count, CPU.freqLoop sys (S n) 0 totalFreq count = None.
Proof. intros H n totalFreq count. cbn [CPU.freqLoop]. rewrite H. reflexivity. Qed.

(** C5. Without a frequency file for core 0 the sample is absent.
    Otherwise, with files for the cores 0 .. k-1 and the loop ending after
    them (core k has no file, or k = 256, the bound of the loop), the
    result is the average of the values that parse, in MHz: their sum over
    their number, over 1000. A content that does not parse is passed over:
    the loop goes on and the content adds nothing to the sum or the number;
    when none parses the sample is absent. Two cores at 1200000 and 1800000
    kHz give 1500 MHz. *)
Theorem cpu_frequency_spec (sys : System) :
  (ReadFile sys (CPU.freqPath 0) = None -> CPU.readCPUFrequency sys = None)
  /\ (forall contents,
        (0 < List.length contents <= 256)%nat ->
        (forall j, (j < List.length contents)%nat ->
                   ReadFile sys (CPU.freqPath j) = Some (nth j contents EmptyString)) ->
        ((List.length contents < 256)%nat ->
         ReadFile sys (CPU.freqPath (List.length contents)) = None) ->
        CPU.readCPUFrequency sys = averageMHz (parsedKHz contents))
  /\ parsedKHz ["1200000" +:+ LF; "1800000" +:+ LF] = [F64.of_Z 1200000; F64.of_Z 1800000]
  /\ CPU.readCPUFrequency twoCores = Some (F64.of_Z 1500)
  /\ parsedKHz ["1000000" +:+ LF; "<unknown>" +:+ LF; "3000000" +:+ LF]
       = [F64.of_Z 1000000; F64.of_Z 3000000]
  /\ CPU.readCPUFrequency threeCores = Some (F64.of_Z 2000).
Proof.
  split; [| split; [| repeat split]].
  - intros H. unfold CPU.readCPUFrequency.
    rewrite (freqLoop_core0_missing sys H 255). reflexivity.
  - intros contents Hlen Hfiles Hend. unfold CPU.readCPUFrequency.
    rewrite (freqLoop_run sys contents 256 0 F64.zero 0) by (cbn [Nat.add]; auto; lia).
    rewrite Z.add_0_l. unfold averageMHz.
    destruct (parsedKHz contents) as [|v vs]; [reflexivity |].
    destruct (Z.of_nat (List.length (v :: vs)) =? 0) eqn:E; [| reflexivity].
    apply Z.eqb_eq in E. cbn [List.length] in E. lia.
Qed.

Lemma cpu_frequency_spec_witness :
  CPU.readCPUFrequency bare = None
  /\ CPU.readCPUFrequency twoCores
       = averageMHz (parsedKHz ["1200000" +:+ LF; "1800000" +:+ LF]).
Proof.
  split.
  - apply (proj1 (cpu_frequency_spec bare)). reflexivity.
  - apply (proj1 (proj2 (cpu_frequency_spec twoCores))).
    + cbn. lia.
    + intros [|[|j]] Hj; cbn in Hj; try lia; reflexivity.
    + intros _. reflexivity.
Defined.

(** ** CPU temperature *)

Lemma zoneSearch_first sys : forall k n i typeBytes,
  (k < n)%nat ->
  (forall j, (j < k)%nat -> zoneSkipped sys (i + j)) ->
  ReadFile sys (CPU.zoneTypePath (i + k)) = Some typeBytes ->
  CPU.isCPUZone typeBytes = true ->
  CPU.zoneSearch sys n i = CPU.readThermalTemp sys (CPU.zoneTempPath (i + k)).
Proof.
  induction k as [|k IH]; intros n i typeBytes Hk Hskip Hread Hcpu;
    (destruct n as [|n]; [lia |]); cbn [CPU.zoneSearch].
  - rewrite Nat.add_0_r in *. rewrite Hread, Hcpu. reflexivity.
  - pose proof (Hskip 0%nat ltac:(lia)) as H0. unfold zoneSkipped in H0.
    rewrite Nat.add_0_r in H0.
    assert (Hnext : CPU.zoneSearch sys n (S i)
                    = CPU.readThermalTemp sys (CPU.zoneTempPath (i + S k))).
    { rewrite Nat.add_succ_r. apply (IH n (S i) typeBytes); try lia.
      - intros j Hj. specialize (Hskip (S j) ltac:(lia)).
        rewrite Nat.add_succ_r in Hskip. exact Hskip.
      - rewrite Nat.add_succ_r in Hread. exact Hread.
      - exact Hcpu. }
    destruct (ReadFile sys (CPU.zoneTypePath i)) as [t0|]; [rewrite H0 |]; exact Hnext.
Qed.

Lemma zoneSearch_fallback sys : forall n i,
  (forall j, (j < n)%nat -> zoneSkipped sys (i + j)) ->
  CPU.zoneSearch sys n i = CPU.readThermalTemp sys (CPU.zoneTempPath 0).
Proof.
  induction n as [|n IH]; intros i Hskip; cbn [CPU.zoneSearch]; [reflexivity |].
  pose proof (Hskip 0%nat ltac:(lia)) as H0. unfold zoneSkipped in H0.
  rewrite Nat.add_0_r in H0.
  assert (Hnext : CPU.zoneSearch sys n (S i)
                  = CPU.readThermalTemp sys (CPU.zoneTempPath 0)).
  { apply IH. intros j Hj. specialize (Hskip (S j) ltac:(lia)).
    rewrite Nat.add_succ_r in Hskip. exact Hskip. }
  destruct (ReadFile sys (CPU.zoneTypePath i)) as [t0|]; [rewrite H0 |]; exact Hnext.
Qed.

(** C6. Among the thermal zones 0 to 9, taken in increasing order, the
    first whose lower-cased type contains "cpu" or "soc" is the one whose
    temp file is read; zones whose type file cannot be read
    are passed over. When no zone qualifies, the temp file of zone 0 is
    read. The value read, in millidegrees, is divided by 1000; a temp
    file that cannot be read, or does not parse, gives an absent sample.
    With the types x86_pkg_temp, acpitz and cpu-thermal at zones 0, 1 and
    2 the temperature is the one of zone 2. *)
Theorem cpu_temperature_spec (sys : System) :
  (forall k typeBytes,
     (k < 10)%nat ->
     (forall j, (j < k)%nat -> zoneSkipped sys j) ->
     ReadFile sys (CPU.zoneTypePath k) = Some typeBytes ->
     CPU.isCPUZone typeBytes = true ->
     CPU.readCPUTemperature sys = CPU.readThermalTemp sys (CPU.zoneTempPath k))
  /\ ((forall j, (j < 10)%nat -> zoneSkipped sys j) ->
      CPU.readCPUTemperature sys = CPU.readThermalTemp sys (CPU.zoneTempPath 0))
  /\ (forall typeBytes,
        CPU.isCPUZone typeBytes = true <->
        (exists a b, Str.ToLower typeBytes = a +:+ "cpu" +:+ b)
        \/ (exists a b, Str.ToLower typeBytes = a +:+ "soc" +:+ b))
  /\ (forall path data millideg,
        ReadFile sys path = Some data ->
        Strconv.ParseFloat (Str.TrimSpace data) = (millideg, None) ->
        CPU.readThermalTemp sys path = Some (F64.div millideg (F64.of_Z 1000)))
  /\ (forall path, ReadFile sys path = None -> CPU.readThermalTemp sys path = None)
  /\ (forall path data e,
        ReadFile sys path = Some data ->
        snd (Strconv.ParseFloat (Str.TrimSpace data)) = Some e ->
        CPU.readThermalTemp sys path = None)
  /\ map CPU.isCPUZone ["x86_pkg_temp" +:+ LF; "acpitz" +:+ LF; "cpu-thermal" +:+ LF;
                        "SoC-Thermal" +:+ LF]
       = [false; false; true; true]
  /\ CPU.readCPUTemperature threeZones = CPU.readThermalTemp threeZones (CPU.zoneTempPath 2)
  /\ CPU.readCPUTemperature threeZones = Some (F64.div (F64.of_Z 45500) (F64.of_Z 1000))
  /\ CPU.readCPUTemperature plainZones = Some (F64.of_Z 27).
Proof.
  split; [| split; [| split; [| split; [| split; [| split; [| repeat split]]]]]].
  - intros k t Hk Hskip Hread Hcpu. unfold CPU.readCPUTemperature.
    apply (zoneSearch_first sys k 10 0 t Hk Hskip Hread Hcpu).
  - intros Hskip. unfold CPU.readCPUTemperature. apply zoneSearch_fallback. exact Hskip.
  - intros t. rewrite isCPUZone_spec, orb_true_iff, !Contains_spec. reflexivity.
  - intros path data md Hread Hparse. unfold CPU.readThermalTemp.
    rewrite Hread, Hparse. reflexivity.
  - intros path H. unfold CPU.readThermalTemp. rewrite H. reflexivity.
  - intros path data e Hread Hparse. unfold CPU.readThermalTemp. rewrite Hread.
    destruct (Strconv.ParseFloat (Str.TrimSpace data)) as [v [e'|]];
      [reflexivity | discriminate].
Qed.

Lemma cpu_temperature_spec_witness :
  CPU.readCPUTemperature threeZones = CPU.readThermalTemp threeZones (CPU.zoneTempPath 2)
  /\ CPU.readCPUTemperature plainZones = CPU.readThermalTemp plainZones (CPU.zoneTempPath 0)
  /\ CPU.readCPUTemperature bare = None.
Proof.
  split; [| split].
  - apply (proj1 (cpu_temperature_spec threeZones) 2%nat ("cpu-thermal" +:+ LF)).
    + lia.
    + intros [|[|j]] Hj; try lia; reflexivity.
    + reflexivity.
    + reflexivity.
  - apply (proj1 (proj2 (cpu_temperature_spec plainZones))).
    intros j Hj. do 10 (destruct j as [|j]; [reflexivity |]). lia.
  - destruct (cpu_temperature_spec bare) as (_ & H2 & _ & _ & H5 & _).
    rewrite H2.
    + apply H5. reflexivity.
    + intros j Hj. do 10 (destruct j as [|j]; [exact I |]). lia.
Defined.

(** ** Network *)

Lemma operstate_path iface :
  Filepath.Join ["/sys/class/net"; iface; "operstate"]
    = "/sys/class/net/" +:+ iface +:+ "/operstate".
Proof. reflexivity. Qed.

Lemma append_assoc (a b c : string) : (a +:+ b) +:+ c = a +:+ (b +:+ c).
Proof.
  induction a as [|ch a IH]; [reflexivity |].
  change (String ch ((a +:+ b) +:+ c) = String ch (a +:+ (b +:+ c))).
  rewrite IH. reflexivity.
Qed.

Lemma statistics_path iface name :
  Filepath.Join [Filepath.Join ["/sys/class/net"; iface; "statistics"]; name]
    = "/sys/class/net/" +:+ iface +:+ "/statistics/" +:+ name.
Proof.
  cbn [Filepath.Join String.concat].
  rewrite !append_assoc. reflexivity.
Qed.

(** The four samples of an interface that is up. *)
Lemma collectInterface_up sys iface :
  Network.isInterfaceUp sys iface = true ->
  Network.collectInterface sys iface =
    [ MustNewConstMetric Network.rxBytesDesc CounterValue
        (F64.of_Z (Network.readSysUint64 sys
           ("/sys/class/net/" +:+ iface +:+ "/statistics/" +:+ "rx_bytes"))) [iface];
      MustNewConstMetric Network.txBytesDesc CounterValue
        (F64.of_Z (Network.readSysUint64 sys
           ("/sys/class/net/" +:+ iface +:+ "/statistics/" +:+ "tx_bytes"))) [iface];
      MustNewConstMetric Network.rxPacketsDesc CounterValue
        (F64.of_Z (Network.readSysUint64 sys
           ("/sys/class/net/" +:+ iface +:+ "/statistics/" +:+ "rx_packets"))) [iface];
      MustNewConstMetric Network.txPacketsDesc CounterValue
        (F64.of_Z (Network.readSysUint64 sys
           ("/sys/class/net/" +:+ iface +:+ "/statistics/" +:+ "tx_packets"))) [iface] ].
Proof.
  intros Hup. unfold Network.collectInterface. rewrite Hup. cbn [negb].
  rewrite !statistics_path. reflexivity.
Qed.

Lemma collectInterface_label sys iface m :
  In m (Network.collectInterface sys iface) ->
  Network.isInterfaceUp sys iface = true /\ labelValues m = [iface].
Proof.
  destruct (Network.isInterfaceUp sys iface) eqn:Hup.
  - rewrite (collectInterface_up sys iface Hup).
    intros [<- | [<- | [<- | [<- | []]]]]; split; reflexivity.
  - unfold Network.collectInterface. rewrite Hup. intros [].
Qed.

(** C8. Every sample of Collect carries the name of an interface of the
    monitored list that is up, "up" meaning that its operstate file can be
    read and, trimmed, is exactly "up". Hence an interface outside the
    list has no sample, whatever the system holds for it, and neither has
    a listed interface that is not up. A listed interface that is up has
    its four samples, rx bytes, tx bytes, rx packets and tx packets, in
    this order and next to each other; a counter whose file cannot be read
    or does not parse as an unsigned integer is sent as 0. *)
Theorem network_collect_spec (sys : System) :
  (forall m, In m (Network.Collect sys) ->
     exists iface, In iface Network.monitoredInterfaces
                   /\ Network.isInterfaceUp sys iface = true
                   /\ labelValues m = [iface])
  /\ (forall iface,
        Network.isInterfaceUp sys iface = true <->
        exists data, ReadFile sys ("/sys/class/net/" +:+ iface +:+ "/operstate") = Some data
                     /\ Str.TrimSpace data = "up")
  /\ (forall iface m, ~ In iface Network.monitoredInterfaces ->
        In m (Network.Collect sys) -> labelValues m <> [iface])
  /\ (forall iface m, Network.isInterfaceUp sys iface = false ->
        In m (Network.Collect sys) -> labelValues m <> [iface])
  /\ (forall iface, In iface Network.monitoredInterfaces ->
        Network.isInterfaceUp sys iface = true ->
        exists before after,
          Network.Collect sys =
            (before ++
             [ MustNewConstMetric Network.rxBytesDesc CounterValue
                 (F64.of_Z (Network.readSysUint64 sys
                    ("/sys/class/net/" +:+ iface +:+ "/statistics/" +:+ "rx_bytes"))) [iface];
               MustNewConstMetric Network.txBytesDesc CounterValue
                 (F64.of_Z (Network.readSysUint64 sys
                    ("/sys/class/net/" +:+ iface +:+ "/statistics/" +:+ "tx_bytes"))) [iface];
               MustNewConstMetric Network.rxPacketsDesc CounterValue
                 (F64.of_Z (Network.readSysUint64 sys
                    ("/sys/class/net/" +:+ iface +:+ "/statistics/" +:+ "rx_packets"))) [iface];
               MustNewConstMetric Network.txPacketsDesc CounterValue
                 (F64.of_Z (Network.readSysUint64 sys
                    ("/sys/class/net/" +:+ iface +:+ "/statistics/" +:+ "tx_packets"))) [iface] ]
             ++ after)%list)
  /\ (forall path, ReadFile sys path = None -> Network.readSysUint64 sys path = 0)
  /\ (forall path data e, ReadFile sys path = Some data ->
        snd (Strconv.ParseUint (Str.TrimSpace data)) = Some e ->
        Network.readSysUint64 sys path = 0)
  /\ (forall path data v, ReadFile sys path = Some data ->
        Strconv.ParseUint (Str.TrimSpace data) = (v, None) ->
        Network.readSysUint64 sys path = v).
Proof.
  assert (Hlabel : forall m, In m (Network.Collect sys) ->
            exists iface, In iface Network.monitoredInterfaces
                          /\ Network.isInterfaceUp sys iface = true
                          /\ labelValues m = [iface]).
  { intros m Hm. unfold Network.Collect in Hm. apply in_flat_map in Hm.
    destruct Hm as (iface & Hin & Hm). exists iface.
    destruct (collectInterface_label sys iface m Hm). auto. }
  split; [exact Hlabel |]. split; [| split; [| split; [| split; [| split; [| split]]]]].
  - intros iface. unfold Network.isInterfaceUp. rewrite operstate_path.
    destruct (ReadFile sys _) as [data|]; split.
    + intros H. apply String.eqb_eq in H. eauto.
    + intros (d & [= <-] & H). apply String.eqb_eq. exact H.
    + discriminate.
    + intros (d & H & _). discriminate.
  - intros iface m Hnot Hm Heq. destruct (Hlabel m Hm) as (i' & Hin & _ & Hl).
    rewrite Hl in Heq. injection Heq as ->. contradiction.
  - intros iface m Hdown Hm Heq. destruct (Hlabel m Hm) as (i' & _ & Hup & Hl).
    rewrite Hl in Heq. injection Heq as ->. congruence.
  - intros iface Hin Hup. apply in_split in Hin. destruct Hin as (l1 & l2 & Hl).
    unfold Network.Collect. rewrite Hl, flat_map_app. cbn [flat_map].
    rewrite (collectInterface_up sys iface Hup). eauto.
  - intros path H. unfold Network.readSysUint64. rewrite H. reflexivity.
  - intros path data e H He. unfold Network.readSysUint64. rewrite H.
    destruct (Strconv.ParseUint (Str.TrimSpace data)) as [v [e'|]];
      [reflexivity | discriminate].
  - intros path data v H Hv. unfold Network.readSysUint64. rewrite H, Hv. reflexivity.
Qed.

(** On a machine where enP7s7 is up (its rx_packets file unreadable as a
    number, its tx_packets file missing), wlP9s9 is down and eth0 is up
    but not monitored, the samples are the four of enP7s7. *)
Lemma network_collect_spec_witness :
  (exists before after,
     Network.Collect network =
       (before ++ map (fun dv => MustNewConstMetric (fst dv) CounterValue (snd dv) ["enP7s7"])
          [ (Network.rxBytesDesc, F64.of_Z 1000); (Network.txBytesDesc, F64.of_Z 2000);
            (Network.rxPacketsDesc, F64.of_Z 0); (Network.txPacketsDesc, F64.of_Z 0) ]
        ++ after)%list)
  /\ (forall m, In m (Network.Collect network) -> labelValues m <> ["eth0"])
  /\ (forall m, In m (Network.Collect network) -> labelValues m <> ["wlP9s9"]).
Proof.
  destruct (network_collect_spec network) as (_ & _ & H3 & H4 & H5 & _).
  split; [| split].
  - apply (H5 "enP7s7"); [left; reflexivity | reflexivity].
  - intros m. apply H3. cbn. intros H. repeat (destruct H as [H | H]; [discriminate |]).
    exact H.
  - intros m. apply H4. reflexivity.
Defined.

Example network_collect_example :
  map (fun m => (fqName (desc m), F64.toQ (value m), labelValues m)) (Network.Collect network)
    = [ ("network_receive_bytes_total", Some (1000 # 1)%Q, ["enP7s7"]);
        ("network_transmit_bytes_total", Some (2000 # 1)%Q, ["enP7s7"]);
        ("network_receive_packets_total", Some (0 # 1)%Q, ["enP7s7"]);
        ("network_transmit_packets_total", Some (0 # 1)%Q, ["enP7s7"]) ].
Proof. reflexivity. Qed.

(** ** Disk I/O *)

Lemma hasAnyPrefix_spec s prefixes :
  Disk.hasAnyPrefix s prefixes = true <->
  exists p, In p prefixes /\ Str.HasPrefix s p = true.
Proof.
  induction prefixes as [|p rest IH]; cbn [Disk.hasAnyPrefix].
  - split; [discriminate | intros (p & [] & _)].
  - destruct (Str.HasPrefix s p) eqn:E.
    + split; [intros _; exists p; split; [left; reflexivity | exact E] | reflexivity].
    + rewrite IH. split.
      * intros (q & Hq & Hp). exists q. split; [right; exact Hq | exact Hp].
      * intros (q & [<- | Hq] & Hp); [congruence | eauto].
Qed.

(** C9. collectDiskIO sends, line after line, what each line of
    /proc/diskstats yields. A line with at least 14 fields yields samples,
    the reads and writes counters labelled with the device name of field
    2, if and only if the name starts with none of the excluded prefixes
    and with at least one of the physical-device prefixes; an excluded
    prefix wins over any other match. A line with fewer fields yields
    nothing. nvme0n1 passes; loop0, dm-1 and zram0 do not. *)
Theorem disk_filter_spec :
  (forall sys f, Open sys "/proc/diskstats" = Some f ->
     Disk.collectDiskIO sys = flat_map Disk.diskLine (lines f))
  /\ (forall line,
        (14 <= List.length (Str.Fields line))%nat ->
        let fields := Str.Fields line in
        let device := nth 2 fields EmptyString in
        (Disk.diskLine line <> [] <->
           Disk.hasAnyPrefix device Disk.excludePrefixes = false
           /\ Disk.hasAnyPrefix device Disk.physicalPrefixes = true)
        /\ (Disk.hasAnyPrefix device Disk.excludePrefixes = true -> Disk.diskLine line = [])
        /\ (Disk.diskLine line <> [] ->
            Disk.diskLine line =
              [ MustNewConstMetric Disk.readsDesc CounterValue
                  (fst (Strconv.ParseFloat (nth 3 fields EmptyString))) [device];
                MustNewConstMetric Disk.writesDesc CounterValue
                  (fst (Strconv.ParseFloat (nth 7 fields EmptyString))) [device] ]))
  /\ (forall line, (List.length (Str.Fields line) < 14)%nat -> Disk.diskLine line = [])
  /\ (forall s prefixes,
        Disk.hasAnyPrefix s prefixes = true <->
        exists p rest, In p prefixes /\ s = p +:+ rest)
  /\ map (fun d => (Disk.hasAnyPrefix d Disk.excludePrefixes,
                    Disk.hasAnyPrefix d Disk.physicalPrefixes))
         ["nvme0n1"; "loop0"; "dm-1"; "zram0"]
       = [(false, true); (true, false); (true, false); (false, false)]
  /\ map (fun m => (fqName (desc m), F64.toQ (value m), labelValues m))
         (Disk.collectDiskIO diskstats)
       = [ ("diskio_reads_completed_total", Some (5000 # 1)%Q, ["nvme0n1"]);
           ("diskio_writes_completed_total", Some (8000 # 1)%Q, ["nvme0n1"]) ].
Proof.
  split; [| split; [| split; [| split; [| split]]]]; try reflexivity.
  - intros sys f H. unfold Disk.collectDiskIO. rewrite H. reflexivity.
  - intros line Hlen fields device. unfold Disk.diskLine. fold fields. fold device.
    apply Nat.ltb_ge in Hlen. fold fields in Hlen. rewrite Hlen.
    destruct (Disk.hasAnyPrefix device Disk.excludePrefixes);
      destruct (Disk.hasAnyPrefix device Disk.physicalPrefixes); cbn [negb];
      repeat split; try congruence; try tauto; intros []; congruence.
  - intros line Hlt. unfold Disk.diskLine. apply Nat.ltb_lt in Hlt. rewrite Hlt. reflexivity.
  - intros s prefixes. rewrite hasAnyPrefix_spec. split.
    + intros (p & Hin & Hp). apply HasPrefix_spec in Hp. destruct Hp as (r & Hr). eauto.
    + intros (p & r & Hin & Hr). exists p. split; [exact Hin |].
      apply HasPrefix_spec. eauto.
Qed.

Lemma disk_filter_spec_witness :
  Disk.diskLine " 259 0 nvme0n1 5000 10 7000 300 8000 20 9000 400 0 500 700"
    = [ MustNewConstMetric Disk.readsDesc CounterValue (F64.of_Z 5000) ["nvme0n1"];
        MustNewConstMetric Disk.writesDesc CounterValue (F64.of_Z 8000) ["nvme0n1"] ]
  /\ Disk.diskLine "   7 0 loop0 11 0 28 0 0 0 0 0 0 4 0" = [].
Proof.
  destruct disk_filter_spec as (_ & H & _).
  split.
  - apply (H " 259 0 nvme0n1 5000 10 7000 300 8000 20 9000 400 0 500 700").
    + vm_compute. lia.
    + discriminate.
  - apply (H "   7 0 loop0 11 0 28 0 0 0 0 0 0 4 0").
    + vm_compute. lia.
    + reflexivity.
Defined.


(** * Further properties of the collectors *)

(** ** Describe and Collect agree *)

Ltac fits_all :=
  repeat (apply List.Forall_cons; [split; cbn; auto 10 |]); apply List.Forall_nil.

Lemma Forall_emit ds d t r :
  In d ds -> variableLabels d = [] -> Forall (fits ds) (emit d t r).
Proof.
  intros Hin Hl. destruct r as [v|]; cbn [emit]; constructor; [| constructor].
  split; cbn [desc labelValues]; [exact Hin | rewrite Hl; reflexivity].
Qed.

Lemma diskLine_fits line : Forall (fits DiskRoot.Describe) (Disk.diskLine line).
Proof.
  unfold Disk.diskLine. destruct (_ <? 14)%nat; [constructor |].
  destruct (Disk.hasAnyPrefix _ Disk.excludePrefixes); [constructor |].
  destruct (negb _); [constructor |].
  fits_all.
Qed.

Lemma collectInterface_fits sys iface :
  Forall (fits Network.Describe) (Network.collectInterface sys iface).
Proof.
  unfold Network.collectInterface. destruct (negb _); [constructor |].
  fits_all.
Qed.

Lemma Forall_flat_map_intro {A B} (P : B -> Prop) (f : A -> list B) l :
  (forall x, Forall P (f x)) -> Forall P (flat_map f l).
Proof.
  intros H. induction l as [|x l IH]; cbn [flat_map]; [constructor |].
  apply Forall_app. split; [apply H | exact IH].
Qed.

(** Each collector sends only samples of the descriptors it declares in
    Describe, each with as many label values as the descriptor has label
    names; and the sixteen descriptors that main registers have sixteen
    different names. *)
Theorem collect_within_describe (c : CPU.CPUCollector) (sys : System)
    (statfs : option DiskRoot.Statfs_t) :
  Forall (fits CPU.Describe) (fst (CPU.Collect c sys))
  /\ Forall (fits GPU.Describe) (GPU.Collect sys)
  /\ Forall (fits Memory.Describe) (Memory.Collect sys)
  /\ Forall (fits DiskRoot.Describe) (DiskRoot.Collect sys statfs)
  /\ Forall (fits Network.Describe) (Network.Collect sys)
  /\ List.NoDup (map fqName (concat registered)).
Proof.
  split; [| split; [| split; [| split; [| split]]]].
  - unfold CPU.Collect. destruct (CPU.readCPUUsage c sys) as [u c']. cbn [fst].
    repeat (apply Forall_app; split); apply Forall_emit; cbn; auto.
  - unfold GPU.Collect. destruct (nvidia_smi sys) as [out|]; [| constructor].
    destruct (Str.Split _ LF) as [|l0 ls]; [constructor |].
    destruct (_ <? 4)%nat; [constructor |]. fits_all.
  - unfold Memory.Collect. destruct (Memory.readMemInfo sys); [| constructor].
    fits_all.
  - unfold DiskRoot.Collect. apply Forall_app. split.
    + unfold Disk.collectDiskIO. destruct (Open sys "/proc/diskstats"); [| constructor].
      apply Forall_flat_map_intro, diskLine_fits.
    + unfold DiskRoot.collectRootCapacity. destruct statfs as [st|]; [| constructor].
      destruct (_ =? 0); [constructor |]. fits_all.
  - unfold Network.Collect. apply Forall_flat_map_intro, collectInterface_fits.
  - apply NoDup_ListNoDup, (bool_decide_unpack _). vm_compute. exact I.
Qed.

(** ** CPU usage across scrapes *)

(** A usage comes from one aggregate line, and any other state read
    against the same lines is updated from the same fields. *)
Lemma scanStat_some c ls usage c' :
  CPU.scanStat c ls = (Some usage, c') ->
  exists fields, forall c0,
    CPU.scanStat c0 ls
      = (Some (fst (CPU.usageOfFields c0 fields)), snd (CPU.usageOfFields c0 fields)).
Proof.
  induction ls as [|line rest IH]; cbn [CPU.scanStat]; [discriminate |].
  destruct (negb _); [exact IH |].
  destruct (_ <? 8)%nat; [discriminate |].
  intros _. exists (Str.Fields line). intros c0.
  destruct (CPU.usageOfFields c0 (Str.Fields line)); reflexivity.
Qed.

Lemma sub64_diag a : sub64 a a = 0.
Proof. unfold sub64. rewrite Z.sub_diag. reflexivity. Qed.

(** What a call stores does not depend on the state it finds. *)
Lemma usageOfFields_state c fields :
  snd (CPU.usageOfFields c fields)
    = snd (CPU.usageOfFields CPU.NewCPUCollector fields).
Proof.
  unfold CPU.usageOfFields. cbn [CPU.prevTotal CPU.NewCPUCollector Z.eqb snd].
  destruct (CPU.prevTotal c =? 0); [reflexivity |].
  destruct (_ =? 0); reflexivity.
Qed.

(** A second scrape before the counters of /proc/stat have moved: once a
    call has returned a usage, the next call over the same content
    returns usage 0 and leaves the stored state as it is. *)
Theorem cpu_usage_unchanged_source (c c1 : CPU.CPUCollector) (sys : System)
    (usage : float64) :
  CPU.readCPUUsage c sys = (Some usage, c1) ->
  CPU.readCPUUsage c1 sys = (Some F64.zero, c1).
Proof.
  unfold CPU.readCPUUsage. destruct (Open sys "/proc/stat") as [f|]; [| discriminate].
  intros H. destruct (scanStat_some c (lines f) usage c1 H) as (fields & Hf).
  rewrite Hf in H. injection H as _ Hc1.
  rewrite Hf. rewrite (usageOfFields_state c1), <- (usageOfFields_state c), Hc1.
  f_equal. f_equal.
  rewrite <- Hc1 at 1. unfold CPU.usageOfFields.
  destruct (CPU.prevTotal c =? 0); cbn [snd CPU.prevTotal CPU.prevIdle fst].
  - destruct (_ =? 0) eqn:E; [reflexivity |]. rewrite sub64_diag. reflexivity.
  - destruct (sub64 _ (CPU.prevTotal c) =? 0); cbn [snd CPU.prevTotal CPU.prevIdle fst];
      (destruct (_ =? 0) eqn:E; [reflexivity |]; rewrite sub64_diag; reflexivity).
Qed.

Lemma cpu_usage_unchanged_source_witness :
  CPU.readCPUUsage {| CPU.prevIdle := 1600; CPU.prevTotal := 2000 |} stat2
    = (Some F64.zero, {| CPU.prevIdle := 1600; CPU.prevTotal := 2000 |}).
Proof.
  apply (cpu_usage_unchanged_source {| CPU.prevIdle := 850; CPU.prevTotal := 1000 |} _ stat2
           (F64.of_Z 25)).
  reflexivity.
Defined.

(** ** A machine without any of the sources *)

Lemma zoneSearch_unreadable sys :
  (forall p, ReadFile sys p = None) -> forall n i, CPU.zoneSearch sys n i = None.
Proof.
  intros H. induction n as [|n IH]; intros i; cbn [CPU.zoneSearch].
  - unfold CPU.readThermalTemp. rewrite H. reflexivity.
  - rewrite H. apply IH.
Qed.

(** Off the target hardware: when no file can be read or opened, the
    nvidia-smi invocation fails and statfs fails, every collector sends
    nothing, and the CPU collector keeps its state. *)
Theorem collect_nothing_available (c : CPU.CPUCollector) (sys : System) :
  (forall p, ReadFile sys p = None) ->
  (forall p, Open sys p = None) ->
  nvidia_smi sys = None ->
  CPU.Collect c sys = ([], c)
  /\ GPU.Collect sys = []
  /\ Memory.Collect sys = []
  /\ DiskRoot.Collect sys None = []
  /\ Network.Collect sys = [].
Proof.
  intros Hr Ho Hg. repeat split.
  - unfold CPU.Collect, CPU.readCPUUsage, CPU.readCPUTemperature, CPU.readCPUFrequency.
    rewrite Ho, (zoneSearch_unreadable sys Hr), (freqLoop_core0_missing sys (Hr _) 255).
    reflexivity.
  - unfold GPU.Collect. rewrite Hg. reflexivity.
  - unfold Memory.Collect, Memory.readMemInfo. rewrite Ho. reflexivity.
  - unfold DiskRoot.Collect, Disk.collectDiskIO. rewrite Ho. reflexivity.
  - unfold Network.Collect.
    assert (H : forall iface, Network.collectInterface sys iface = []).
    { intros iface. unfold Network.collectInterface, Network.isInterfaceUp.
      rewrite Hr. reflexivity. }
    induction Network.monitoredInterfaces as [|i l IH]; cbn [flat_map]; [reflexivity |].
    rewrite H, IH. reflexivity.
Qed.

Lemma collect_nothing_available_witness :
  CPU.Collect seeded bare = ([], seeded)
  /\ GPU.Collect bare = []
  /\ Memory.Collect bare = []
  /\ DiskRoot.Collect bare None = []
  /\ Network.Collect bare = [].
Proof.
  apply (collect_nothing_available seeded bare); reflexivity.
Defined.

(** ** Disk I/O: what is sent, and for which names *)

(** The samples of collectDiskIO come in pairs, the reads counter of a
    device followed by its writes counter, and every device that appears
    passes the name test: it starts with none of the excluded prefixes
    and with one of the physical-device prefixes. *)
Theorem disk_io_pairs (sys : System) :
  exists devices : list (string * float64 * float64),
    Disk.collectDiskIO sys
      = flat_map (fun d => [ MustNewConstMetric Disk.readsDesc CounterValue (snd (fst d))
                               [fst (fst d)];
                             MustNewConstMetric Disk.writesDesc CounterValue (snd d)
                               [fst (fst d)] ])
                 devices
    /\ Forall (fun d => accepted (fst (fst d)) = true) devices.
Proof.
  unfold Disk.collectDiskIO. destruct (Open sys "/proc/diskstats") as [f|].
  - induction (lines f) as [|line rest (devices & Heq & Hacc)].
    + exists []. split; [reflexivity | constructor].
    + cbn [flat_map]. rewrite Heq. unfold Disk.diskLine.
      destruct (_ <? 14)%nat; [exists devices; auto |].
      destruct (Disk.hasAnyPrefix _ Disk.excludePrefixes) eqn:Ex; [exists devices; auto |].
      destruct (Disk.hasAnyPrefix _ Disk.physicalPrefixes) eqn:Ep; cbn [negb];
        [| exists devices; auto].
      exists ((nth 2 (Str.Fields line) EmptyString,
               fst (Strconv.ParseFloat (nth 3 (Str.Fields line) EmptyString)),
               fst (Strconv.ParseFloat (nth 7 (Str.Fields line) EmptyString))) :: devices).
      split; [reflexivity |].
      constructor; [| exact Hacc]. cbn [fst]. unfold accepted. rewrite Ex, Ep. reflexivity.
  - exists []. split; [reflexivity | constructor].
Qed.

Lemma hasAnyPrefix_extend s x prefixes :
  Disk.hasAnyPrefix s prefixes = true -> Disk.hasAnyPrefix (s +:+ x) prefixes = true.
Proof.
  rewrite !hasAnyPrefix_spec. intros (p & Hin & Hp). exists p. split; [exact Hin |].
  apply HasPrefix_spec in Hp. destruct Hp as (r & ->).
  apply HasPrefix_spec. exists (r +:+ x). apply append_assoc.
Qed.

(** The name test looks at the beginning of a name only: a name that
    continues an accepted name is accepted, and a name that continues an
    excluded one is excluded. So the partitions of an accepted disk
    (nvme0n1p1 after nvme0n1, sda1 after sda) are devices of their own. *)
Theorem disk_filter_extends (device rest : string) :
  (accepted device = true -> accepted (device +:+ rest) = true)
  /\ (Disk.hasAnyPrefix device Disk.excludePrefixes = true ->
      accepted (device +:+ rest) = false).
Proof.
  unfold accepted. split.
  - intros H. apply andb_true_iff in H. destruct H as [Hex Hph].
    rewrite (hasAnyPrefix_extend _ rest _ Hph), andb_true_r.
    apply negb_true_iff. apply negb_true_iff in Hex.
    destruct (Disk.hasAnyPrefix (device +:+ rest) Disk.excludePrefixes) eqn:E; [| reflexivity].
    exfalso.
    apply hasAnyPrefix_spec in Hph. destruct Hph as (p & Hp & Hpp).
    apply HasPrefix_spec in Hpp. destruct Hpp as (r & ->).
    apply hasAnyPrefix_spec in E. destruct E as (q & Hq & Hqq).
    apply HasPrefix_spec in Hqq. destruct Hqq as (r' & Hqq).
    cbn in Hp, Hq.
    repeat (destruct Hp as [<- | Hp]; [| try contradiction]);
      repeat (destruct Hq as [<- | Hq]; [| try contradiction]); discriminate.
  - intros H. rewrite (hasAnyPrefix_extend _ rest _ H). reflexivity.
Qed.

Lemma disk_filter_extends_witness :
  accepted ("nvme0n1" +:+ "p1") = true /\ accepted ("loop0" +:+ "p1") = false.
Proof.
  split.
  - apply (proj1 (disk_filter_extends "nvme0n1" "p1")). reflexivity.
  - apply (proj2 (disk_filter_extends "loop0" "p1")). reflexivity.
Defined.

(** ** Disk capacity *)

Lemma mul64_range a b : 0 <= mul64 a b < 2 ^ 64.
Proof. unfold mul64. apply Z.mod_pos_bound. lia. Qed.

(** collectRootCapacity sends nothing when statfs fails and when the
    total size, computed in uint64, is 0; otherwise it sends one sample,
    float64(total - available) / float64(total) * 100, which is a number
    and is not negative. *)
Theorem root_capacity_spec (statfs : option DiskRoot.Statfs_t) :
  match statfs with
  | None => DiskRoot.collectRootCapacity statfs = []
  | Some stat =>
      let total := mul64 (DiskRoot.Blocks stat) (DiskRoot.Bsize stat mod 2 ^ 64) in
      let available := mul64 (DiskRoot.Bavail stat) (DiskRoot.Bsize stat mod 2 ^ 64) in
      if total =? 0 then DiskRoot.collectRootCapacity statfs = []
      else
        exists usedPercent,
          DiskRoot.collectRootCapacity statfs
            = [MustNewConstMetric DiskRoot.usedDesc GaugeValue usedPercent []]
          /\ usedPercent
               = F64.mul (F64.div (F64.of_Z (sub64 total available)) (F64.of_Z total))
                         (F64.of_Z 100)
          /\ F64.leb F64.zero usedPercent = true
          /\ F64.ltb usedPercent F64.zero = false
  end.
Proof.
  destruct statfs as [stat|]; [| reflexivity]. cbn zeta.
  unfold DiskRoot.collectRootCapacity.
  destruct (_ =? 0) eqn:E; [reflexivity |]. apply Z.eqb_neq in E.
  eexists. split; [reflexivity |]. split; [reflexivity |].
  split; [apply signed_leb | apply signed_ltb];
    (apply usage_value_signed; [apply sub64_range |]);
    match goal with |- 0 < mul64 ?a ?b < _ => pose proof (mul64_range a b); lia end.
Qed.

(** ** Network: how many samples, and no two alike *)

Lemma collectInterface_length sys iface :
  List.length (Network.collectInterface sys iface)
    = if Network.isInterfaceUp sys iface then 4%nat else 0%nat.
Proof.
  unfold Network.collectInterface. destruct (Network.isInterfaceUp sys iface); reflexivity.
Qed.

Lemma NoDup_flat_map {A B} (g : A -> list B) (l : list A) :
  List.NoDup l ->
  (forall x, List.NoDup (g x)) ->
  (forall x y k, In k (g x) -> In k (g y) -> x = y) ->
  List.NoDup (flat_map g l).
Proof.
  intros Hl Hg Hdisj. induction Hl as [|x l Hx Hl IH]; cbn [flat_map].
  - constructor.
  - apply List.NoDup_app; [apply Hg | exact IH |].
    intros k Hk Hk'. apply in_flat_map in Hk'. destruct Hk' as (y & Hy & Hky).
    rewrite (Hdisj x y k Hk Hky) in Hx. exact (Hx Hy).
Qed.

(** Collect sends four samples for each monitored interface that is up,
    24 at most, and never two samples with the same metric name and the
    same interface label. *)
Theorem network_collect_count (sys : System) :
  List.length (Network.Collect sys)
    = (4 * List.length (List.filter (Network.isInterfaceUp sys) Network.monitoredInterfaces))%nat
  /\ (List.length (Network.Collect sys) <= 24)%nat
  /\ List.NoDup (map (fun m => (fqName (desc m), labelValues m)) (Network.Collect sys)).
Proof.
  assert (Hlen : forall l,
            List.length (flat_map (Network.collectInterface sys) l)
              = (4 * List.length (List.filter (Network.isInterfaceUp sys) l))%nat).
  { induction l as [|i l IH]; [reflexivity |].
    cbn [flat_map List.filter]. rewrite length_app, collectInterface_length, IH.
    destruct (Network.isInterfaceUp sys i); cbn [List.length]; lia. }
  split; [apply Hlen |]. split.
  - unfold Network.Collect. rewrite Hlen.
    pose proof (filter_length_le (Network.isInterfaceUp sys) Network.monitoredInterfaces) as H.
    cbn [Network.monitoredInterfaces List.length] in H. cbn [Network.monitoredInterfaces]. lia.
  - unfold Network.Collect. rewrite flat_map_concat_map, concat_map, map_map.
    rewrite <- flat_map_concat_map.
    apply NoDup_flat_map.
    + apply NoDup_ListNoDup, (bool_decide_unpack _). vm_compute. exact I.
    + intros iface. unfold Network.collectInterface.
      destruct (negb _); cbn [map]; [constructor |].
      cbn [map desc labelValues].
      unfold Network.rxBytesDesc, Network.txBytesDesc, Network.rxPacketsDesc,
        Network.txPacketsDesc. cbn [fqName].
      repeat (apply List.NoDup_cons;
              [cbn [In]; intros H; repeat (destruct H as [H | H]; try discriminate H); exact H |]).
      apply List.NoDup_nil.
    + intros x y k Hx Hy. apply in_map_iff in Hx, Hy.
      destruct Hx as (m & <- & Hm), Hy as (m' & Heq & Hm').
      destruct (collectInterface_label sys x m Hm) as [_ Hl].
      destruct (collectInterface_label sys y m' Hm') as [_ Hl'].
      injection Heq as _ Hk. rewrite Hl, Hl' in Hk. injection Hk as ->. reflexivity.
Qed.

(** ** Memory: how /proc/meminfo is read *)

Lemma memInfoLine_entry info line :
  Memory.memInfoLine info line
    = match memEntry line with
      | Some (k, v) => <[k := v]> info
      | None => info
      end.
Proof.
  unfold Memory.memInfoLine, memEntry.
  destruct (Str.SplitN line ":" 2) as [|k [|v [|x l]]]; try reflexivity.
  destruct (Strconv.ParseUint _) as [val [e|]]; reflexivity.
Qed.

Lemma fold_memInfoLine_skip k ls : forall info : gmap string Z,
  (forall l v, In l ls -> memEntry l <> Some (k, v)) ->
  fold_left Memory.memInfoLine ls info !! k = info !! k.
Proof.
  induction ls as [|l ls IH]; intros info H; [reflexivity |].
  cbn [fold_left]. rewrite IH by (intros l' v Hl'; apply H; right; exact Hl').
  rewrite memInfoLine_entry. destruct (memEntry l) as [[k' v]|] eqn:E; [| reflexivity].
  apply lookup_insert_ne. intros ->. exact (H l v (or_introl eq_refl) E).
Qed.

(** The mapping that readMemInfo returns holds, for a key, the value of
    the last line that sets this key (a later line for the same key
    replaces an earlier one), and holds nothing for a key that no line
    sets. Lines that do not split in two at a colon, or whose value is no
    unsigned integer, set nothing. *)
Theorem meminfo_last_line_wins (sys : System) (info : gmap string Z) (key : string) :
  Memory.readMemInfo sys = Some info ->
  exists f,
    Open sys "/proc/meminfo" = Some f
    /\ (forall before line after v,
          lines f = (before ++ line :: after)%list ->
          memEntry line = Some (key, v) ->
          (forall l v', In l after -> memEntry l <> Some (key, v')) ->
          info !! key = Some v)
    /\ ((forall l v', In l (lines f) -> memEntry l <> Some (key, v')) ->
        info !! key = None).
Proof.
  unfold Memory.readMemInfo. destruct (Open sys "/proc/meminfo") as [f|]; [| discriminate].
  destruct (scanErr f); [discriminate |]. intros [= <-]. exists f.
  split; [reflexivity |]. split.
  - intros before line after v Hl He Hafter. rewrite Hl, fold_left_app. cbn [fold_left].
    rewrite fold_memInfoLine_skip by exact Hafter.
    rewrite memInfoLine_entry, He. apply lookup_insert_eq.
  - intros H. rewrite fold_memInfoLine_skip by exact H. apply lookup_empty.
Qed.

Lemma meminfo_last_line_wins_witness :
  exists f,
    Open (meminfo ["Cached: 1 kB"; "no colon here"; "Cached: 7 kB"; "Cached: x kB"])
         "/proc/meminfo" = Some f
    /\ (<["Cached" := 7]> (∅ : gmap string Z)) !! "Cached" = Some 7
    /\ (<["Cached" := 7]> (∅ : gmap string Z)) !! "Buffers" = None.
Proof.
  destruct (meminfo_last_line_wins
              (meminfo ["Cached: 1 kB"; "no colon here"; "Cached: 7 kB"; "Cached: x kB"])
              (<["Cached" := 7]> ∅) "Cached" eq_refl) as (f & Hf & H1 & _).
  destruct (meminfo_last_line_wins
              (meminfo ["Cached: 1 kB"; "no colon here"; "Cached: 7 kB"; "Cached: x kB"])
              (<["Cached" := 7]> ∅) "Buffers" eq_refl) as (f' & Hf' & _ & H2).
  exists f. split; [exact Hf |]. injection Hf as <-. injection Hf' as <-. split.
  - apply (H1 ["Cached: 1 kB"; "no colon here"] "Cached: 7 kB" ["Cached: x kB"] 7);
      [reflexivity | reflexivity |].
    intros l v' [<- | []]. discriminate.
  - apply H2. intros l v' [<- | [<- | [<- | [<- | []]]]]; vm_compute; discriminate.
Defined.

Lemma digit_range c d : Strconv.digit c = Some d -> 0 <= d <= 9.
Proof.
  unfold Strconv.digit. destruct (_ && _)%N eqn:E; [| discriminate].
  intros [= <-]. apply andb_true_iff in E. destruct E as [E1 E2].
  apply N.leb_le in E1, E2. lia.
Qed.

Lemma parseUint_go_range s : forall n,
  0 <= n <= Strconv.maxUint64 ->
  0 <= fst (Strconv.parseUint_go s n) <= Strconv.maxUint64.
Proof.
  induction s as [|c t IH]; intros n Hn; cbn [Strconv.parseUint_go]; [exact Hn |].
  destruct (Strconv.digit c) as [d|] eqn:Ed; [| cbn; unfold Strconv.maxUint64; lia].
  pose proof (digit_range c d Ed).
  destruct (_ <=? n); [cbn; unfold Strconv.maxUint64; lia |].
  destruct (Strconv.maxUint64 <? n * 10 + d) eqn:E; [cbn; unfold Strconv.maxUint64; lia |].
  apply IH. apply Z.ltb_ge in E. lia.
Qed.

(** Whatever the string, what [ParseUint] returns is a uint64. *)
Lemma ParseUint_uint64 s : 0 <= fst (Strconv.ParseUint s) < 2 ^ 64.
Proof.
  assert (H : 0 <= fst (Strconv.ParseUint s) <= Strconv.maxUint64).
  { destruct s as [|c t]; [cbn; unfold Strconv.maxUint64; lia |].
    apply parseUint_go_range. unfold Strconv.maxUint64. lia. }
  unfold Strconv.maxUint64 in H. lia.
Qed.

Lemma fold_memInfoLine_range ls : forall info : gmap string Z,
  (forall k v, info !! k = Some v -> 0 <= v < 2 ^ 64) ->
  forall k v, fold_left Memory.memInfoLine ls info !! k = Some v -> 0 <= v < 2 ^ 64.
Proof.
  induction ls as [|l ls IH]; intros info H; [exact H |].
  cbn [fold_left]. apply IH. intros k v. unfold Memory.memInfoLine.
  destruct (Str.SplitN l ":" 2) as [|k0 [|v0 [|x r]]]; try apply H.
  destruct (Strconv.ParseUint _) as [val [e|]] eqn:E; [apply H |].
  destruct (decide (Str.TrimSpace k0 = k)) as [<- | Hne].
  - rewrite lookup_insert_eq. intros [= <-].
    pose proof (ParseUint_uint64 (Str.TrimSpace (Str.TrimSuffix (Str.TrimSpace v0) " kB"))) as Hr.
    rewrite E in Hr. exact Hr.
  - rewrite lookup_insert_ne by exact Hne. apply H.
Qed.

Lemma index_range sys info key :
  Memory.readMemInfo sys = Some info -> 0 <= Memory.index info key < 2 ^ 64.
Proof.
  unfold Memory.readMemInfo. destruct (Open sys "/proc/meminfo") as [f|]; [| discriminate].
  destruct (scanErr f); [discriminate |]. intros [= <-].
  unfold Memory.index.
  destruct (fold_left Memory.memInfoLine (lines f) ∅ !! key) as [v|] eqn:E; cbn; [| lia].
  apply (fold_memInfoLine_range (lines f) ∅) with (k := key); [| exact E].
  intros k v'. rewrite lookup_empty. discriminate.
Qed.

Lemma sub64_plain a b : 0 <= a - b < 2 ^ 64 -> sub64 a b = a - b.
Proof. intros H. unfold sub64. apply Z.mod_small. exact H. Qed.

(** On a snapshot where free, buffers and cached together do not exceed
    the total, no subtraction wraps around: the used figure sent is
    float64(MemTotal - MemFree - Buffers - Cached) * 1024, with the
    difference of the integers. All four figures are uint64 values. *)
Theorem memory_used_consistent (sys : System) (info : gmap string Z) :
  Memory.readMemInfo sys = Some info ->
  let totalKB := Memory.index info "MemTotal" in
  let freeKB := Memory.index info "MemFree" in
  let buffersKB := Memory.index info "Buffers" in
  let cachedKB := Memory.index info "Cached" in
  freeKB + buffersKB + cachedKB <= totalKB ->
  map value (Memory.Collect sys)
    = [ F64.mul (F64.of_Z totalKB) (F64.of_Z 1024);
        F64.mul (F64.of_Z (totalKB - freeKB - buffersKB - cachedKB)) (F64.of_Z 1024) ]
  /\ 0 <= freeKB /\ 0 <= buffersKB /\ 0 <= cachedKB /\ totalKB < 2 ^ 64.
Proof.
  intros H totalKB freeKB buffersKB cachedKB Hle.
  pose proof (index_range sys info "MemTotal" H) as Ht.
  pose proof (index_range sys info "MemFree" H) as Hf.
  pose proof (index_range sys info "Buffers" H) as Hb.
  pose proof (index_range sys info "Cached" H) as Hc.
  fold totalKB in Ht. fold freeKB in Hf. fold buffersKB in Hb. fold cachedKB in Hc.
  rewrite (memory_collect_values sys info H). cbn [map value].
  fold totalKB freeKB buffersKB cachedKB.
  rewrite (sub64_plain totalKB freeKB) by lia.
  rewrite (sub64_plain (totalKB - freeKB) buffersKB) by lia.
  rewrite (sub64_plain (totalKB - freeKB - buffersKB) cachedKB) by lia.
  repeat split; lia.
Qed.

Lemma memory_used_consistent_witness :
  map F64.toQ (map value (Memory.Collect memOK))
    = [Some (inject_Z (1000 * 1024)); Some (inject_Z (600 * 1024))].
Proof.
  destruct (memory_used_consistent memOK
              (<["Cached" := 100]> (<["Buffers" := 100]> (<["MemAvailable" := 350]>
                 (<["MemFree" := 200]> (<["MemTotal" := 1000]> ∅)))))) as [H _].
  - vm_compute. reflexivity.
  - vm_compute. discriminate.
  - rewrite H. vm_compute. reflexivity.
Defined.

(** ** CPU temperature and frequency: which files matter *)

(** Once a zone has been selected by its type, the temperature is that
    zone's or nothing: when its temp file cannot be read, or does not
    parse, the sample is absent, whatever zone 0 and the later zones
    hold. *)
Theorem cpu_temperature_no_second_choice (sys : System) (k : nat) (typeBytes : string) :
  (k < 10)%nat ->
  (forall j, (j < k)%nat -> zoneSkipped sys j) ->
  ReadFile sys (CPU.zoneTypePath k) = Some typeBytes ->
  CPU.isCPUZone typeBytes = true ->
  match ReadFile sys (CPU.zoneTempPath k) with
  | None => True
  | Some data => exists e, snd (Strconv.ParseFloat (Str.TrimSpace data)) = Some e
  end ->
  CPU.readCPUTemperature sys = None.
Proof.
  intros Hk Hskip Hread Hcpu Htemp. unfold CPU.readCPUTemperature.
  rewrite (zoneSearch_first sys k 10 0 typeBytes Hk Hskip Hread Hcpu).
  cbn [Nat.add]. unfold CPU.readThermalTemp.
  destruct (ReadFile sys (CPU.zoneTempPath k)) as [data|]; [| reflexivity].
  destruct Htemp as (e & He).
  destruct (Strconv.ParseFloat (Str.TrimSpace data)) as [v [e'|]]; [reflexivity | discriminate].
Qed.

(** Zone 0 has a readable temperature; zone 1 is the CPU zone and has
    none. *)
Lemma cpu_temperature_no_second_choice_witness :
  CPU.readCPUTemperature
    (withFiles [ (CPU.zoneTypePath 0, "acpitz" +:+ LF); (CPU.zoneTempPath 0, "27000" +:+ LF);
                 (CPU.zoneTypePath 1, "cpu-thermal" +:+ LF) ]) = None.
Proof.
  apply (cpu_temperature_no_second_choice _ 1%nat ("cpu-thermal" +:+ LF)).
  - lia.
  - intros [|j] Hj; [reflexivity | lia].
  - reflexivity.
  - reflexivity.
  - exact I.
Defined.

Lemma freqLoop_agree sys sys' k : forall d n i totalFreq count,
  (i + d = k)%nat ->
  (forall j, (j < k)%nat -> ReadFile sys (CPU.freqPath j) = ReadFile sys' (CPU.freqPath j)) ->
  ReadFile sys (CPU.freqPath k) = None ->
  ReadFile sys' (CPU.freqPath k) = None ->
  CPU.freqLoop sys n i totalFreq count = CPU.freqLoop sys' n i totalFreq count.
Proof.
  induction d as [|d IH]; intros n i t c Hi Hagree Hgap Hgap';
    (destruct n as [|n]; [reflexivity |]); cbn [CPU.freqLoop].
  - rewrite Nat.add_0_r in Hi. subst i. rewrite Hgap, Hgap'. reflexivity.
  - rewrite <- (Hagree i) by lia.
    destruct (ReadFile sys (CPU.freqPath i)) as [data|]; [| reflexivity].
    destruct (Strconv.ParseFloat _) as [v [e|]]; apply (IH n (S i)); auto; lia.
Qed.

Lemma freqLoop_bounded sys sys' : forall n i totalFreq count,
  (forall j, (i <= j < i + n)%nat ->
             ReadFile sys (CPU.freqPath j) = ReadFile sys' (CPU.freqPath j)) ->
  CPU.freqLoop sys n i totalFreq count = CPU.freqLoop sys' n i totalFreq count.
Proof.
  induction n as [|n IH]; intros i t c Hagree; [reflexivity |]. cbn [CPU.freqLoop].
  rewrite <- (Hagree i) by lia.
  destruct (ReadFile sys (CPU.freqPath i)) as [data|]; [| reflexivity].
  destruct (Strconv.ParseFloat _) as [v [e|]]; apply IH; intros j Hj; apply Hagree; lia.
Qed.

(** readCPUFrequency never looks past the first core without a
    frequency file, nor past core 255: two systems that hold the same
    files up to a core that is missing in both, or the same files for the
    cores 0 to 255, give the same frequency. *)
Theorem cpu_frequency_reads_up_to_gap (sys sys' : System) :
  (forall k,
     (forall j, (j < k)%nat ->
                ReadFile sys (CPU.freqPath j) = ReadFile sys' (CPU.freqPath j)) ->
     ReadFile sys (CPU.freqPath k) = None ->
     ReadFile sys' (CPU.freqPath k) = None ->
     CPU.readCPUFrequency sys = CPU.readCPUFrequency sys')
  /\ ((forall j, (j < 256)%nat ->
                 ReadFile sys (CPU.freqPath j) = ReadFile sys' (CPU.freqPath j)) ->
      CPU.readCPUFrequency sys = CPU.readCPUFrequency sys').
Proof.
  split.
  - intros k Hagree Hgap Hgap'. unfold CPU.readCPUFrequency.
    rewrite (freqLoop_agree sys sys' k k 256 0 F64.zero 0 eq_refl Hagree Hgap Hgap').
    reflexivity.
  - intros Hagree. unfold CPU.readCPUFrequency.
    rewrite (freqLoop_bounded sys sys' 256 0 F64.zero 0); [reflexivity |].
    intros j Hj. apply Hagree. lia.
Qed.

(** A fourth core after the gap changes nothing. *)
Lemma cpu_frequency_reads_up_to_gap_witness :
  CPU.readCPUFrequency twoCores
    = CPU.readCPUFrequency
        (withFiles [ (CPU.freqPath 0, "1200000" +:+ LF); (CPU.freqPath 1, "1800000" +:+ LF);
                     (CPU.freqPath 3, "9900000" +:+ LF) ]).
Proof.
  apply (proj1 (cpu_frequency_reads_up_to_gap twoCores _) 2%nat).
  - intros [|[|j]] Hj; [reflexivity | reflexivity | lia].
  - reflexivity.
  - reflexivity.
Defined.

(** ** Numbers as the kernel writes them *)

(** What being a decimal digit excludes. *)
Lemma digit_char c d :
  Strconv.digit c = Some d ->
  Str.isSpace c = false /\ Str.lower c = c
  /\ Ascii.eqb c "_" = false /\ Ascii.eqb c "." = false
  /\ Ascii.eqb c "+" = false /\ Ascii.eqb c "-" = false
  /\ Ascii.eqb c ":" = false /\ Ascii.eqb c "i" = false /\ Ascii.eqb c "n" = false
  /\ Ascii.eqb c "x" = false.
Proof.
  destruct c as [[] [] [] [] [] [] [] []]; cbn; intros H; try discriminate H;
    repeat split; reflexivity.
Qed.

Lemma digit_of_code d :
  0 <= d <= 9 -> Strconv.digit (ascii_of_N (48 + Z.to_N d)) = Some d.
Proof.
  intros H. assert (Hd : d = 0 \/ d = 1 \/ d = 2 \/ d = 3 \/ d = 4 \/ d = 5 \/ d = 6
                         \/ d = 7 \/ d = 8 \/ d = 9) by lia.
  repeat (destruct Hd as [-> | Hd]; [reflexivity |]). subst d. reflexivity.
Qed.

(** One more digit read by the loop of [ParseUint], when the number still
    fits. *)
Lemma parseUint_go_step d t n :
  0 <= d <= 9 -> 0 <= n -> n * 10 + d <= Strconv.maxUint64 ->
  Strconv.parseUint_go (String (ascii_of_N (48 + Z.to_N d)) t) n
    = Strconv.parseUint_go t (n * 10 + d).
Proof.
  intros Hd Hn Hmax. cbn [Strconv.parseUint_go]. rewrite (digit_of_code d Hd).
  assert (E1 : (Strconv.maxUint64 / 10 + 1 <=? n) = false).
  { apply Z.leb_gt. unfold Strconv.maxUint64 in *.
    change ((2 ^ 64 - 1) / 10 + 1) with 1844674407370955162. lia. }
  assert (E2 : (Strconv.maxUint64 <? n * 10 + d) = false) by (apply Z.ltb_ge; lia).
  rewrite E1, E2. reflexivity.
Qed.

Lemma parseUint_go_decimal fuel : forall n acc,
  0 <= n <= Strconv.maxUint64 -> n < 10 ^ Z.of_nat fuel ->
  Strconv.parseUint_go (decimal_go fuel n acc) 0 = Strconv.parseUint_go acc n.
Proof.
  induction fuel as [|fuel IH]; intros n acc Hn Hf.
  - cbn in Hf. assert (n = 0) by lia. subst n. reflexivity.
  - cbn [decimal_go]. pose proof (Z.mod_pos_bound n 10 ltac:(lia)) as Hm.
    pose proof (Z.div_mod n 10 ltac:(lia)) as Hdm.
    destruct (n <? 10) eqn:E.
    + apply Z.ltb_lt in E. rewrite Z.mod_small by lia.
      rewrite parseUint_go_step by lia. reflexivity.
    + apply Z.ltb_ge in E.
      rewrite IH.
      * rewrite parseUint_go_step by lia. f_equal. lia.
      * lia.
      * rewrite Nat2Z.inj_succ, Z.pow_succ_r in Hf by lia. lia.
Qed.

Lemma decimal_go_nonempty fuel : forall n acc,
  acc <> EmptyString -> decimal_go fuel n acc <> EmptyString.
Proof.
  induction fuel as [|fuel IH]; intros n acc H; cbn [decimal_go]; [exact H |].
  destruct (n <? 10); [discriminate | apply IH; discriminate].
Qed.

Lemma decimal_nonempty n : decimal n <> EmptyString.
Proof.
  unfold decimal. cbn [decimal_go].
  destruct (n <? 10); [discriminate | apply decimal_go_nonempty; discriminate].
Qed.

Lemma decimal_fuel n : 0 <= n -> n < 10 ^ Z.of_nat (S (Z.to_nat (Z.log2 n))).
Proof.
  intros Hn. rewrite Nat2Z.inj_succ, Z2Nat.id by apply Z.log2_nonneg.
  destruct (Z.eq_dec n 0) as [-> | Hne]; [reflexivity |].
  pose proof (Z.log2_spec n ltac:(lia)) as [_ H].
  eapply Z.lt_le_trans; [exact H |].
  apply Z.pow_le_mono_l. pose proof (Z.log2_nonneg n). lia.
Qed.

(** [ParseUint] reads back what [decimal] writes. *)
Lemma ParseUint_decimal n :
  0 <= n < 2 ^ 64 -> Strconv.ParseUint (decimal n) = (n, None).
Proof.
  intros Hn. pose proof (decimal_nonempty n) as Hne.
  unfold Strconv.ParseUint. destruct (decimal n) eqn:E; [congruence |].
  rewrite <- E. unfold decimal.
  rewrite parseUint_go_decimal; [reflexivity | unfold Strconv.maxUint64; lia |].
  apply decimal_fuel. lia.
Qed.

(** Strings that [ParseUint] accepts have digits only. *)
Lemma parseUint_go_noSpace s : forall n v,
  Strconv.parseUint_go s n = (v, None) -> noSpace s.
Proof.
  induction s as [|c t IH]; intros n v; cbn [Strconv.parseUint_go noSpace]; [auto |].
  destruct (Strconv.digit c) as [d|] eqn:Ed; [| discriminate].
  destruct (_ <=? n); [discriminate |]. destruct (_ <? _); [discriminate |].
  intros H. split; [apply (digit_char c d Ed) | exact (IH _ _ H)].
Qed.

Lemma ParseUint_noSpace s v : Strconv.ParseUint s = (v, None) -> noSpace s.
Proof.
  destruct s as [|c t]; [intros _; exact I |]. apply parseUint_go_noSpace.
Qed.

(** ** Trimming *)

Lemma TrimLeft_allSpace a s : allSpace a -> Str.TrimLeft (a +:+ s) = Str.TrimLeft s.
Proof.
  induction a as [|c a IH]; intros H; [reflexivity |]. destruct H as [Hc Ha].
  change (String c a +:+ s) with (String c (a +:+ s)). cbn [Str.TrimLeft].
  rewrite Hc. apply IH, Ha.
Qed.

Lemma TrimRight_allSpace b : allSpace b -> Str.TrimRight b = EmptyString.
Proof.
  induction b as [|c b IH]; intros H; [reflexivity |]. destruct H as [Hc Hb].
  cbn [Str.TrimRight]. rewrite (IH Hb), Hc. reflexivity.
Qed.

Lemma TrimRight_noSpace s b :
  noSpace s -> allSpace b -> Str.TrimRight (s +:+ b) = s.
Proof.
  intros Hs Hb. induction s as [|c s IH].
  - apply TrimRight_allSpace, Hb.
  - destruct Hs as [Hc Hs]. change (String c s +:+ b) with (String c (s +:+ b)).
    cbn [Str.TrimRight]. rewrite (IH Hs). destruct s; [rewrite Hc |]; reflexivity.
Qed.

Lemma TrimLeft_noSpace s : noSpace s -> Str.TrimLeft s = s.
Proof.
  destruct s as [|c s]; [reflexivity |]. intros [Hc _]. cbn [Str.TrimLeft].
  rewrite Hc. reflexivity.
Qed.

(** White space around a string that has none inside is all that
    [TrimSpace] removes. *)
Lemma TrimSpace_padded a s b :
  allSpace a -> noSpace s -> allSpace b -> Str.TrimSpace (a +:+ s +:+ b) = s.
Proof.
  intros Ha Hs Hb. unfold Str.TrimSpace. rewrite (TrimLeft_allSpace a _ Ha).
  destruct s as [|c s].
  - change (EmptyString +:+ b) with b.
    assert (Hl : forall b', allSpace b' -> Str.TrimLeft b' = EmptyString).
    { induction b' as [|x b' IH]; [reflexivity |]. intros [Hx Hb'].
      cbn [Str.TrimLeft]. rewrite Hx. apply IH, Hb'. }
    rewrite (Hl b Hb). reflexivity.
  - destruct Hs as [Hc Hs]. change (String c s +:+ b) with (String c (s +:+ b)).
    cbn [Str.TrimLeft]. rewrite Hc.
    apply (TrimRight_noSpace (String c s) b); [split; assumption | exact Hb].
Qed.

Lemma TrimSpace_noSpace s : noSpace s -> Str.TrimSpace s = s.
Proof.
  intros H. pose proof (TrimSpace_padded EmptyString s EmptyString I H I) as E.
  change (EmptyString +:+ s +:+ EmptyString) with (s +:+ EmptyString) in E.
  assert (Hr : forall x, x +:+ EmptyString = x).
  { induction x as [|c x IH]; [reflexivity |].
    change (String c x +:+ EmptyString) with (String c (x +:+ EmptyString)).
    rewrite IH. reflexivity. }
  rewrite Hr in E. exact E.
Qed.

Lemma allSpace_LF : allSpace LF.
Proof. split; [reflexivity | exact I]. Qed.

(** ** An unsigned integer is a float literal too *)

Lemma readSign_digit c d t :
  Strconv.digit c = Some d -> Strconv.readSign (String c t) = (false, String c t).
Proof.
  destruct c as [[] [] [] [] [] [] [] []]; cbn; intros H; try discriminate H; reflexivity.
Qed.

Lemma readMantissa_digits s : forall m nd v,
  Strconv.parseUint_go s m = (v, None) ->
  Strconv.readMantissa false s false m nd O false
    = (v, (nd + String.length s)%nat, O, false, EmptyString).
Proof.
  induction s as [|c t IH]; intros m nd v; cbn [Strconv.parseUint_go Strconv.readMantissa].
  - intros [= <-]. cbn [String.length]. rewrite Nat.add_0_r. reflexivity.
  - destruct (Strconv.digit c) as [d|] eqn:Ed; [| discriminate].
    destruct (_ <=? m); [discriminate |]. destruct (_ <? _); [discriminate |].
    intros H. destruct (digit_char c d Ed) as (_ & _ & -> & -> & _).
    rewrite (IH _ (S nd) _ H). cbn [String.length]. rewrite Nat.add_succ_r. reflexivity.
Qed.

Lemma hexPrefix_digits c d t :
  Strconv.digit c = Some d ->
  (forall x r, t = String x r -> exists dx, Strconv.digit x = Some dx) ->
  match String c t with
  | String "0" (String x (String c0 t0)) =>
      if Ascii.eqb (Str.lower x) "x" then (true, String c0 t0) else (false, String c t)
  | _ => (false, String c t)
  end = (false, String c t).
Proof.
  intros Hc Hx. destruct t as [|x [|c0 t0]].
  - destruct c as [[] [] [] [] [] [] [] []]; reflexivity.
  - destruct c as [[] [] [] [] [] [] [] []]; reflexivity.
  - destruct (Hx x _ eq_refl) as (dx & Hdx).
    destruct (digit_char x dx Hdx) as (_ & Hl & _ & _ & _ & _ & _ & _ & _ & Hxx).
    destruct c as [[] [] [] [] [] [] [] []]; try reflexivity.
    rewrite Hl, Hxx. reflexivity.
Qed.

(** Every string that [ParseUint] accepts, [ParseFloat] accepts, with the
    float64 of the same integer as its value. *)
Lemma ParseFloat_of_ParseUint s v :
  Strconv.ParseUint s = (v, None) -> Strconv.ParseFloat s = (F64.of_Z v, None).
Proof.
  intros H. pose proof (ParseUint_uint64 s) as Hr. rewrite H in Hr. cbn [fst] in Hr.
  destruct s as [|c t]; [discriminate |]. cbn [Strconv.ParseUint] in H.
  assert (Hc : exists d, Strconv.digit c = Some d).
  { cbn [Strconv.parseUint_go] in H. destruct (Strconv.digit c) as [d|]; [eauto | discriminate]. }
  destruct Hc as (d & Hd).
  assert (Ht : forall x r, t = String x r -> exists dx, Strconv.digit x = Some dx).
  { intros x r ->. cbn [Strconv.parseUint_go] in H. rewrite Hd in H.
    destruct (_ <=? 0); [discriminate |]. destruct (_ <? _); [discriminate |].
    destruct (Strconv.digit x) as [dx|]; [eauto | discriminate]. }
  destruct (digit_char c d Hd) as (_ & Hl & _ & _ & _ & _ & _ & Hi & Hn & _).
  unfold Strconv.ParseFloat, Strconv.special.
  rewrite (readSign_digit c d t Hd). cbn [Str.ToLower String.eqb]. rewrite Hl, Hi, Hn.
  cbn [andb orb]. unfold Strconv.readFloat. rewrite (readSign_digit c d t Hd).
  rewrite (hexPrefix_digits c d t Hd Ht).
  rewrite (readMantissa_digits (String c t) 0 O v H). cbn [Nat.add String.length Nat.eqb].
  unfold Strconv.decimalToFloat. rewrite Z.sub_0_r. cbn [Z.of_nat Z.opp Z.leb Z.compare].
  change (10 ^ 0) with 1. rewrite Z.mul_1_r.
  destruct (v =? 0) eqn:E.
  - apply Z.eqb_eq in E. subst v. reflexivity.
  - apply Z.eqb_neq in E. fold (F64.of_Z v).
    destruct (of_Z_finite v ltac:(lia)) as (mv & ev & ->). reflexivity.
Qed.

Lemma ParseFloat_decimal n :
  0 <= n < 2 ^ 64 -> Strconv.ParseFloat (decimal n) = (F64.of_Z n, None).
Proof. intros H. apply ParseFloat_of_ParseUint, ParseUint_decimal, H. Qed.

(** ** Reading back what the kernel wrote *)

Lemma decimal_noSpace n : 0 <= n < 2 ^ 64 -> noSpace (decimal n).
Proof. intros H. exact (ParseUint_noSpace _ _ (ParseUint_decimal n H)). Qed.

(** A sysfs counter file holds a number and a line feed: readSysUint64
    returns the number. So an up interface whose four statistics files
    hold the numbers rxb, txb, rxp and txp is reported with
    float64(rxb), float64(txb), float64(rxp) and float64(txp). *)
Theorem network_counters_read_back (sys : System) (iface : string) (rxb txb rxp txp : Z) :
  In iface Network.monitoredInterfaces ->
  ReadFile sys ("/sys/class/net/" +:+ iface +:+ "/operstate") = Some ("up" +:+ LF) ->
  0 <= rxb < 2 ^ 64 -> 0 <= txb < 2 ^ 64 -> 0 <= rxp < 2 ^ 64 -> 0 <= txp < 2 ^ 64 ->
  ReadFile sys ("/sys/class/net/" +:+ iface +:+ "/statistics/" +:+ "rx_bytes")
    = Some (decimal rxb +:+ LF) ->
  ReadFile sys ("/sys/class/net/" +:+ iface +:+ "/statistics/" +:+ "tx_bytes")
    = Some (decimal txb +:+ LF) ->
  ReadFile sys ("/sys/class/net/" +:+ iface +:+ "/statistics/" +:+ "rx_packets")
    = Some (decimal rxp +:+ LF) ->
  ReadFile sys ("/sys/class/net/" +:+ iface +:+ "/statistics/" +:+ "tx_packets")
    = Some (decimal txp +:+ LF) ->
  exists before after,
    Network.Collect sys =
      (before ++
       [ MustNewConstMetric Network.rxBytesDesc CounterValue (F64.of_Z rxb) [iface];
         MustNewConstMetric Network.txBytesDesc CounterValue (F64.of_Z txb) [iface];
         MustNewConstMetric Network.rxPacketsDesc CounterValue (F64.of_Z rxp) [iface];
         MustNewConstMetric Network.txPacketsDesc CounterValue (F64.of_Z txp) [iface] ]
       ++ after)%list.
Proof.
  intros Hin Hup H1 H2 H3 H4 F1 F2 F3 F4.
  assert (Hread : forall path n, 0 <= n < 2 ^ 64 ->
            ReadFile sys path = Some (decimal n +:+ LF) ->
            Network.readSysUint64 sys path = n).
  { intros path n Hn Hf. unfold Network.readSysUint64. rewrite Hf.
    change (decimal n +:+ LF) with (EmptyString +:+ decimal n +:+ LF).
    rewrite (TrimSpace_padded EmptyString (decimal n) LF I (decimal_noSpace n Hn) allSpace_LF).
    rewrite (ParseUint_decimal n Hn). reflexivity. }
  assert (Hisup : Network.isInterfaceUp sys iface = true).
  { unfold Network.isInterfaceUp. rewrite operstate_path, Hup. reflexivity. }
  apply in_split in Hin. destruct Hin as (l1 & l2 & Hl).
  unfold Network.Collect. rewrite Hl, flat_map_app. cbn [flat_map].
  rewrite (collectInterface_up sys iface Hisup).
  rewrite (Hread _ rxb H1 F1), (Hread _ txb H2 F2), (Hread _ rxp H3 F3), (Hread _ txp H4 F4).
  eauto.
Qed.

Lemma network_counters_read_back_witness :
  exists before after,
    Network.Collect
      (withFiles [ ("/sys/class/net/wlP9s9/operstate", "up" +:+ LF);
                   ("/sys/class/net/wlP9s9/statistics/rx_bytes", "1234" +:+ LF);
                   ("/sys/class/net/wlP9s9/statistics/tx_bytes", "0" +:+ LF);
                   ("/sys/class/net/wlP9s9/statistics/rx_packets", "18446744073709551615" +:+ LF);
                   ("/sys/class/net/wlP9s9/statistics/tx_packets", "77" +:+ LF) ])
    = (before ++
       [ MustNewConstMetric Network.rxBytesDesc CounterValue (F64.of_Z 1234) ["wlP9s9"];
         MustNewConstMetric Network.txBytesDesc CounterValue (F64.of_Z 0) ["wlP9s9"];
         MustNewConstMetric Network.rxPacketsDesc CounterValue (F64.of_Z (2 ^ 64 - 1)) ["wlP9s9"];
         MustNewConstMetric Network.txPacketsDesc CounterValue (F64.of_Z 77) ["wlP9s9"] ]
       ++ after)%list.
Proof.
  apply (network_counters_read_back _ "wlP9s9" 1234 0 (2 ^ 64 - 1) 77);
    try reflexivity; try lia.
  cbn. tauto.
Defined.

(** A thermal zone's temp file holds n millidegrees and a line feed:
    readThermalTemp gives float64(n) / 1000. A file that cannot be read
    gives nothing. *)
Theorem thermal_temp_read_back (sys : System) (path : string) (n : Z) :
  0 <= n < 2 ^ 64 ->
  ReadFile sys path = Some (decimal n +:+ LF) ->
  CPU.readThermalTemp sys path = Some (F64.div (F64.of_Z n) (F64.of_Z 1000)).
Proof.
  intros Hn Hf. unfold CPU.readThermalTemp. rewrite Hf.
  change (decimal n +:+ LF) with (EmptyString +:+ decimal n +:+ LF).
  rewrite (TrimSpace_padded EmptyString (decimal n) LF I (decimal_noSpace n Hn) allSpace_LF).
  rewrite (ParseFloat_decimal n Hn). reflexivity.
Qed.

Lemma thermal_temp_read_back_witness :
  CPU.readThermalTemp threeZones (CPU.zoneTempPath 2)
    = Some (F64.div (F64.of_Z 45500) (F64.of_Z 1000)).
Proof. apply (thermal_temp_read_back threeZones _ 45500); [lia | reflexivity]. Defined.

Lemma parsedKHz_decimal ns :
  Forall (fun n => 0 <= n < 2 ^ 64) ns ->
  parsedKHz (map (fun n => decimal n +:+ LF) ns) = map F64.of_Z ns.
Proof.
  induction 1 as [|n ns Hn _ IH]; [reflexivity |]. cbn [map parsedKHz].
  change (decimal n +:+ LF) with (EmptyString +:+ decimal n +:+ LF).
  rewrite (TrimSpace_padded EmptyString (decimal n) LF I (decimal_noSpace n Hn) allSpace_LF).
  rewrite (ParseFloat_decimal n Hn), IH. reflexivity.
Qed.

(** The cores 0 .. k-1 (k between 1 and 256) report the frequencies
    n_0 .. n_(k-1) in kHz, and core k has no file or k is 256: the
    frequency sent is (float64(n_0) + ... + float64(n_(k-1))) / k / 1000,
    the sum taken from the left. *)
Theorem cpu_frequency_of_numbers (sys : System) (ns : list Z) :
  (0 < List.length ns <= 256)%nat ->
  Forall (fun n => 0 <= n < 2 ^ 64) ns ->
  (forall j, (j < List.length ns)%nat ->
             ReadFile sys (CPU.freqPath j) = Some (decimal (nth j ns 0) +:+ LF)) ->
  ((List.length ns < 256)%nat -> ReadFile sys (CPU.freqPath (List.length ns)) = None) ->
  CPU.readCPUFrequency sys
    = Some (F64.div (F64.div (fold_left F64.add (map F64.of_Z ns) F64.zero)
                             (F64.of_Z (Z.of_nat (List.length ns))))
                    (F64.of_Z 1000)).
Proof.
  intros Hlen Hns Hfiles Hend. unfold CPU.readCPUFrequency.
  rewrite (freqLoop_run sys (map (fun n => decimal n +:+ LF) ns) 256 0 F64.zero 0).
  - rewrite (parsedKHz_decimal ns Hns), length_map, Z.add_0_l.
    destruct (Z.of_nat (List.length ns) =? 0) eqn:E; [| reflexivity].
    apply Z.eqb_eq in E. lia.
  - rewrite length_map. intros j Hj. cbn [Nat.add]. rewrite (Hfiles j Hj).
    f_equal.
    rewrite (nth_indep _ EmptyString ((fun n => decimal n +:+ LF) 0))
      by (rewrite length_map; exact Hj).
    rewrite (map_nth (fun n => decimal n +:+ LF)). reflexivity.
  - rewrite length_map. lia.
  - rewrite length_map. exact Hend.
  - rewrite length_map. lia.
Qed.

Lemma cpu_frequency_of_numbers_witness :
  CPU.readCPUFrequency twoCores
    = Some (F64.div (F64.div (F64.add (F64.add F64.zero (F64.of_Z 1200000)) (F64.of_Z 1800000))
                             (F64.of_Z 2))
                    (F64.of_Z 1000)).
Proof.
  apply (cpu_frequency_of_numbers twoCores [1200000; 1800000]).
  - cbn. lia.
  - repeat constructor; lia.
  - intros [|[|j]] Hj; cbn in Hj; try lia; reflexivity.
  - intros _. reflexivity.
Defined.

(** ** A line of /proc/meminfo *)

Lemma append_empty_r_string x : x +:+ EmptyString = x.
Proof.
  induction x as [|c x IH]; [reflexivity |].
  change (String c x +:+ EmptyString) with (String c (x +:+ EmptyString)).
  rewrite IH. reflexivity.
Qed.

Lemma string_of_rev_cons c cur :
  string_of_list_ascii (rev (c :: cur))
    = string_of_list_ascii (rev cur) +:+ String c EmptyString.
Proof.
  cbn [rev]. induction (rev cur) as [|a l IH]; [reflexivity |].
  cbn [app string_of_list_ascii]. rewrite IH. reflexivity.
Qed.

(** With no cut left, the rest of the string is one piece. *)
Lemma split_go_no_cut sep s : forall cur,
  Str.split_go sep (Some O) O s cur = [string_of_list_ascii (rev cur) +:+ s].
Proof.
  induction s as [|c t IH]; intros cur; cbn [Str.split_go].
  - rewrite append_empty_r_string. reflexivity.
  - rewrite IH, string_of_rev_cons, append_assoc. reflexivity.
Qed.

(** [SplitN s ":" 2] cuts at the first colon. *)
Lemma SplitN_first_colon key rest :
  without ":" key -> Str.SplitN (key +:+ ":" +:+ rest) ":" 2 = [key; rest].
Proof.
  intros Hk. unfold Str.SplitN. cbn [Pos.to_nat Pos.iter_op Nat.add Nat.sub].
  assert (H : forall cur,
            Str.split_go ":" (Some 1%nat) O (key +:+ ":" +:+ rest) cur
              = [string_of_list_ascii (rev cur) +:+ key; rest]).
  { induction key as [|c key IH]; intros cur.
    - change (EmptyString +:+ ":" +:+ rest) with (String ":" rest).
      cbn [Str.split_go String.prefix]. destruct (ascii_dec ":" ":") as [_ | Hne]; [| congruence].
      rewrite prefix_nil. cbn [option_map Nat.pred String.length Nat.sub].
      rewrite split_go_no_cut, append_empty_r_string. reflexivity.
    - destruct Hk as [Hc Hk]. change (String c key +:+ ":" +:+ rest)
        with (String c (key +:+ ":" +:+ rest)).
      cbn [Str.split_go String.prefix]. destruct (ascii_dec ":" c) as [<- | _]; [congruence |].
      rewrite (IH Hk), string_of_rev_cons, append_assoc. reflexivity. }
  rewrite H. reflexivity.
Qed.

Lemma length_append a b :
  String.length (a +:+ b) = (String.length a + String.length b)%nat.
Proof.
  induction a as [|c a IH]; [reflexivity |].
  change (String c a +:+ b) with (String c (a +:+ b)). cbn [String.length].
  rewrite IH. reflexivity.
Qed.

Lemma substring_whole s : String.substring 0 (String.length s) s = s.
Proof. induction s as [|c s IH]; [reflexivity |]. cbn. rewrite IH. reflexivity. Qed.

Lemma substring_skip a b m :
  String.substring (String.length a) m (a +:+ b) = String.substring 0 m b.
Proof.
  induction a as [|c a IH]; [reflexivity |].
  change (String c a +:+ b) with (String c (a +:+ b)). cbn [String.length String.substring].
  exact IH.
Qed.

Lemma substring_take a b :
  String.substring 0 (String.length a) (a +:+ b) = a.
Proof.
  induction a as [|c a IH]; [destruct b; reflexivity |].
  change (String c a +:+ b) with (String c (a +:+ b)). cbn [String.length String.substring].
  rewrite IH. reflexivity.
Qed.

(** [TrimSuffix] takes a suffix off. *)
Lemma TrimSuffix_append a suf : Str.TrimSuffix (a +:+ suf) suf = a.
Proof.
  unfold Str.TrimSuffix, Str.HasSuffix. rewrite length_append.
  replace (String.length a + String.length suf - String.length suf)%nat
    with (String.length a) by lia.
  rewrite substring_skip, substring_whole, String.eqb_refl, andb_true_r.
  replace (String.length suf <=? String.length a + String.length suf)%nat with true
    by (symmetry; apply Nat.leb_le; lia).
  apply substring_take.
Qed.

Lemma TrimRight_end s c :
  Str.isSpace c = false ->
  Str.TrimRight (s +:+ String c EmptyString) = s +:+ String c EmptyString.
Proof.
  intros Hc. induction s as [|a s IH].
  - change (EmptyString +:+ String c EmptyString) with (String c EmptyString).
    cbn [Str.TrimRight]. rewrite Hc. reflexivity.
  - change (String a s +:+ String c EmptyString) with (String a (s +:+ String c EmptyString)).
    cbn [Str.TrimRight]. rewrite IH. destruct s; reflexivity.
Qed.

(** A line as the kernel writes it: a key, a colon, padding, a number and
    the unit kB. The line sets the key to the number. *)
Theorem meminfo_line_read_back (info : gmap string Z) (key pad : string) (n : Z) :
  without ":" key -> noSpace key -> allSpace pad -> 0 <= n < 2 ^ 64 ->
  Memory.memInfoLine info (key +:+ ":" +:+ pad +:+ decimal n +:+ " kB")
    = <[key := n]> info.
Proof.
  intros Hcolon Hkey Hpad Hn.
  pose proof (decimal_noSpace n Hn) as Hd. pose proof (decimal_nonempty n) as Hne.
  unfold Memory.memInfoLine. rewrite (SplitN_first_colon key _ Hcolon).
  rewrite (TrimSpace_noSpace key Hkey).
  assert (Hv : Str.TrimSpace (pad +:+ decimal n +:+ " kB") = decimal n +:+ " kB").
  { unfold Str.TrimSpace. rewrite (TrimLeft_allSpace pad _ Hpad).
    destruct (decimal n) as [|c d] eqn:E; [congruence |]. destruct Hd as [Hc Hd].
    change (String c d +:+ " kB") with (String c (d +:+ " kB")).
    cbn [Str.TrimLeft]. rewrite Hc.
    replace (String c (d +:+ " kB")) with ((String c d +:+ " k") +:+ "B")
      by (rewrite append_assoc; reflexivity).
    apply TrimRight_end. reflexivity. }
  rewrite Hv, TrimSuffix_append, (TrimSpace_noSpace _ Hd), (ParseUint_decimal n Hn).
  reflexivity.
Qed.

Lemma meminfo_line_read_back_witness :
  Memory.memInfoLine ∅ ("MemTotal" +:+ ":" +:+ "       " +:+ decimal 16384256 +:+ " kB")
    = <["MemTotal" := 16384256]> ∅.
Proof.
  apply (meminfo_line_read_back ∅ "MemTotal" "       " 16384256); cbn; try lia;
    repeat split; discriminate.
Defined.

(** ** Disk I/O: the counters of a line *)

Ltac destruct_match :=
  match goal with
  | |- context [match ?x with _ => _ end] => destruct x eqn:?
  | |- context [if ?x then _ else _] => destruct x eqn:?
  end.

Lemma withRange_syntax x : snd (Strconv.withRange x) <> Some Strconv.ErrSyntax.
Proof. destruct x; cbn; discriminate. Qed.

(** A string that is no float literal at all comes back as 0. *)
Lemma ParseFloat_syntax_zero s :
  snd (Strconv.ParseFloat s) = Some Strconv.ErrSyntax ->
  fst (Strconv.ParseFloat s) = F64.zero.
Proof.
  unfold Strconv.ParseFloat. destruct (Strconv.special s); [discriminate |].
  unfold Strconv.readFloat.
  repeat (first [ reflexivity
                | (intros H; exfalso; exact (withRange_syntax _ H))
                | destruct_match ]).
Qed.

(** For a line of /proc/diskstats with at least 14 fields and an accepted
    device name: reads and writes counters that are unsigned integers r
    and w are sent as float64(r) and float64(w); a counter field that is
    no number is sent as 0, and the device is sent all the same. *)
Theorem disk_line_counters (line : string) :
  (14 <= List.length (Str.Fields line))%nat ->
  accepted (nth 2 (Str.Fields line) EmptyString) = true ->
  let fields := Str.Fields line in
  let device := nth 2 fields EmptyString in
  (forall r w,
     Strconv.ParseUint (nth 3 fields EmptyString) = (r, None) ->
     Strconv.ParseUint (nth 7 fields EmptyString) = (w, None) ->
     Disk.diskLine line
       = [ MustNewConstMetric Disk.readsDesc CounterValue (F64.of_Z r) [device];
           MustNewConstMetric Disk.writesDesc CounterValue (F64.of_Z w) [device] ])
  /\ (snd (Strconv.ParseFloat (nth 3 fields EmptyString)) = Some Strconv.ErrSyntax ->
      exists writes,
        Disk.diskLine line
          = [ MustNewConstMetric Disk.readsDesc CounterValue F64.zero [device];
              MustNewConstMetric Disk.writesDesc CounterValue writes [device] ]).
Proof.
  intros Hlen Hacc fields device. unfold accepted in Hacc. fold fields in Hlen, Hacc.
  fold device in Hacc.
  apply andb_true_iff in Hacc. destruct Hacc as [Hex Hph]. apply negb_true_iff in Hex.
  apply Nat.ltb_ge in Hlen.
  assert (Hline : Disk.diskLine line
            = [ MustNewConstMetric Disk.readsDesc CounterValue
                  (fst (Strconv.ParseFloat (nth 3 fields EmptyString))) [device];
                MustNewConstMetric Disk.writesDesc CounterValue
                  (fst (Strconv.ParseFloat (nth 7 fields EmptyString))) [device] ]).
  { unfold Disk.diskLine. fold fields. rewrite Hlen. fold device. rewrite Hex, Hph.
    reflexivity. }
  split.
  - intros r w Hr Hw. rewrite Hline.
    rewrite (ParseFloat_of_ParseUint _ r Hr), (ParseFloat_of_ParseUint _ w Hw). reflexivity.
  - intros Herr. rewrite Hline, (ParseFloat_syntax_zero _ Herr). eauto.
Qed.

Lemma disk_line_counters_witness :
  Disk.diskLine " 259 0 nvme0n1 5000 10 7000 300 8000 20 9000 400 0 500 700"
    = [ MustNewConstMetric Disk.readsDesc CounterValue (F64.of_Z 5000) ["nvme0n1"];
        MustNewConstMetric Disk.writesDesc CounterValue (F64.of_Z 8000) ["nvme0n1"] ]
  /\ exists writes,
       Disk.diskLine " 8 0 sda - 10 7000 300 8000 20 9000 400 0 500 700"
         = [ MustNewConstMetric Disk.readsDesc CounterValue F64.zero ["sda"];
             MustNewConstMetric Disk.writesDesc CounterValue writes ["sda"] ].
Proof.
  split.
  - apply (proj1 (disk_line_counters
                    " 259 0 nvme0n1 5000 10 7000 300 8000 20 9000 400 0 500 700"
                    ltac:(vm_compute; lia) eq_refl)); reflexivity.
  - apply (proj2 (disk_line_counters
                    " 8 0 sda - 10 7000 300 8000 20 9000 400 0 500 700"
                    ltac:(vm_compute; lia) eq_refl)). reflexivity.
Defined.

(** ** float64: rounding in the normal range

    The rounding of [SpecFloat] followed bit by bit: which of the two
    neighbouring mantissas is chosen, and what that means for the order of
    the results. *)

Lemma Zdigits2_unique m k : 0 < m -> 2 ^ (k - 1) <= m < 2 ^ k -> Zdigits2 m = k.
Proof.
  intros Hm [Hlo Hhi]. destruct (Zdigits2_bounds m Hm) as [Dlo Dhi].
  assert (Hd : 1 <= Zdigits2 m) by (destruct m; simpl in *; lia).
  assert (Hk : 1 <= k).
  { destruct (Z.le_gt_cases 1 k) as [|Hk]; [assumption | exfalso].
    assert (2 ^ k <= 2 ^ 0) by (apply Z.pow_le_mono_r; lia). simpl in *. lia. }
  destruct (Z.lt_trichotomy (Zdigits2 m) k) as [Hlt|[Heq|Hgt]]; [exfalso | exact Heq | exfalso].
  - assert (2 ^ Zdigits2 m <= 2 ^ (k - 1)) by (apply Z.pow_le_mono_r; lia). lia.
  - assert (2 ^ k <= 2 ^ (Zdigits2 m - 1)) by (apply Z.pow_le_mono_r; lia). lia.
Qed.

Lemma iter_pos_nat {A : Type} (f : A -> A) p : forall x,
  SpecFloat.iter_pos f p x = Nat.iter (Pos.to_nat p) f x.
Proof.
  induction p as [p IH|p IH|]; intros x; cbn [SpecFloat.iter_pos].
  - rewrite !IH, <- Nat.iter_succ_r, <- Nat.iter_add. f_equal. lia.
  - rewrite !IH, <- Nat.iter_add. f_equal. lia.
  - reflexivity.
Qed.

Lemma shr_1_spec m r s :
  0 <= m ->
  shr_1 (Build_shr_record m r s) = Build_shr_record (m / 2) (Z.odd m) (r || s).
Proof.
  intros Hm. destruct m as [|[p|p|]|p]; cbn [shr_1 Z.odd]; try lia; try reflexivity.
  - f_equal. apply Z.div_unique with 1; lia.
  - f_equal. apply Z.div_unique with 0; lia.
Qed.

Lemma mod_pow2_succ m n :
  0 <= n ->
  m mod 2 ^ (n + 1) = m mod 2 ^ n + 2 ^ n * (if Z.odd (m / 2 ^ n) then 1 else 0).
Proof.
  intros Hn. rewrite Z.pow_add_r, Z.pow_1_r by lia.
  rewrite Z.rem_mul_r by (try lia; apply Z.pow_nonzero; lia).
  rewrite Zmod_odd. reflexivity.
Qed.

(** After n+1 single shifts the record holds the quotient, whether the
    remainder reaches one half, and whether anything lies below that bit. *)
Lemma iter_shr_1_bits m n :
  0 <= m ->
  Nat.iter (S n) shr_1 (Build_shr_record m false false)
  = Build_shr_record (m / 2 ^ Z.of_nat (S n))
      (2 ^ Z.of_nat n <=? m mod 2 ^ Z.of_nat (S n))
      (negb (m mod 2 ^ Z.of_nat n =? 0)).
Proof.
  intros Hm. induction n as [|n IH].
  - cbn [Nat.iter]. rewrite shr_1_spec by exact Hm.
    change (Z.of_nat 1) with 1. change (Z.of_nat 0) with 0.
    rewrite Z.pow_1_r, Z.pow_0_r, Z.mod_1_r, Zmod_odd. f_equal.
    destruct (Z.odd m); reflexivity.
  - change (Nat.iter (S (S n)) shr_1 ?x) with (shr_1 (Nat.iter (S n) shr_1 x)).
    rewrite IH. rewrite shr_1_spec by (apply Z.div_pos; [lia | apply Z.pow_pos_nonneg; lia]).
    assert (Hp : 0 < 2 ^ Z.of_nat n) by (apply Z.pow_pos_nonneg; lia).
    assert (Hp1 : 0 < 2 ^ Z.of_nat (S n)) by (apply Z.pow_pos_nonneg; lia).
    pose proof (Z.mod_pos_bound m (2 ^ Z.of_nat n) Hp) as Hx.
    pose proof (Z.mod_pos_bound m (2 ^ Z.of_nat (S n)) Hp1) as Hx1.
    f_equal.
    + rewrite Z.div_div by lia. f_equal.
      rewrite (Nat2Z.inj_succ (S n)), Z.pow_succ_r by lia. ring.
    + rewrite (Nat2Z.inj_succ (S n)). unfold Z.succ.
      rewrite mod_pow2_succ by lia.
      destruct (Z.odd (m / 2 ^ Z.of_nat (S n))); symmetry;
        [apply Z.leb_le | apply Z.leb_gt]; lia.
    + revert Hx1. rewrite (Nat2Z.inj_succ n). unfold Z.succ.
      rewrite mod_pow2_succ by lia. intros Hx1.
      destruct (Z.odd (m / 2 ^ Z.of_nat n)).
      * replace (2 ^ Z.of_nat n <=? _) with true by (symmetry; apply Z.leb_le; lia).
        replace (_ + _ =? 0) with false by (symmetry; apply Z.eqb_neq; lia). reflexivity.
      * replace (2 ^ Z.of_nat n <=? _) with false by (symmetry; apply Z.leb_gt; lia).
        rewrite Z.mul_0_r, Z.add_0_r. reflexivity.
Qed.

Lemma rne_bounds a k : a / 2 ^ k <= rne a k <= a / 2 ^ k + 1.
Proof.
  unfold rne. destruct (_ <? _); [lia |].
  destruct (_ =? _); [destruct (Z.even _) |]; lia.
Qed.

Lemma rne_exact a : rne a 0 = a.
Proof.
  unfold rne. rewrite Z.pow_0_r, Z.mod_1_r, Z.div_1_r. reflexivity.
Qed.

(** Shifting an exact mantissa and rounding the record is [rne]. *)
Lemma shr_rne a e k :
  0 <= a -> 0 <= k ->
  let mrs := fst (shr (shr_record_of_loc a loc_Exact) e k) in
  round_nearest_even (shr_m mrs) (loc_of_shr_record mrs) = rne a k.
Proof.
  intros Ha Hk mrs. subst mrs. destruct k as [|p|p]; try lia.
  - cbn [shr fst shr_record_of_loc shr_m loc_of_shr_record round_nearest_even].
    symmetry. apply rne_exact.
  - cbn [shr fst shr_record_of_loc]. rewrite iter_pos_nat.
    destruct (Pos2Nat.is_succ p) as [n Hn]. rewrite Hn.
    rewrite iter_shr_1_bits by exact Ha.
    assert (Hpn : Z.pos p = Z.of_nat n + 1) by lia.
    cbn [shr_m loc_of_shr_record]. unfold rne.
    replace (Z.of_nat (S n)) with (Z.of_nat n + 1) by lia. rewrite Hpn.
    assert (Hp : 0 < 2 ^ Z.of_nat n) by (apply Z.pow_pos_nonneg; lia).
    pose proof (Z.mod_pos_bound a (2 ^ Z.of_nat n) Hp) as Hx.
    rewrite mod_pow2_succ by lia.
    rewrite (Z.pow_add_r 2 (Z.of_nat n) 1), Z.pow_1_r by lia.
    set (x := a mod 2 ^ Z.of_nat n) in *. set (h := 2 ^ Z.of_nat n) in *.
    set (q := a / (h * 2)).
    destruct (Z.odd (a / h)).
    + replace (h <=? x + h * 1) with true by (symmetry; apply Z.leb_le; lia).
      replace (2 * (x + h * 1) <? h * 2) with false by (symmetry; apply Z.ltb_ge; lia).
      destruct (Z.eqb_spec x 0) as [E|E].
      * replace (2 * (x + h * 1) =? h * 2) with true by (symmetry; apply Z.eqb_eq; lia).
        reflexivity.
      * replace (2 * (x + h * 1) =? h * 2) with false by (symmetry; apply Z.eqb_neq; lia).
        reflexivity.
    + replace (h <=? x + h * 0) with false by (symmetry; apply Z.leb_gt; lia).
      replace (2 * (x + h * 0) <? h * 2) with true by (symmetry; apply Z.ltb_lt; lia).
      destruct (x =? 0); reflexivity.
Qed.

Lemma rne_mono a b k : 0 <= a <= b -> 0 <= k -> rne a k <= rne b k.
Proof.
  intros [Ha Hab] Hk.
  assert (Hp : 0 < 2 ^ k) by (apply Z.pow_pos_nonneg; lia).
  pose proof (Z.div_le_mono a b (2 ^ k) Hp Hab) as Hq.
  destruct (Z.eq_dec (a / 2 ^ k) (b / 2 ^ k)) as [E|E].
  - pose proof (Z.div_mod a (2 ^ k) ltac:(lia)) as Da.
    pose proof (Z.div_mod b (2 ^ k) ltac:(lia)) as Db.
    assert (Hr : a mod 2 ^ k <= b mod 2 ^ k) by (rewrite E in Da; lia).
    unfold rne. rewrite E.
    repeat match goal with
           | |- context [?x <? ?y] => destruct (Z.ltb_spec x y)
           | |- context [?x =? ?y] => destruct (Z.eqb_spec x y)
           | |- context [Z.even ?x] => destruct (Z.even x)
           end; lia.
  - pose proof (rne_bounds a k). pose proof (rne_bounds b k). lia.
Qed.

(** Rounding a mantissa of at least 53 bits, away from the subnormal and
    overflow ranges: the result is finite with a 53-bit mantissa, the
    mantissa is one of the two neighbours of the shifted input, and a
    carry out of the top bit moves the exponent up by one. *)
Lemma binary_round_aux_normal sx mx ex lx :
  0 < mx -> 53 <= Zdigits2 mx -> -1074 <= ex -> Zdigits2 mx + ex <= 1023 ->
  let k := Zdigits2 mx - 53 in
  exists r m e,
    binary_round_aux F64.prec F64.emax sx mx ex lx = S754_finite sx m e
    /\ mx / 2 ^ k <= r <= mx / 2 ^ k + 1
    /\ (lx = loc_Exact -> r = rne mx k)
    /\ 2 ^ 52 <= mx / 2 ^ k < 2 ^ 53
    /\ 2 ^ 52 <= Zpos m < 2 ^ 53
    /\ ((r < 2 ^ 53 /\ Zpos m = r /\ e = ex + k)
        \/ (r = 2 ^ 53 /\ Zpos m = 2 ^ 52 /\ e = ex + k + 1)).
Proof.
  intros Hm Hd He Hde k.
  assert (Hk : 0 <= k) by (subst k; lia).
  destruct (Zdigits2_bounds mx Hm) as [Dlo Dhi].
  assert (Hpk : 0 < 2 ^ k) by (apply Z.pow_pos_nonneg; lia).
  assert (Hq : 2 ^ 52 <= mx / 2 ^ k < 2 ^ 53).
  { replace (Zdigits2 mx - 1) with (52 + k) in Dlo by (subst k; lia).
    replace (Zdigits2 mx) with (53 + k) in Dhi by (subst k; lia).
    rewrite Z.pow_add_r in Dlo, Dhi by lia. split.
    - apply Z.div_le_lower_bound; lia.
    - apply Z.div_lt_upper_bound; lia. }
  unfold binary_round_aux, shr_fexp.
  replace (fexp F64.prec F64.emax (Zdigits2 mx + ex) - ex) with k
    by (unfold fexp, SpecFloat.emin, F64.prec, F64.emax; subst k; lia).
  pose proof (shr_m_spec (shr_record_of_loc mx lx) ex k) as H1.
  rewrite shr_record_of_loc_m in H1. destruct (H1 ltac:(lia)) as [H1m H1e]. clear H1.
  rewrite Z.max_l in H1m, H1e by lia.
  pose proof (shr_rne mx ex k ltac:(lia) Hk) as Hrne. cbv zeta in Hrne.
  assert (Hex : lx = loc_Exact ->
            round_nearest_even (shr_m (fst (shr (shr_record_of_loc mx lx) ex k)))
              (loc_of_shr_record (fst (shr (shr_record_of_loc mx lx) ex k))) = rne mx k).
  { intros ->. exact Hrne. }
  clear Hrne.
  destruct (shr (shr_record_of_loc mx lx) ex k) as [mrs' e']. cbn [fst snd] in *.
  pose proof (round_nearest_even_bounds (shr_m mrs') (loc_of_shr_record mrs')) as Hr.
  set (r := round_nearest_even (shr_m mrs') (loc_of_shr_record mrs')) in *.
  rewrite H1m in Hr. subst e'.
  assert (Hr53 : r < 2 ^ 53 \/ r = 2 ^ 53) by lia.
  exists r.
  destruct Hr53 as [Hlt|Heq].
  - assert (Hdr : Zdigits2 r = 53) by (apply Zdigits2_unique; [lia | simpl; lia]).
    rewrite Hdr.
    replace (fexp F64.prec F64.emax (53 + (ex + k)) - (ex + k)) with 0
      by (unfold fexp, SpecFloat.emin, F64.prec, F64.emax; lia).
    cbn [shr shr_record_of_loc shr_m].
    destruct r as [|p|p] eqn:Er; try lia.
    replace (ex + k <=? F64.emax - F64.prec) with true
      by (symmetry; apply Z.leb_le; unfold F64.emax, F64.prec; subst k; lia).
    exists p, (ex + k). split; [reflexivity |].
    split; [lia |]. split; [exact Hex |]. split; [exact Hq |].
    split; [lia |]. left. repeat split; lia.
  - assert (Hdr : Zdigits2 r = 54) by (rewrite Heq; reflexivity).
    rewrite Hdr.
    replace (fexp F64.prec F64.emax (54 + (ex + k)) - (ex + k)) with 1
      by (unfold fexp, SpecFloat.emin, F64.prec, F64.emax; lia).
    rewrite Heq.
    cbn [shr shr_record_of_loc shr_m SpecFloat.iter_pos shr_1 Z.pow Z.pow_pos Pos.iter Pos.mul].
    replace (ex + k + 1 <=? F64.emax - F64.prec) with true
      by (symmetry; apply Z.leb_le; unfold F64.emax, F64.prec; subst k; lia).
    eexists _, (ex + k + 1). split; [reflexivity |].
    split; [lia |]. split; [intros E; rewrite <- Heq; exact (Hex E) |].
    split; [exact Hq |].
    split; [simpl; lia |]. right. repeat split; lia.
Qed.

Lemma leb_finite m1 e1 m2 e2 :
  F64.leb (S754_finite false m1 e1) (S754_finite false m2 e2) = true
  <-> e1 < e2 \/ (e1 = e2 /\ Zpos m1 <= Zpos m2).
Proof.
  unfold F64.leb, SFleb, SFcompare.
  destruct (Z.compare_spec e1 e2) as [E|E|E].
  - change (Pos.compare_cont Eq m1 m2) with (Pos.compare m1 m2).
    destruct (Pos.compare_spec m1 m2) as [M|M|M]; split; intros H;
      try reflexivity; try discriminate; lia.
  - split; [lia | reflexivity].
  - split; [discriminate | lia].
Qed.

Lemma Zdigits2_mono a b : 0 < a <= b -> Zdigits2 a <= Zdigits2 b.
Proof.
  intros [Ha Hab].
  destruct (Zdigits2_bounds a Ha) as [Alo _].
  destruct (Zdigits2_bounds b ltac:(lia)) as [_ Bhi].
  destruct (Z.le_gt_cases (Zdigits2 a) (Zdigits2 b)) as [|Hgt]; [assumption | exfalso].
  assert (2 ^ Zdigits2 b <= 2 ^ (Zdigits2 a - 1)) by (apply Z.pow_le_mono_r; lia).
  lia.
Qed.

Lemma Zdigits2_ge m k : 0 <= k -> 2 ^ k <= m -> k + 1 <= Zdigits2 m.
Proof.
  intros Hk Hm.
  assert (H0 : 0 < 2 ^ k) by (apply Z.pow_pos_nonneg; lia).
  destruct (Zdigits2_bounds m ltac:(lia)) as [_ Dhi].
  destruct (Z.le_gt_cases (k + 1) (Zdigits2 m)) as [|Hgt]; [assumption | exfalso].
  assert (1 <= Zdigits2 m) by (destruct m; simpl in *; lia).
  assert (2 ^ Zdigits2 m <= 2 ^ k) by (apply Z.pow_le_mono_r; lia).
  lia.
Qed.

Lemma shifted_53 m :
  0 < m -> 53 <= Zdigits2 m ->
  2 ^ 52 <= m / 2 ^ (Zdigits2 m - 53) < 2 ^ 53.
Proof.
  intros Hm Hd. destruct (Zdigits2_bounds m Hm) as [Dlo Dhi].
  set (k := Zdigits2 m - 53) in *.
  assert (Hpk : 0 < 2 ^ k) by (apply Z.pow_pos_nonneg; subst k; lia).
  replace (Zdigits2 m - 1) with (52 + k) in Dlo by (subst k; lia).
  replace (Zdigits2 m) with (53 + k) in Dhi by (subst k; lia).
  rewrite Z.pow_add_r in Dlo, Dhi by (subst k; lia). split.
  - apply Z.div_le_lower_bound; lia.
  - apply Z.div_lt_upper_bound; lia.
Qed.

Lemma round53_normal z : 0 < z -> 2 ^ 52 <= fst (round53 z) < 2 ^ 53.
Proof.
  intros Hz. unfold round53.
  destruct (Zdigits2_bounds z Hz) as [Dlo Dhi].
  assert (Hd1 : 1 <= Zdigits2 z) by (destruct z; simpl in *; lia).
  destruct (Z.leb_spec (Zdigits2 z) 53) as [Hd|Hd]; cbn [fst].
  - set (d := Zdigits2 z) in *.
    assert (H0 : 0 < 2 ^ (53 - d)) by (apply Z.pow_pos_nonneg; lia).
    replace (2 ^ 52) with (2 ^ (d - 1) * 2 ^ (53 - d))
      by (rewrite <- Z.pow_add_r by lia; f_equal; lia).
    replace (2 ^ 53) with (2 ^ d * 2 ^ (53 - d))
      by (rewrite <- Z.pow_add_r by lia; f_equal; lia).
    nia.
  - pose proof (shifted_53 z Hz ltac:(lia)) as Hq.
    pose proof (rne_bounds z (Zdigits2 z - 53)) as Hr.
    destruct (Z.ltb_spec (rne z (Zdigits2 z - 53)) (2 ^ 53)); cbn [fst]; lia.
Qed.

(** The float64 of a positive integer below 2^64. *)
Lemma of_Z_round53 z :
  0 < z < 2 ^ 64 ->
  exists m, F64.of_Z z = S754_finite false m (snd (round53 z))
            /\ Zpos m = fst (round53 z).
Proof.
  intros [Hz0 Hz64]. destruct z as [|p|p]; try lia.
  unfold F64.of_Z, binary_normalize, binary_round, round53.
  pose proof (Zdigits2_bounds (Zpos p) Hz0) as [Hlo Hhi].
  pose proof (Zdigits2_le (Zpos p) 64 (conj Hz0 Hz64) ltac:(lia)) as Hd.
  change (Z.pos (digits2_pos p)) with (Zdigits2 (Zpos p)).
  set (d := Zdigits2 (Zpos p)) in *.
  assert (Hd1 : 1 <= d) by (subst d; simpl; lia).
  unfold shl_align.
  replace (fexp F64.prec F64.emax (d + 0) - 0) with (d - 53)
    by (unfold fexp, SpecFloat.emin, F64.prec, F64.emax; lia).
  replace (fexp F64.prec F64.emax (d + 0)) with (d - 53)
    by (unfold fexp, SpecFloat.emin, F64.prec, F64.emax; lia).
  destruct (Z.leb_spec d 53) as [Hle|Hgt].
  - (* the integer fits the mantissa: it is kept as it is *)
    assert (Hal : exists mz, (match d - 53 with
                              | Z.neg k => (Pos.iter xO p k, d - 53)
                              | _ => (p, 0)
                              end) = (mz, d - 53)
                             /\ Zpos mz = Zpos p * 2 ^ (53 - d)).
    { destruct (d - 53) as [|k|k] eqn:Ek; try lia.
      - exists p. split; [reflexivity |]. replace (53 - d) with 0 by lia. lia.
      - exists (Pos.iter xO p k). split; [reflexivity |].
        rewrite iter_xO_Z. f_equal. f_equal. lia. }
    destruct Hal as (mz & -> & Hmz).
    assert (Hmzb : 2 ^ 52 <= Zpos mz < 2 ^ 53).
    { rewrite Hmz.
      assert (H0 : 0 < 2 ^ (53 - d)) by (apply Z.pow_pos_nonneg; lia).
      replace (2 ^ 52) with (2 ^ (d - 1) * 2 ^ (53 - d))
        by (rewrite <- Z.pow_add_r by lia; f_equal; lia).
      replace (2 ^ 53) with (2 ^ d * 2 ^ (53 - d))
        by (rewrite <- Z.pow_add_r by lia; f_equal; lia).
      nia. }
    assert (Hdz : Zdigits2 (Zpos mz) = 53) by (apply Zdigits2_unique; [lia | simpl; lia]).
    destruct (binary_round_aux_normal false (Zpos mz) (d - 53) loc_Exact)
      as (r & m & e & Heq & _ & Hr & _ & _ & Hcase); try lia.
    specialize (Hr eq_refl). rewrite Hdz in Hr, Hcase.
    change (53 - 53) with 0 in Hr, Hcase. rewrite rne_exact in Hr.
    exists m. rewrite Heq. cbn [fst snd].
    destruct Hcase as [(_ & Hm & He)|(Hc & _)]; [| lia].
    split; [f_equal; lia | lia].
  - (* more than 53 bits: the low bits are rounded away *)
    assert (Hal : (match d - 53 with
                   | Z.neg k => (Pos.iter xO p k, d - 53)
                   | _ => (p, 0)
                   end) = (p, 0)).
    { destruct (d - 53) as [|k|k] eqn:Ek; try lia; reflexivity. }
    rewrite Hal.
    destruct (binary_round_aux_normal false (Zpos p) 0 loc_Exact)
      as (r & m & e & Heq & _ & Hr & _ & _ & Hcase); fold d; try lia.
    specialize (Hr eq_refl). fold d in Hr, Hcase. rewrite Hr in Hcase.
    exists m. rewrite Heq.
    destruct Hcase as [(Hlt & Hm & He)|(Hc & Hm & He)].
    + replace (rne (Z.pos p) (d - 53) <? 2 ^ 53) with true
        by (symmetry; apply Z.ltb_lt; exact Hlt).
      cbn [fst snd]. split; [f_equal; lia | lia].
    + replace (rne (Z.pos p) (d - 53) <? 2 ^ 53) with false
        by (symmetry; apply Z.ltb_ge; lia).
      cbn [fst snd]. split; [f_equal; lia | lia].
Qed.

(** Rounding to float64 keeps the order of integers. *)
Lemma round53_mono a b :
  0 < a <= b ->
  snd (round53 a) < snd (round53 b)
  \/ (snd (round53 a) = snd (round53 b) /\ fst (round53 a) <= fst (round53 b)).
Proof.
  intros [Ha Hab].
  pose proof (Zdigits2_mono a b (conj Ha Hab)) as Hd.
  pose proof (round53_normal b ltac:(lia)) as Hnb.
  unfold round53 in *.
  destruct (Z.leb_spec (Zdigits2 a) 53) as [Ha53|Ha53];
    destruct (Z.leb_spec (Zdigits2 b) 53) as [Hb53|Hb53]; cbn [fst snd] in *; try lia.
  - destruct (Z.eq_dec (Zdigits2 a) (Zdigits2 b)) as [E|E]; [right | left; lia].
    rewrite E. split; [reflexivity |].
    apply Z.mul_le_mono_nonneg_r; [apply Z.pow_nonneg; lia | exact Hab].
  - destruct (Z.ltb_spec (rne b (Zdigits2 b - 53)) (2 ^ 53)); cbn [fst snd]; left; lia.
  - destruct (Z.eq_dec (Zdigits2 a) (Zdigits2 b)) as [E|E].
    + rewrite E in *.
      pose proof (rne_mono a b (Zdigits2 b - 53) ltac:(lia) ltac:(lia)) as Hr.
      destruct (Z.ltb_spec (rne a (Zdigits2 b - 53)) (2 ^ 53));
        destruct (Z.ltb_spec (rne b (Zdigits2 b - 53)) (2 ^ 53)); cbn [fst snd] in *; lia.
    + destruct (Z.ltb_spec (rne a (Zdigits2 a - 53)) (2 ^ 53));
        destruct (Z.ltb_spec (rne b (Zdigits2 b - 53)) (2 ^ 53)); cbn [fst snd] in *; lia.
Qed.

Lemma of_Z_mono a b :
  0 < a <= b -> b < 2 ^ 64 -> F64.leb (F64.of_Z a) (F64.of_Z b) = true.
Proof.
  intros Hab Hb.
  destruct (of_Z_round53 a ltac:(lia)) as (ma & -> & Hma).
  destruct (of_Z_round53 b ltac:(lia)) as (mb & -> & Hmb).
  apply leb_finite. rewrite Hma, Hmb. apply round53_mono. exact Hab.
Qed.

(** A rounding never steps over a float64: a mantissa whose value lies
    below the float64 (mg, eg) rounds to at most (mg, eg). *)
Lemma binary_round_aux_below mx ex lx mg eg :
  0 < mx -> 53 <= Zdigits2 mx -> -1074 <= ex -> Zdigits2 mx + ex <= 1023 ->
  2 ^ 52 <= Zpos mg < 2 ^ 53 -> ex <= eg ->
  mx < Zpos mg * 2 ^ (eg - ex) ->
  exists m e,
    binary_round_aux F64.prec F64.emax false mx ex lx = S754_finite false m e
    /\ 2 ^ 52 <= Zpos m < 2 ^ 53
    /\ ex <= e
    /\ (e < eg \/ (e = eg /\ Zpos m <= Zpos mg)).
Proof.
  intros Hm Hd He Hde Hg Heg Hlt.
  destruct (binary_round_aux_normal false mx ex lx Hm Hd He Hde)
    as (r & m & e & Heq & Hr & _ & Hq & Hmn & Hcase).
  destruct (Zdigits2_bounds mx Hm) as [Dlo _].
  set (k := Zdigits2 mx - 53) in *.
  assert (Hk : 0 <= k) by (subst k; lia).
  exists m, e. split; [exact Heq |]. split; [exact Hmn |]. split; [lia |].
  destruct (Z.lt_trichotomy (ex + k) eg) as [Hc|[Hc|Hc]].
  - destruct Hcase as [(_ & _ & ->)|(_ & Hm52 & ->)]; [left; exact Hc |].
    destruct (Z.eq_dec (ex + k + 1) eg); [right | left]; lia.
  - replace (eg - ex) with k in Hlt by lia.
    assert (Hpk : 0 < 2 ^ k) by (apply Z.pow_pos_nonneg; lia).
    assert (mx / 2 ^ k < Zpos mg) by (apply Z.div_lt_upper_bound; lia).
    destruct Hcase as [(_ & Hmr & ->)|(Hr53 & _ & _)]; [right; lia | lia].
  - exfalso.
    replace (Zdigits2 mx - 1) with (52 + k) in Dlo by (subst k; lia).
    assert (H0 : 0 < 2 ^ (eg - ex)) by (apply Z.pow_pos_nonneg; lia).
    assert (H1 : Zpos mg * 2 ^ (eg - ex) < 2 ^ 53 * 2 ^ (eg - ex)) by nia.
    rewrite <- Z.pow_add_r in H1 by lia.
    assert (H2 : 2 ^ (53 + (eg - ex)) <= 2 ^ (52 + k)) by (apply Z.pow_le_mono_r; lia).
    lia.
Qed.

Lemma div_eucl_div a b : Z.div_eucl a b = (a / b, a mod b).
Proof. unfold Z.div, Z.modulo. destruct (Z.div_eucl a b). reflexivity. Qed.

Lemma new_location_exact n : new_location n 0 = loc_Exact.
Proof. unfold new_location. destruct (Z.even n); reflexivity. Qed.

(** A float64 divided by itself is exactly 1. *)
Lemma div_self m e :
  F64.div (S754_finite false m e) (S754_finite false m e)
    = S754_finite false 4503599627370496 (-52).
Proof.
  unfold F64.div, SFdiv, SFdiv_core_binary.
  rewrite !Z.sub_diag.
  change (Z.min (fexp F64.prec F64.emax 0) 0) with (-53).
  change (0 - -53) with 53. cbv iota.
  rewrite div_eucl_div.
  rewrite Z.shiftl_mul_pow2 by lia.
  rewrite Z.mul_comm, Z.div_mul, Z.mod_mul by lia.
  rewrite new_location_exact. vm_compute. reflexivity.
Qed.

(** The quotient of two float64s of a 64-bit integer conversion, the first
    not above the second, is at most 1. *)
Lemma div_le_one mx ex my ey :
  2 ^ 52 <= Zpos mx < 2 ^ 53 -> 2 ^ 52 <= Zpos my < 2 ^ 53 ->
  -400 <= ex <= 400 -> -400 <= ey <= 400 ->
  ex < ey \/ (ex = ey /\ Zpos mx <= Zpos my) ->
  exists m e,
    F64.div (S754_finite false mx ex) (S754_finite false my ey) = S754_finite false m e
    /\ 2 ^ 52 <= Zpos m < 2 ^ 53
    /\ -853 <= e
    /\ (e < -52 \/ (e = -52 /\ Zpos m = 2 ^ 52)).
Proof.
  intros Hx Hy Hex Hey Hle.
  destruct (Z.eq_dec ex ey) as [Ee|Ee], (Z.eq_dec (Zpos mx) (Zpos my)) as [Em|Em].
  1: { injection Em as ->. subst ey. rewrite div_self.
       exists 4503599627370496%positive, (-52). repeat split; try lia. }
  all: unfold F64.div, SFdiv, SFdiv_core_binary;
    rewrite (Zdigits2_unique (Zpos mx) 53), (Zdigits2_unique (Zpos my) 53)
      by (simpl; lia);
    replace (Z.min (fexp F64.prec F64.emax (53 + ex - (53 + ey))) (ex - ey))
      with (ex - ey - 53)
      by (unfold fexp, SpecFloat.emin, F64.prec, F64.emax; lia);
    replace (ex - ey - (ex - ey - 53)) with 53 by lia;
    rewrite div_eucl_div, Z.shiftl_mul_pow2 by lia;
    cbn [xorb];
    set (q := Z.pos mx * 2 ^ 53 / Z.pos my);
    assert (Hq52 : 2 ^ 52 <= q) by (apply Z.div_le_lower_bound; lia);
    assert (Hq54 : q < 2 ^ 54) by (apply Z.div_lt_upper_bound; lia);
    pose proof (Zdigits2_ge q 52 ltac:(lia) Hq52) as Hd1;
    pose proof (Zdigits2_le q 54 ltac:(lia) ltac:(lia)) as Hd2;
    destruct (binary_round_aux_below q (ex - ey - 53)
                (new_location (Z.pos my) (Z.pos mx * 2 ^ 53 mod Z.pos my))
                4503599627370496 (-52))
      as (m & e & Heq & Hmn & Hee & Hc); try lia.
  - (* same exponent, smaller mantissa *)
    replace (-52 - (ex - ey - 53)) with 1 by lia.
    change (Z.pos 4503599627370496 * 2 ^ 1) with (2 ^ 53).
    apply Z.div_lt_upper_bound; lia.
  - exists m, e. split; [exact Heq |]. split; [exact Hmn |]. split; [lia |].
    destruct Hc as [Hc|[Hc1 Hc2]]; [left; exact Hc | right; lia].
  - assert (H4 : 2 ^ 2 <= 2 ^ (-52 - (ex - ey - 53))) by (apply Z.pow_le_mono_r; lia).
    change (2 ^ 2) with 4 in H4. lia.
  - exists m, e. split; [exact Heq |]. split; [exact Hmn |]. split; [lia |].
    destruct Hc as [Hc|[Hc1 Hc2]]; [left; exact Hc | right; lia].
  - assert (H4 : 2 ^ 2 <= 2 ^ (-52 - (ex - ey - 53))) by (apply Z.pow_le_mono_r; lia).
    change (2 ^ 2) with 4 in H4. lia.
  - exists m, e. split; [exact Heq |]. split; [exact Hmn |]. split; [lia |].
    destruct Hc as [Hc|[Hc1 Hc2]]; [left; exact Hc | right; lia].
Qed.

Lemma of_Z_100 : F64.of_Z 100 = S754_finite false 7036874417766400 (-46).
Proof. vm_compute. reflexivity. Qed.

(** A float64 that is at most 1, times 100, is at most 100. *)
Lemma mul_100_le m e :
  2 ^ 52 <= Zpos m < 2 ^ 53 -> -900 <= e ->
  e < -52 \/ (e = -52 /\ Zpos m = 2 ^ 52) ->
  F64.leb (F64.mul (S754_finite false m e) (F64.of_Z 100)) (F64.of_Z 100) = true.
Proof.
  intros Hm He [Hlt|[-> Hm52]].
  - rewrite of_Z_100. unfold F64.mul, SFmul. cbn [xorb].
    rewrite Pos2Z.inj_mul.
    set (M := Z.pos 7036874417766400).
    assert (HM : 2 ^ 52 <= M < 2 ^ 53) by (subst M; simpl; lia).
    assert (Hp : 2 ^ 104 <= Z.pos m * M < 2 ^ 106).
    { change (2 ^ 104) with (2 ^ 52 * 2 ^ 52). change (2 ^ 106) with (2 ^ 53 * 2 ^ 53). nia. }
    pose proof (Zdigits2_ge (Z.pos m * M) 104 ltac:(lia) ltac:(lia)) as Hd1.
    pose proof (Zdigits2_le (Z.pos m * M) 106 ltac:(lia) ltac:(lia)) as Hd2.
    destruct (binary_round_aux_below (Z.pos m * M) (e + -46) loc_Exact
                7036874417766400 (-46))
      as (m' & e' & Heq & Hmn & Hee & Hc); try lia.
    + fold M. replace (-46 - (e + -46)) with (- e) by lia.
      assert (H53 : 2 ^ 53 <= 2 ^ (- e)) by (apply Z.pow_le_mono_r; lia).
      nia.
    + rewrite Heq. apply leb_finite. exact Hc.
  - assert (Em : m = 4503599627370496%positive) by (simpl in Hm52; lia).
    subst m. vm_compute. reflexivity.
Qed.

(** ** Percentages

    Both percentages of the exporter have the shape
    float64(part) / float64(whole) * 100 over 64-bit unsigned integers. *)

Lemma percent_at_most_100 part whole :
  0 <= part <= whole -> 0 < whole < 2 ^ 64 ->
  F64.leb (F64.mul (F64.div (F64.of_Z part) (F64.of_Z whole)) (F64.of_Z 100))
          (F64.of_Z 100) = true.
Proof.
  intros [Hp Hpw] Hw.
  destruct (of_Z_round53 whole Hw) as (mw & Ew & Hmw).
  pose proof (round53_normal whole ltac:(lia)) as Hnw.
  destruct (Z.eq_dec part 0) as [->|Hp0].
  - rewrite Ew. vm_compute. reflexivity.
  - destruct (of_Z_round53 part ltac:(lia)) as (mp & Ep & Hmp).
    pose proof (round53_normal part ltac:(lia)) as Hnp.
    pose proof (round53_mono part whole ltac:(lia)) as Hmono.
    assert (Hrange : forall z, 0 < z < 2 ^ 64 -> -400 <= snd (round53 z) <= 400).
    { intros z Hz. unfold round53.
      pose proof (Zdigits2_le z 64 ltac:(lia) ltac:(lia)).
      assert (1 <= Zdigits2 z) by (destruct z; simpl in *; lia).
      destruct (_ <=? 53); [cbn [snd]; lia |].
      destruct (_ <? _); cbn [snd]; lia. }
    rewrite Ep, Ew.
    destruct (div_le_one mp (snd (round53 part)) mw (snd (round53 whole)))
      as (m & e & -> & Hn & He & Hc); try lia.
    + apply Hrange; lia.
    + apply Hrange; lia.
    + apply mul_100_le; [exact Hn | lia | exact Hc].
Qed.

Lemma percent_all whole :
  0 < whole < 2 ^ 64 ->
  F64.mul (F64.div (F64.of_Z whole) (F64.of_Z whole)) (F64.of_Z 100) = F64.of_Z 100.
Proof.
  intros Hw. destruct (of_Z_round53 whole Hw) as (mw & -> & _).
  rewrite div_self. vm_compute. reflexivity.
Qed.

Lemma percent_none whole :
  0 < whole < 2 ^ 64 ->
  F64.mul (F64.div (F64.of_Z 0) (F64.of_Z whole)) (F64.of_Z 100) = F64.zero.
Proof.
  intros Hw. destruct (of_Z_round53 whole Hw) as (mw & -> & _). reflexivity.
Qed.

(** ** CPU usage and disk capacity stay within 0..100 *)

(** Between two reads of /proc/stat in which idle + iowait advanced by no
    more than the sum of all counters (differences taken as the code
    takes them, in uint64), the usage returned lies between 0 and 100.
    It is exactly 100 when the idle counters did not move while the total
    did, and exactly 0 when all of the advance was idle time. *)
Theorem cpu_usage_at_most_100 (c c1 : CPU.CPUCollector) (sys : System)
    (usage : float64) :
  CPU.readCPUUsage c sys = (Some usage, c1) ->
  let totalDelta := sub64 (CPU.prevTotal c1) (CPU.prevTotal c) in
  let idleDelta := sub64 (CPU.prevIdle c1) (CPU.prevIdle c) in
  idleDelta <= totalDelta ->
  F64.leb F64.zero usage = true
  /\ F64.leb usage (F64.of_Z 100) = true
  /\ (CPU.prevTotal c <> 0 -> totalDelta <> 0 -> idleDelta = 0 ->
      usage = F64.of_Z 100)
  /\ (CPU.prevTotal c <> 0 -> idleDelta = totalDelta -> usage = F64.zero).
Proof.
  unfold CPU.readCPUUsage. destruct (Open sys "/proc/stat") as [f|]; [| discriminate].
  intros H. destruct (scanStat_some c (lines f) usage c1 H) as (fields & Hf).
  rewrite Hf in H. injection H as Hu Hc1. clear Hf.
  revert Hu Hc1. unfold CPU.usageOfFields.
  match goal with |- context [{| CPU.prevIdle := ?i; CPU.prevTotal := ?t |}] =>
    set (idleTotal := i); set (total := t) end.
  destruct (Z.eqb_spec (CPU.prevTotal c) 0) as [E0|E0]; cbn [fst snd].
  { intros <- <-. cbn [CPU.prevTotal CPU.prevIdle]. intros _.
    repeat split; try reflexivity; intros; congruence. }
  destruct (Z.eqb_spec (sub64 total (CPU.prevTotal c)) 0) as [E1|E1]; cbn [fst snd].
  { intros <- <-. cbn [CPU.prevTotal CPU.prevIdle]. intros _.
    repeat split; try reflexivity; intros; congruence. }
  intros <- <-. cbn [CPU.prevTotal CPU.prevIdle].
  pose proof (sub64_range total (CPU.prevTotal c)) as Ht.
  pose proof (sub64_range idleTotal (CPU.prevIdle c)) as Hi.
  set (totalDelta := sub64 total (CPU.prevTotal c)) in *.
  set (idleDelta := sub64 idleTotal (CPU.prevIdle c)) in *.
  intros Hle.
  assert (Hs : sub64 totalDelta idleDelta = totalDelta - idleDelta).
  { unfold sub64. apply Z.mod_small. lia. }
  rewrite Hs. split; [| split; [| split]].
  - apply signed_leb, usage_value_signed; lia.
  - apply percent_at_most_100; lia.
  - intros _ _ ->. rewrite Z.sub_0_r. apply percent_all. lia.
  - intros _ ->. rewrite Z.sub_diag. apply percent_none. lia.
Qed.

Lemma cpu_usage_at_most_100_witness :
  F64.leb F64.zero (F64.of_Z 25) = true
  /\ F64.leb (F64.of_Z 25) (F64.of_Z 100) = true.
Proof.
  destruct (cpu_usage_at_most_100 {| CPU.prevIdle := 850; CPU.prevTotal := 1000 |}
              {| CPU.prevIdle := 1600; CPU.prevTotal := 2000 |} stat2 (F64.of_Z 25)
              eq_refl ltac:(vm_compute; discriminate)) as (H0 & H100 & _).
  split; [exact H0 | exact H100].
Defined.

(** The used percentage of the root filesystem. On a filesystem with at
    least one block, a positive block size, no more available blocks than
    blocks, and a size in bytes that fits 64 bits, collectRootCapacity
    sends one gauge, computed from (Blocks - Bavail) * Bsize and
    Blocks * Bsize without wrap-around; it lies between 0 and 100, is
    exactly 100 when no block is available and exactly 0 when all are. *)
Theorem root_capacity_bounds (stat : DiskRoot.Statfs_t) :
  0 < DiskRoot.Bsize stat ->
  0 <= DiskRoot.Bavail stat <= DiskRoot.Blocks stat ->
  0 < DiskRoot.Blocks stat ->
  DiskRoot.Blocks stat * DiskRoot.Bsize stat < 2 ^ 64 ->
  exists usedPercent,
    DiskRoot.collectRootCapacity (Some stat)
      = [MustNewConstMetric DiskRoot.usedDesc GaugeValue usedPercent []]
    /\ usedPercent
         = F64.mul
             (F64.div
                (F64.of_Z ((DiskRoot.Blocks stat - DiskRoot.Bavail stat)
                           * DiskRoot.Bsize stat))
                (F64.of_Z (DiskRoot.Blocks stat * DiskRoot.Bsize stat)))
             (F64.of_Z 100)
    /\ F64.leb F64.zero usedPercent = true
    /\ F64.leb usedPercent (F64.of_Z 100) = true
    /\ (DiskRoot.Bavail stat = 0 -> usedPercent = F64.of_Z 100)
    /\ (DiskRoot.Bavail stat = DiskRoot.Blocks stat -> usedPercent = F64.zero).
Proof.
  destruct stat as [bs bl ba]. cbn [DiskRoot.Bsize DiskRoot.Blocks DiskRoot.Bavail].
  intros Hbs Hba Hbl Hfit.
  unfold DiskRoot.collectRootCapacity.
  cbn [DiskRoot.Bsize DiskRoot.Blocks DiskRoot.Bavail].
  assert (Hpos : 0 < bl * bs) by nia.
  assert (Hav : 0 <= ba * bs <= bl * bs) by nia.
  assert (Ebs : bs mod 2 ^ 64 = bs) by (apply Z.mod_small; nia).
  assert (Et : mul64 bl (bs mod 2 ^ 64) = bl * bs).
  { rewrite Ebs. unfold mul64. apply Z.mod_small. lia. }
  assert (Ea : mul64 ba (bs mod 2 ^ 64) = ba * bs).
  { rewrite Ebs. unfold mul64. apply Z.mod_small. lia. }
  rewrite Et, Ea.
  replace (bl * bs =? 0) with false by (symmetry; apply Z.eqb_neq; lia).
  assert (Es : sub64 (bl * bs) (ba * bs) = (bl - ba) * bs).
  { unfold sub64. rewrite Z.mod_small by lia. ring. }
  rewrite Es.
  eexists. split; [reflexivity |]. split; [reflexivity |].
  split; [| split; [| split]].
  - apply signed_leb, usage_value_signed; nia.
  - apply percent_at_most_100; nia.
  - intros ->. rewrite Z.sub_0_r. apply percent_all. lia.
  - intros ->. rewrite Z.sub_diag, Z.mul_0_l. apply percent_none. lia.
Qed.

Lemma root_capacity_bounds_witness :
  exists usedPercent,
    DiskRoot.collectRootCapacity
      (Some {| DiskRoot.Bsize := 4096; DiskRoot.Blocks := 1000; DiskRoot.Bavail := 250 |})
      = [MustNewConstMetric DiskRoot.usedDesc GaugeValue usedPercent []]
    /\ usedPercent = F64.of_Z 75
    /\ F64.leb usedPercent (F64.of_Z 100) = true.
Proof.
  destruct (root_capacity_bounds
              {| DiskRoot.Bsize := 4096; DiskRoot.Blocks := 1000; DiskRoot.Bavail := 250 |})
    as (v & Hc & Hv & _ & H100 & _); cbn; try lia.
  exists v. split; [exact Hc |]. split; [| exact H100].
  rewrite Hv. vm_compute. reflexivity.
Defined.
